(** * x402-Solana: codec, requirement validator, scheme engines, facilitator

    A shallow embedding of the TypeScript sources of the x402-Solana
    packages [core] (types.ts, utils.ts), [solana-scheme]
    (solana-transfer.ts, solana-spl.ts) and [facilitator]
    (facilitator-service.ts), together with models of the platform
    functions they call (Buffer, JSON, parseFloat, BigInt, bs58,
    PublicKey, Connection, Transaction), and the properties of the
    protocol specification stated and settled against them.

    Conventions.
    - A JavaScript string is a [string] holding its UTF-8 bytes; strings
      are assumed to contain no unpaired surrogate.  [Js.length] counts
      UTF-16 code units, as [String.prototype.length] does.
    - A JavaScript number is an IEEE-754 binary64 value, [spec_float] of
      the Standard Library, with its operations at precision 53 and
      maximal exponent 1024.  Millisecond clock readings and payload
      timestamps are integers, held as [Z].
    - A BigInt is a [Z].
    - Asynchronous calls are sequenced as written; an [await] is a bind of
      the effect monad [M]. *)

From Stdlib Require Import ZArith List String Ascii Bool Lia SpecFloat.
From stdpp Require Import base option list strings gmap.

Set Warnings "-register-all".
Local Open Scope Z_scope.

(** ** JavaScript strings *)

Module Js.

(** The numeric value of a byte. *)
Definition code (c : ascii) : Z := Z.of_N (N_of_ascii c).

Definition chr (n : Z) : ascii := ascii_of_N (Z.to_N n).

Definition zero : ascii := chr 0.

(** The double quote. *)
Definition dquote : ascii := chr 34.

(** A UTF-8 continuation byte, 10xxxxxx. *)
Definition is_cont (c : ascii) : bool := (128 <=? code c) && (code c <? 192).

(** [s.length]: the number of UTF-16 code units.  Every code point
    contributes one unit per lead byte, and one more when it needs four
    bytes (a surrogate pair). *)
Fixpoint length (s : string) : Z :=
  match s with
  | EmptyString => 0
  | String c r =>
      (if is_cont c then 0 else if 240 <=? code c then 2 else 1) + length r
  end.

(** [s.startsWith(p)] *)
Definition startsWith (s p : string) : bool := String.prefix p s.

(** [!s] for a string: only the empty string is falsy. *)
Definition falsy (s : string) : bool := String.eqb s EmptyString.

(** Decimal digits of a non-negative integer, most significant first. *)
Fixpoint digits_fuel (fuel : nat) (n : Z) (acc : string) : string :=
  match fuel with
  | O => acc
  | S fuel' =>
      let acc' := String (chr (48 + n mod 10)) acc in
      if n <? 10 then acc' else digits_fuel fuel' (n / 10) acc'
  end.

Definition digits (n : Z) : string :=
  digits_fuel (S (Z.to_nat (Z.log2 n))) n "".

(** [String(n)] and [n.toString()] for an integer (a BigInt, or a number
    that is a safe integer). *)
Definition string_of_Z (n : Z) : string :=
  if n <? 0 then String "-"%char (digits (- n)) else digits n.

End Js.

(** ** Exceptions *)

(** The classes of the values the code throws and inspects. *)
Inductive ErrorClass :=
| Error_                       (* a plain [Error] *)
| X402Error_
| SolanaPaymentError_
| TokenAccountNotFoundError_
| SyntaxError_
| RangeError_
| TypeError_.

Record JsError := {
  err_class : ErrorClass;
  err_message : string;
  err_code : option string      (* [code] of an X402Error *)
}.

(** [new X402Error(message, code)] *)
Definition X402Error (message code : string) : JsError :=
  {| err_class := X402Error_; err_message := message; err_code := Some code |}.

(** [new SolanaPaymentError(message)] *)
Definition SolanaPaymentError (message : string) : JsError :=
  {| err_class := SolanaPaymentError_; err_message := message;
     err_code := Some "SOLANA_PAYMENT_ERROR"%string |}.

Definition PlainError (message : string) : JsError :=
  {| err_class := Error_; err_message := message; err_code := None |}.

(** The completion of a call that may throw. *)
Inductive completion (A : Type) :=
| Return (a : A)
| Throw (e : JsError).
Arguments Return {A} a.
Arguments Throw {A} e.

#[global] Instance completion_ret : MRet completion := fun A a => Return a.
#[global] Instance completion_bind : MBind completion := fun A B f c =>
  match c with
  | Return a => f a
  | Throw e => Throw e
  end.

(** ** bs58 and PublicKey (@solana/web3.js) *)

Module Base58.

Definition ALPHABET : string :=
  "123456789ABCDEFGHJKLMNPQRSTUVWXYZabcdefghijkmnopqrstuvwxyz".

Fixpoint index_from (i : Z) (alphabet : string) (c : ascii) : option Z :=
  match alphabet with
  | EmptyString => None
  | String a r => if Ascii.eqb a c then Some i else index_from (i + 1) r c
  end.

(** BASE_MAP: the value of a character, if it is in the alphabet. *)
Definition value (c : ascii) : option Z := index_from 0 ALPHABET c.

(** The leading '1' characters, which stand for leading zero bytes. *)
Fixpoint leading_ones (s : string) : nat * string :=
  match s with
  | String "1"%char r => let '(n, t) := leading_ones r in (S n, t)
  | _ => (O, s)
  end.

(** The number written by the characters, base 58; [None] at a
    character outside the alphabet. *)
Fixpoint number (acc : Z) (s : string) : option Z :=
  match s with
  | EmptyString => Some acc
  | String c r =>
      match value c with
      | Some v => number (acc * 58 + v) r
      | None => None
      end
  end.

(** Big-endian bytes of a number, without leading zero bytes. *)
Fixpoint be_bytes (fuel : nat) (n : Z) (acc : list ascii) : list ascii :=
  match fuel with
  | O => acc
  | S fuel' =>
      if n <=? 0 then acc
      else be_bytes fuel' (n / 256) (Js.chr (n mod 256) :: acc)
  end.

Definition bytes_of_number (n : Z) : list ascii :=
  be_bytes (S (Z.to_nat (Z.log2 n))) n [].

(** [bs58.decode]: [None] stands for the thrown "Non-base58 character". *)
Definition decode (s : string) : option (list ascii) :=
  let '(zeroes, rest) := leading_ones s in
  match number 0 rest with
  | Some n => Some (replicate zeroes Js.zero ++ bytes_of_number n)
  | None => None
  end.

Fixpoint leading_zeroes (b : list ascii) : nat * list ascii :=
  match b with
  | c :: r =>
      if Ascii.eqb c Js.zero then let '(n, t) := leading_zeroes r in (S n, t)
      else (O, b)
  | [] => (O, b)
  end.

Definition number_of_bytes (b : list ascii) : Z :=
  fold_left (fun acc c => acc * 256 + Js.code c) b 0.

Definition digit (v : Z) : ascii :=
  match String.get (Z.to_nat v) ALPHABET with
  | Some c => c
  | None => "1"%char
  end.

Fixpoint digits58 (fuel : nat) (n : Z) (acc : string) : string :=
  match fuel with
  | O => acc
  | S fuel' =>
      if n <=? 0 then acc
      else digits58 fuel' (n / 58) (String (digit (n mod 58)) acc)
  end.

Fixpoint ones (n : nat) (s : string) : string :=
  match n with
  | O => s
  | S n' => String "1"%char (ones n' s)
  end.

(** [bs58.encode] *)
Definition encode (b : list ascii) : string :=
  let '(zeroes, rest) := leading_zeroes b in
  let n := number_of_bytes rest in
  ones zeroes (digits58 (S (Z.to_nat (Z.log2 n))) n EmptyString).

End Base58.

(** A public key is its 32 bytes. *)
Record PublicKey := { pk_bytes : list ascii }.

Definition PUBLIC_KEY_LENGTH : nat := 32.

(** [new PublicKey(value)] for a string: base58-decode, and require
    exactly 32 bytes. *)
Definition new_PublicKey (value : string) : completion PublicKey :=
  match Base58.decode value with
  | None => Throw (PlainError "Non-base58 character")
  | Some decoded =>
      if Nat.eqb (List.length decoded) PUBLIC_KEY_LENGTH
      then Return {| pk_bytes := decoded |}
      else Throw (PlainError "Invalid public key input")
  end.

(** [publicKey.toString()], which is [toBase58()]. *)
Definition PublicKey_toString (k : PublicKey) : string :=
  Base58.encode (pk_bytes k).

(** ** Connection (@solana/web3.js) *)

Module Connection.

(** [/^https?:/.test(endpoint)] *)
Definition http (endpoint : string) : bool :=
  Js.startsWith endpoint "http:" || Js.startsWith endpoint "https:".

(** What follows the first colon, when something precedes it. *)
Fixpoint after_colon (seen : bool) (s : string) : option string :=
  match s with
  | EmptyString => None
  | String c r =>
      if Ascii.eqb c ":" then (if seen then Some r else None)
      else after_colon true r
  end.

Fixpoint has_close (s : string) : bool :=
  match s with
  | EmptyString => false
  | String c r => Ascii.eqb c "]" || has_close r
  end.

(** The host of URL_RE at the head of [s]: one or more characters that
    are neither a colon nor an opening bracket, or an opening bracket,
    one or more characters other than a closing bracket, and a closing
    bracket. *)
Definition hostish (s : string) : bool :=
  match s with
  | EmptyString => false
  | String c r =>
      if Ascii.eqb c "[" then
        match r with
        | String c2 r2 => negb (Ascii.eqb c2 "]") && has_close r2
        | EmptyString => false
        end
      else negb (Ascii.eqb c ":")
  end.

(** [endpoint.match(URL_RE)], whether there is a match; URL_RE reads:
    from the start, one or more characters other than a colon, then
    [://], then the host as above; an optional port and any rest
    follow. *)
Definition matches_URL_RE (endpoint : string) : bool :=
  match after_colon false endpoint with
  | Some (String c1 (String c2 r)) =>
      Ascii.eqb c1 "/" && Ascii.eqb c2 "/" && hostish r
  | _ => false
  end.

(** [new Connection(endpoint, 'confirmed')]: the endpoint is kept when
    it starts with [http:] or [https:] and a WebSocket address can be
    made of it; nothing is sent. *)
Definition new (endpoint : string) : completion string :=
  if negb (http endpoint)
  then Throw {| err_class := TypeError_;
                err_message :=
                  "Endpoint URL must start with `http:` or `https:`.";
                err_code := None |}
  else if negb (matches_URL_RE endpoint)
  then Throw {| err_class := TypeError_;
                err_message :=
                  "Failed to validate endpoint URL `" +:+ endpoint +:+ "`";
                err_code := None |}
  else Return endpoint.

End Connection.

(** ** Numbers: IEEE-754 binary64 *)

Module Number.

Definition prec : Z := 53.
Definition emax : Z := 1024.

Definition number := spec_float.

Definition NaN : number := S754_nan.

(** The number nearest to an integer (ties to even): [Number(bigint)],
    and the value of an integer literal. *)
Definition of_Z (z : Z) : number := binary_normalize prec emax z 0 false.

Definition mul : number -> number -> number := SFmul prec emax.
Definition div : number -> number -> number := SFdiv prec emax.

Definition isNaN (x : number) : bool :=
  match x with S754_nan => true | _ => false end.

(** [x <= y]; false when either is NaN. *)
Definition leb : number -> number -> bool := SFleb.

(** The number nearest to [(-1)^neg * m * 10^e10], for [m >= 0]: the
    value of a decimal literal. *)
Definition of_decimal (neg : bool) (m e10 : Z) : number :=
  match m with
  | Zpos p =>
      if 0 <=? e10
      then of_Z ((if neg then Z.opp else id) (m * 10 ^ e10))
      else div (S754_finite neg p 0)
               (S754_finite false (Z.to_pos (10 ^ (- e10))) 0)
  | _ => S754_zero neg
  end.

(** [Math.pow(10, d)] for an integer [d]: the number nearest to [10^d].
    For [0 <= d <= 22] the power is a number and every engine returns it;
    elsewhere ECMAScript lets an engine return an approximation, which
    can differ from the nearest number in the last place. *)
Definition pow10 (d : Z) : number := of_decimal false 1 d.

(** [Math.floor(x)] *)
Definition floor (x : number) : number :=
  match x with
  | S754_finite s m e =>
      if 0 <=? e then x
      else
        let q := Z.shiftr (Zpos m) (- e) in
        if s then
          if Z.shiftl q (- e) =? Zpos m then of_Z (- q) else of_Z (- (q + 1))
        else if q =? 0 then S754_zero false else of_Z q
  | _ => x
  end.

(** The integer a number denotes, when it is one. *)
Definition to_integer (x : number) : option Z :=
  match x with
  | S754_zero _ => Some 0
  | S754_finite s m e =>
      let sign := if s then Z.opp else id in
      if 0 <=? e then Some (sign (Z.shiftl (Zpos m) e))
      else
        let q := Z.shiftr (Zpos m) (- e) in
        if Z.shiftl q (- e) =? Zpos m then Some (sign q) else None
  | _ => None
  end.

(** White space and line terminators of ECMAScript, in UTF-8: the
    length in bytes of the white-space character a string starts with. *)
Definition ws_prefix (s : string) : option nat :=
  match s with
  | String c1 r1 =>
      let a := Js.code c1 in
      if (a =? 9) || (a =? 10) || (a =? 11) || (a =? 12) || (a =? 13)
         || (a =? 32)
      then Some 1%nat
      else
        match r1 with
        | String c2 r2 =>
            let b := Js.code c2 in
            if (a =? 194) && (b =? 160) then Some 2%nat     (* U+00A0 *)
            else
              match r2 with
              | String c3 _ =>
                  let c := Js.code c3 in
                  if (a =? 239) && (b =? 187) && (c =? 191)  (* U+FEFF *)
                     || (a =? 225) && (b =? 154) && (c =? 128) (* U+1680 *)
                     || (a =? 226) && (b =? 128)
                        && ((128 <=? c) && (c <=? 138)      (* U+2000-200A *)
                            || (c =? 168) || (c =? 169)     (* U+2028, 2029 *)
                            || (c =? 175))                  (* U+202F *)
                     || (a =? 226) && (b =? 129) && (c =? 159) (* U+205F *)
                     || (a =? 227) && (b =? 128) && (c =? 128) (* U+3000 *)
                  then Some 3%nat
                  else None
              | EmptyString => None
              end
        | EmptyString => None
        end
  | EmptyString => None
  end.

Fixpoint drop_str (n : nat) (s : string) : string :=
  match n, s with
  | S n', String _ r => drop_str n' r
  | _, _ => s
  end.

(** Leading white space removed. *)
Fixpoint trim_start_fuel (fuel : nat) (s : string) : string :=
  match fuel with
  | O => s
  | S fuel' =>
      match ws_prefix s with
      | Some n => trim_start_fuel fuel' (drop_str n s)
      | None => s
      end
  end.

Definition trim_start (s : string) : string :=
  trim_start_fuel (String.length s) s.

Definition is_digit (c : ascii) : bool :=
  (48 <=? Js.code c) && (Js.code c <=? 57).

(** Reads decimal digits onto the accumulator; returns the new
    accumulator, the number of digits read and the rest. *)
Fixpoint scan_digits (acc : Z) (n : Z) (s : string) : Z * Z * string :=
  match s with
  | String c r =>
      if is_digit c then scan_digits (acc * 10 + (Js.code c - 48)) (n + 1) r
      else (acc, n, s)
  | EmptyString => (acc, n, s)
  end.

(** An optional sign: whether it is '-', and the rest. *)
Definition scan_sign (s : string) : bool * string :=
  match s with
  | String "-"%char r => (true, r)
  | String "+"%char r => (false, r)
  | _ => (false, s)
  end.

(** An exponent part [e[+-]digits] at the head of [s], if there is one:
    its value.  A dangling "e" is not part of the literal. *)
Definition scan_exponent (s : string) : Z :=
  match s with
  | String c r =>
      if Ascii.eqb c "e" || Ascii.eqb c "E" then
        let '(eneg, r1) := scan_sign r in
        let '(ev, en, _) := scan_digits 0 0 r1 in
        if en =? 0 then 0 else if eneg then - ev else ev
      else 0
  | EmptyString => 0
  end.

(** [parseFloat(s)]: the value of the longest prefix of the trimmed
    string that is a StrDecimalLiteral, NaN when there is none. *)
Definition parseFloat (s : string) : number :=
  let '(neg, r0) := scan_sign (trim_start s) in
  if String.prefix "Infinity" r0 then S754_infinity neg
  else
    let '(ip, ni, r1) := scan_digits 0 0 r0 in
    let '(m, nf, r2) :=
      match r1 with
      | String "."%char t => scan_digits ip 0 t
      | _ => (ip, 0, r1)
      end in
    if ni + nf =? 0 then NaN
    else of_decimal neg m (scan_exponent r2 - nf).

End Number.

(** ** Buffer: base64 and UTF-8 (Node.js) *)

Definition Buffer := list ascii.

Module Base64.

(** The character of a 6-bit value in the standard alphabet. *)
Definition digit (v : Z) : ascii :=
  if v <? 26 then Js.chr (65 + v)
  else if v <? 52 then Js.chr (97 + (v - 26))
  else if v <? 62 then Js.chr (48 + (v - 52))
  else if v =? 62 then "+"%char
  else "/"%char.

(** unbase64: the value of a character of the standard or of the
    URL-safe alphabet. *)
Definition value (c : ascii) : option Z :=
  let a := Js.code c in
  if (65 <=? a) && (a <=? 90) then Some (a - 65)
  else if (97 <=? a) && (a <=? 122) then Some (a - 97 + 26)
  else if (48 <=? a) && (a <=? 57) then Some (a - 48 + 52)
  else if (a =? 43) || (a =? 45) then Some 62
  else if (a =? 47) || (a =? 95) then Some 63
  else None.

(** [buffer.toString('base64')]: three bytes make four characters; the
    last group is padded with '='. *)
Fixpoint encode (b : Buffer) : string :=
  match b with
  | [] => EmptyString
  | [x] =>
      let x := Js.code x in
      String (digit (x / 4)) (String (digit (x mod 4 * 16))
        (String "="%char (String "="%char EmptyString)))
  | [x; y] =>
      let x := Js.code x in
      let y := Js.code y in
      String (digit (x / 4)) (String (digit (x mod 4 * 16 + y / 16))
        (String (digit (y mod 16 * 4)) (String "="%char EmptyString)))
  | x :: y :: z :: r =>
      let x := Js.code x in
      let y := Js.code y in
      let z := Js.code z in
      String (digit (x / 4)) (String (digit (x mod 4 * 16 + y / 16))
        (String (digit (y mod 16 * 4 + z / 64)) (String (digit (z mod 64))
          (encode r))))
  end.

(** The 6-bit values of the legal characters up to the first '=';
    characters outside the alphabets are skipped. *)
Fixpoint sextets (s : string) : list Z :=
  match s with
  | EmptyString => []
  | String c r =>
      if Ascii.eqb c "=" then []
      else
        match value c with
        | Some v => v :: sextets r
        | None => sextets r
        end
  end.

(** Four values make three bytes; a final group of two or three values
    makes one or two bytes, a single left-over value none. *)
Fixpoint pack (l : list Z) : Buffer :=
  match l with
  | a :: b :: c :: d :: r =>
      Js.chr (a * 4 + b / 16) :: Js.chr (b mod 16 * 16 + c / 4)
        :: Js.chr (c mod 4 * 64 + d) :: pack r
  | [a; b; c] => [Js.chr (a * 4 + b / 16); Js.chr (b mod 16 * 16 + c / 4)]
  | [a; b] => [Js.chr (a * 4 + b / 16)]
  | _ => []
  end.

(** [Buffer.from(s, 'base64')]; it never throws. *)
Definition decode (s : string) : Buffer := pack (sextets s).

End Base64.

Module Utf8.

Definition in_range (lo hi : Z) (c : ascii) : bool :=
  (lo <=? Js.code c) && (Js.code c <=? hi).

(** U+FFFD REPLACEMENT CHARACTER, prepended. *)
Definition replacement (s : string) : string :=
  String (Js.chr 239) (String (Js.chr 191) (String (Js.chr 189) s)).

(** The range of the second byte after a three-byte lead. *)
Definition second3 (lead : ascii) (c : ascii) : bool :=
  in_range (if Js.code lead =? 224 then 160 else 128)
           (if Js.code lead =? 237 then 159 else 191) c.

(** The range of the second byte after a four-byte lead. *)
Definition second4 (lead : ascii) (c : ascii) : bool :=
  in_range (if Js.code lead =? 240 then 144 else 128)
           (if Js.code lead =? 244 then 143 else 191) c.

(** [Buffer.from(s)] (UTF-8 is the default encoding): the bytes of the
    string. *)
Definition encode (s : string) : Buffer := list_ascii_of_string s.

(** [buffer.toString('utf8')]: well-formed sequences are kept; every
    maximal ill-formed part is replaced by U+FFFD.  It never throws. *)
Fixpoint decode (b : Buffer) : string :=
  match b with
  | [] => EmptyString
  | c1 :: r1 =>
      if Js.code c1 <? 128 then String c1 (decode r1)
      else if in_range 194 223 c1 then
        match r1 with
        | c2 :: r2 =>
            if Js.is_cont c2 then String c1 (String c2 (decode r2))
            else replacement (decode r1)
        | [] => replacement EmptyString
        end
      else if in_range 224 239 c1 then
        match r1 with
        | c2 :: r2 =>
            if second3 c1 c2 then
              match r2 with
              | c3 :: r3 =>
                  if Js.is_cont c3
                  then String c1 (String c2 (String c3 (decode r3)))
                  else replacement (decode r2)
              | [] => replacement EmptyString
              end
            else replacement (decode r1)
        | [] => replacement EmptyString
        end
      else if in_range 240 244 c1 then
        match r1 with
        | c2 :: r2 =>
            if second4 c1 c2 then
              match r2 with
              | c3 :: r3 =>
                  if Js.is_cont c3 then
                    match r3 with
                    | c4 :: r4 =>
                        if Js.is_cont c4
                        then String c1 (String c2 (String c3 (String c4
                               (decode r4))))
                        else replacement (decode r3)
                    | [] => replacement EmptyString
                    end
                  else replacement (decode r2)
              | [] => replacement EmptyString
              end
            else replacement (decode r1)
        | [] => replacement EmptyString
        end
      else replacement (decode r1)
  end.

(** Well-formed UTF-8. *)
Fixpoint valid (s : string) : bool :=
  match s with
  | EmptyString => true
  | String c1 r1 =>
      if Js.code c1 <? 128 then valid r1
      else if in_range 194 223 c1 then
        match r1 with
        | String c2 r2 => Js.is_cont c2 && valid r2
        | EmptyString => false
        end
      else if in_range 224 239 c1 then
        match r1 with
        | String c2 (String c3 r3) =>
            second3 c1 c2 && Js.is_cont c3 && valid r3
        | _ => false
        end
      else if in_range 240 244 c1 then
        match r1 with
        | String c2 (String c3 (String c4 r4)) =>
            second4 c1 c2 && Js.is_cont c3 && Js.is_cont c4 && valid r4
        | _ => false
        end
      else false
  end.

(** The UTF-8 bytes of a code point (of a lone surrogate too). *)
Definition of_code_point (u : Z) (s : string) : string :=
  if u <? 128 then String (Js.chr u) s
  else if u <? 2048 then
    String (Js.chr (192 + u / 64)) (String (Js.chr (128 + u mod 64)) s)
  else if u <? 65536 then
    String (Js.chr (224 + u / 4096))
      (String (Js.chr (128 + u / 64 mod 64))
         (String (Js.chr (128 + u mod 64)) s))
  else
    String (Js.chr (240 + u / 262144))
      (String (Js.chr (128 + u / 4096 mod 64))
         (String (Js.chr (128 + u / 64 mod 64))
            (String (Js.chr (128 + u mod 64)) s))).

End Utf8.

(** ** Number::toString *)

Module NumberFormat.

Definition sf_eqb (x y : spec_float) : bool :=
  match x, y with
  | S754_zero a, S754_zero b => Bool.eqb a b
  | S754_infinity a, S754_infinity b => Bool.eqb a b
  | S754_nan, S754_nan => true
  | S754_finite a m e, S754_finite b m' e' =>
      Bool.eqb a b && Pos.eqb m m' && (e =? e')
  | _, _ => false
  end.

(** For [v = num / den < 1]: the least [j >= 0] with
    [10^-(j+1) <= v]. *)
Fixpoint leading_zeros (fuel : nat) (num den : Z) (j : Z) : Z :=
  match fuel with
  | O => j
  | S fuel' =>
      if den <=? num * 10 then j
      else leading_zeros fuel' (num * 10) den (j + 1)
  end.

(** The [n] with [10^(n-1) <= num / den < 10^n]. *)
Definition magnitude (num den : Z) : Z :=
  if den <=? num
  then Z.of_nat (String.length (Js.digits (num / den)))
  else - leading_zeros 400 num den 0.

(** The shortest digits: the least [k] for which some [k]-digit [s] has
    [s * 10^(n-k)] read back as [x], and among those the [s] nearest to
    the value.  Returns [(s, k, n)]. *)
Fixpoint shortest (fuel : nat) (x : spec_float) (num den n k : Z)
  : Z * Z * Z :=
  let '(N, D) :=
    if 0 <=? k - n then (num * 10 ^ (k - n), den)
    else (num, den * 10 ^ (n - k)) in
  let lo := N / D in
  let hi := lo + 1 in
  let ok s := sf_eqb (Number.of_decimal false s (n - k)) x in
  let pick_hi := if hi =? 10 ^ k then (10 ^ (k - 1), k, n + 1)
                 else (hi, k, n) in
  match fuel with
  | O => (lo, k, n)
  | S fuel' =>
      if ok lo then
        if ok hi then
          let twice := 2 * (N - lo * D) in
          if (twice <? D) || ((twice =? D) && Z.even lo)
          then (lo, k, n) else pick_hi
        else (lo, k, n)
      else if ok hi then pick_hi
      else shortest fuel' x num den n (k + 1)
  end.

Fixpoint zeros (n : nat) (s : string) : string :=
  match n with
  | O => s
  | S n' => String "0"%char (zeros n' s)
  end.

Definition take_str (n : Z) (s : string) : string :=
  String.substring 0 (Z.to_nat n) s.

Definition drop_str (n : Z) (s : string) : string :=
  Number.drop_str (Z.to_nat n) s.

(** The digits [ds] of [s] laid out for the decimal exponent [n]. *)
Definition layout (ds : string) (k n : Z) : string :=
  if (k <=? n) && (n <=? 21) then ds +:+ zeros (Z.to_nat (n - k)) ""
  else if (0 <? n) && (n <=? 21)
    then take_str n ds +:+ "." +:+ drop_str n ds
  else if (-6 <? n) && (n <=? 0)
    then "0." +:+ zeros (Z.to_nat (- n)) ds
  else
    let e := n - 1 in
    let es := (if e <? 0 then "-" else "+") +:+ Js.digits (Z.abs e) in
    if k =? 1 then ds +:+ "e" +:+ es
    else take_str 1 ds +:+ "." +:+ drop_str 1 ds +:+ "e" +:+ es.

Definition SAFE : Z := 2 ^ 53.

(** [x.toString()].  A safe integer is written with all its digits;
    any other finite number with the shortest digits that read back as
    the same number. *)
Definition toString (x : Number.number) : string :=
  match x with
  | S754_nan => "NaN"
  | S754_infinity s => if s then "-Infinity" else "Infinity"
  | S754_zero _ => "0"
  | S754_finite sg m e =>
      match Number.to_integer x with
      | Some i =>
          if Z.abs i <=? SAFE then Js.string_of_Z i
          else
            let '(s, k, n) :=
              shortest 17 (S754_finite false m e) (Z.abs i) 1
                (magnitude (Z.abs i) 1) 1 in
            (if sg then "-" else "") +:+ layout (Js.digits s) k n
      | None =>
          let num := Z.shiftl (Zpos m) (Z.max e 0) in
          let den := Z.shiftl 1 (Z.max (- e) 0) in
          let '(s, k, n) :=
            shortest 17 (S754_finite false m e) num den
              (magnitude num den) 1 in
          (if sg then "-" else "") +:+ layout (Js.digits s) k n
      end
  end.

End NumberFormat.

(** ** BigInt *)

Module BigInt.

(** Whether the string is white space only. *)
Definition only_ws (s : string) : bool :=
  String.eqb (Number.trim_start s) "".

Definition digit_value (c : ascii) : option Z :=
  let a := Js.code c in
  if (48 <=? a) && (a <=? 57) then Some (a - 48)
  else if (97 <=? a) && (a <=? 122) then Some (a - 87)
  else if (65 <=? a) && (a <=? 90) then Some (a - 55)
  else None.

(** Digits of the given radix followed by white space only; [seen] says
    whether a digit has been read. *)
Fixpoint scan_radix (radix : Z) (acc : Z) (seen : bool) (s : string)
  : option Z :=
  match s with
  | EmptyString => if seen then Some acc else None
  | String c r =>
      match digit_value c with
      | Some v =>
          if v <? radix then scan_radix radix (acc * radix + v) true r
          else None
      | None => if seen && only_ws s then Some acc else None
      end
  end.

(** StringToBigInt: white space is trimmed; the empty string is 0; a
    decimal literal may carry a sign; 0x, 0o and 0b literals may not. *)
Definition of_string_opt (s : string) : option Z :=
  let t := Number.trim_start s in
  match t with
  | EmptyString => Some 0
  | String "0"%char (String p r) =>
      if Ascii.eqb p "x" || Ascii.eqb p "X" then scan_radix 16 0 false r
      else if Ascii.eqb p "o" || Ascii.eqb p "O" then scan_radix 8 0 false r
      else if Ascii.eqb p "b" || Ascii.eqb p "B" then scan_radix 2 0 false r
      else scan_radix 10 0 false t
  | String "-"%char r => Z.opp <$> scan_radix 10 0 false r
  | String "+"%char r => scan_radix 10 0 false r
  | _ => scan_radix 10 0 false t
  end.

(** [BigInt(s)] for a string *)
Definition of_string (s : string) : completion Z :=
  match of_string_opt s with
  | Some n => Return n
  | None =>
      Throw {| err_class := SyntaxError_;
               err_message := "Cannot convert " +:+ s +:+ " to a BigInt";
               err_code := None |}
  end.

(** [BigInt(x)] for a number *)
Definition of_number (x : Number.number) : completion Z :=
  match Number.to_integer x with
  | Some n => Return n
  | None =>
      Throw {| err_class := RangeError_;
               err_message :=
                 "The number " +:+ NumberFormat.toString x
                 +:+ " cannot be converted to a BigInt because it is not an integer";
               err_code := None |}
  end.

End BigInt.

(** ** JSON *)

(** A JavaScript value that JSON can carry.  The members of an object
    are in property-enumeration order. *)
Inductive json :=
| JNull
| JBool (b : bool)
| JNum (x : Number.number)
| JStr (s : string)
| JArr (elements : list json)
| JObj (members : list (string * json)).

Module JSON.

Definition hex_digit (v : Z) : ascii :=
  if v <? 10 then Js.chr (48 + v) else Js.chr (87 + v).

(** QuoteJSONString, one character: the characters after it are [k]. *)
Definition quote_char (c : ascii) (k : string) : string :=
  let a := Js.code c in
  if a =? 34 then String "\"%char (String Js.dquote k)
  else if a =? 92 then String "\"%char (String "\"%char k)
  else if a =? 8 then String "\"%char (String "b"%char k)
  else if a =? 12 then String "\"%char (String "f"%char k)
  else if a =? 10 then String "\"%char (String "n"%char k)
  else if a =? 13 then String "\"%char (String "r"%char k)
  else if a =? 9 then String "\"%char (String "t"%char k)
  else if a <? 32 then
    String "\"%char (String "u"%char (String "0"%char (String "0"%char
      (String (hex_digit (a / 16)) (String (hex_digit (a mod 16)) k)))))
  else String c k.

Fixpoint quote_body (s : string) (k : string) : string :=
  match s with
  | EmptyString => k
  | String c r => quote_char c (quote_body r k)
  end.

Definition quote (s : string) (k : string) : string :=
  String Js.dquote (quote_body s (String Js.dquote k)).

Definition finite (x : Number.number) : bool :=
  match x with
  | S754_zero _ | S754_finite _ _ _ => true
  | _ => false
  end.

(** The JSON text of a value, followed by [k]. *)
Fixpoint write (v : json) (k : string) : string :=
  match v with
  | JNull => "null" +:+ k
  | JBool true => "true" +:+ k
  | JBool false => "false" +:+ k
  | JNum x =>
      if finite x then NumberFormat.toString x +:+ k else "null" +:+ k
  | JStr s => quote s k
  | JArr l =>
      String "["%char
        match l with
        | [] => String "]"%char k
        | x :: r =>
            write x
              ((fix more (r : list json) : string :=
                  match r with
                  | [] => String "]"%char k
                  | y :: r' => String ","%char (write y (more r'))
                  end) r)
        end
  | JObj ms =>
      String "{"%char
        match ms with
        | [] => String "}"%char k
        | (key, x) :: r =>
            quote key (String ":"%char
              (write x
                 ((fix more (r : list (string * json)) : string :=
                     match r with
                     | [] => String "}"%char k
                     | (key', y) :: r' =>
                         String ","%char
                           (quote key' (String ":"%char (write y (more r'))))
                     end) r)))
        end
  end.

(** [JSON.stringify(value)] *)
Definition stringify (v : json) : string := write v EmptyString.

(** *** JSON.parse *)

Definition is_ws (c : ascii) : bool :=
  let a := Js.code c in (a =? 32) || (a =? 9) || (a =? 10) || (a =? 13).

Fixpoint skip_ws (s : string) : string :=
  match s with
  | String c r => if is_ws c then skip_ws r else s
  | EmptyString => s
  end.

Definition hex_value (c : ascii) : option Z :=
  let a := Js.code c in
  if (48 <=? a) && (a <=? 57) then Some (a - 48)
  else if (97 <=? a) && (a <=? 102) then Some (a - 87)
  else if (65 <=? a) && (a <=? 70) then Some (a - 55)
  else None.

Definition is_high (u : Z) : bool := (55296 <=? u) && (u <=? 56319).
Definition is_low (u : Z) : bool := (56320 <=? u) && (u <=? 57343).

Inductive StrState :=
| SNormal
| SEscape
| SHex (n : nat) (acc : Z).

(** A high surrogate read from an escape waits for its low half. *)
Definition flush (pending : option Z) (out : string) : string :=
  match pending with
  | Some h => Utf8.of_code_point h out
  | None => out
  end.

Definition emit (pre : string -> string) (res : option (string * string))
  : option (string * string) :=
  match res with
  | Some (out, rest) => Some (pre out, rest)
  | None => None
  end.

(** The characters of a string literal after its opening quote: the
    string, and what follows the closing quote. *)
Fixpoint parse_string_body (st : StrState) (pending : option Z)
    (s : string) : option (string * string) :=
  match s with
  | EmptyString => None
  | String c r =>
      match st with
      | SNormal =>
          if Ascii.eqb c Js.dquote then Some (flush pending EmptyString, r)
          else if Ascii.eqb c "\" then parse_string_body SEscape pending r
          else if Js.code c <? 32 then None
          else emit (fun o => flush pending (String c o))
                    (parse_string_body SNormal None r)
      | SEscape =>
          if Ascii.eqb c "u" then parse_string_body (SHex 0 0) pending r
          else
            let plain (d : ascii) :=
              emit (fun o => flush pending (String d o))
                   (parse_string_body SNormal None r) in
            if Ascii.eqb c Js.dquote then plain Js.dquote
            else if Ascii.eqb c "\" then plain "\"%char
            else if Ascii.eqb c "/" then plain "/"%char
            else if Ascii.eqb c "b" then plain (Js.chr 8)
            else if Ascii.eqb c "f" then plain (Js.chr 12)
            else if Ascii.eqb c "n" then plain (Js.chr 10)
            else if Ascii.eqb c "r" then plain (Js.chr 13)
            else if Ascii.eqb c "t" then plain (Js.chr 9)
            else None
      | SHex n acc =>
          match hex_value c with
          | None => None
          | Some h =>
              let u := acc * 16 + h in
              match n with
              | 3%nat =>
                  match pending with
                  | Some hi =>
                      if is_low u then
                        emit (Utf8.of_code_point
                                (65536 + (hi - 55296) * 1024 + (u - 56320)))
                             (parse_string_body SNormal None r)
                      else if is_high u then
                        emit (Utf8.of_code_point hi)
                             (parse_string_body SNormal (Some u) r)
                      else
                        emit (fun o => Utf8.of_code_point hi
                                         (Utf8.of_code_point u o))
                             (parse_string_body SNormal None r)
                  | None =>
                      if is_high u
                      then parse_string_body SNormal (Some u) r
                      else emit (Utf8.of_code_point u)
                                (parse_string_body SNormal None r)
                  end
              | _ => parse_string_body (SHex (S n) u) pending r
              end
          end
      end
  end.

(** A JSON number at the head of [s]. *)
Definition parse_number (s : string) : option (Number.number * string) :=
  let '(neg, r0) :=
    match s with
    | String c r => if Ascii.eqb c "-" then (true, r) else (false, s)
    | EmptyString => (false, s)
    end in
  let int_part :=
    match r0 with
    | String c r1 =>
        if Ascii.eqb c "0" then Some (0, r1)
        else if Number.is_digit c
        then let '(m, _, r1) := Number.scan_digits 0 0 r0 in Some (m, r1)
        else None
    | EmptyString => None
    end in
  match int_part with
  | None => None
  | Some (ip, r1) =>
      let frac :=
        match r1 with
        | String "."%char t =>
            let '(m, nf, r2) := Number.scan_digits ip 0 t in
            if nf =? 0 then None else Some (m, nf, r2)
        | _ => Some (ip, 0, r1)
        end in
      match frac with
      | None => None
      | Some (m, nf, r2) =>
          match r2 with
          | String c t =>
              if Ascii.eqb c "e" || Ascii.eqb c "E" then
                let '(eneg, t1) := Number.scan_sign t in
                let '(ev, en, r3) := Number.scan_digits 0 0 t1 in
                if en =? 0 then None
                else Some (Number.of_decimal neg m
                             ((if eneg then - ev else ev) - nf), r3)
              else Some (Number.of_decimal neg m (- nf), r2)
          | EmptyString => Some (Number.of_decimal neg m (- nf), r2)
          end
      end
  end.

(** Array indices are enumerated first, in ascending order. *)
Definition array_index (key : string) : option Z :=
  match key with
  | EmptyString => None
  | String "0"%char EmptyString => Some 0
  | String "0"%char _ => None
  | _ =>
      let '(n, _, rest) := Number.scan_digits 0 0 key in
      if String.eqb rest "" && (n <? 4294967295) then Some n else None
  end.

(** [object[key] = value] on the members in enumeration order. *)
Fixpoint obj_set (key : string) (v : json) (ms : list (string * json))
  : list (string * json) :=
  match ms with
  | [] => [(key, v)]
  | (k', v') :: r =>
      if String.eqb k' key then (k', v) :: r
      else
        match array_index key, array_index k' with
        | Some i, Some j =>
            if (i <? j) && negb (existsb (fun m => String.eqb (fst m) key) r)
            then (key, v) :: ms
            else (k', v') :: obj_set key v r
        | Some i, None =>
            if negb (existsb (fun m => String.eqb (fst m) key) r)
            then (key, v) :: ms
            else (k', v') :: obj_set key v r
        | None, _ => (k', v') :: obj_set key v r
        end
  end.

Definition object_of (ms : list (string * json)) : json :=
  JObj (fold_left (fun o m => obj_set (fst m) (snd m) o) ms []).

(** The text after the character [c], where [s] starts with it. *)
Definition peek (c : ascii) (s : string) : option string :=
  match s with
  | String c' r => if Ascii.eqb c' c then Some r else None
  | EmptyString => None
  end.

Definition literal (word : string) (v : json) (s : string)
  : option (json * string) :=
  if String.prefix word s
  then Some (v, Number.drop_str (String.length word) s)
  else None.

(** A value at the head of [s] (white space already skipped), and the
    text after it. *)
Fixpoint parse_value (fuel : nat) (s : string) : option (json * string) :=
  match fuel with
  | O => None
  | S fuel' =>
      match s with
      | EmptyString => None
      | String c r =>
          if Ascii.eqb c "{" then
            match peek "}" (skip_ws r) with
            | Some r' => Some (JObj [], r')
            | None =>
                match parse_members fuel' (skip_ws r) with
                | Some (ms, r'') => Some (object_of ms, r'')
                | None => None
                end
            end
          else if Ascii.eqb c "[" then
            match peek "]" (skip_ws r) with
            | Some r' => Some (JArr [], r')
            | None =>
                match parse_elements fuel' (skip_ws r) with
                | Some (l, r'') => Some (JArr l, r'')
                | None => None
                end
            end
          else if Ascii.eqb c Js.dquote then
            match parse_string_body SNormal None r with
            | Some (str, r') => Some (JStr str, r')
            | None => None
            end
          else if Ascii.eqb c "t" then literal "true" (JBool true) s
          else if Ascii.eqb c "f" then literal "false" (JBool false) s
          else if Ascii.eqb c "n" then literal "null" JNull s
          else
            match parse_number s with
            | Some (x, r') => Some (JNum x, r')
            | None => None
            end
      end
  end

with parse_elements (fuel : nat) (s : string)
  : option (list json * string) :=
  match fuel with
  | O => None
  | S fuel' =>
      match parse_value fuel' s with
      | None => None
      | Some (v, r1) =>
          match skip_ws r1 with
          | String ","%char r2 =>
              match parse_elements fuel' (skip_ws r2) with
              | Some (l, r3) => Some (v :: l, r3)
              | None => None
              end
          | String "]"%char r2 => Some ([v], r2)
          | _ => None
          end
      end
  end

with parse_members (fuel : nat) (s : string)
  : option (list (string * json) * string) :=
  match fuel with
  | O => None
  | S fuel' =>
      match s with
      | String c r =>
          if negb (Ascii.eqb c Js.dquote) then None else
          match parse_string_body SNormal None r with
          | None => None
          | Some (key, r1) =>
              match skip_ws r1 with
              | String ":"%char r2 =>
                  match parse_value fuel' (skip_ws r2) with
                  | None => None
                  | Some (v, r3) =>
                      match skip_ws r3 with
                      | String ","%char r4 =>
                          match parse_members fuel' (skip_ws r4) with
                          | Some (ms, r5) => Some ((key, v) :: ms, r5)
                          | None => None
                          end
                      | String "}"%char r4 => Some ([(key, v)], r4)
                      | _ => None
                      end
                  end
              | _ => None
              end
          end
      | EmptyString => None
      end
  end.

(** [JSON.parse(text)]; [None] stands for the thrown SyntaxError. *)
Definition parse (text : string) : option json :=
  match parse_value (2 * String.length text + 2) (skip_ws text) with
  | Some (v, rest) =>
      match skip_ws rest with
      | EmptyString => Some v
      | _ => None
      end
  | None => None
  end.

End JSON.

(** ** core/types.ts *)

Module Extra.
Record t := mk {
  feePayer : option string;
  priorityFee : option Z;
  memo : option string
}.
End Extra.

(** SolanaPaymentRequirement.  A field that is missing is the empty
    string: the code tests the string fields with [!field] only. *)
Module Requirement.
Record t := mk {
  scheme : string;
  network : string;
  maxAmountRequired : string;
  resource : string;
  description : string;
  mimeType : string;
  outputSchema : option json;
  payTo : string;
  maxTimeoutSeconds : Z;
  asset : string;
  extra : Extra.t
}.
End Requirement.

(** SolanaTransferPayload, with the three fields SolanaSPLPayload adds to
    it: the envelope's [payload] is [any], and each engine reads the
    fields of its own interface. *)
Module SolanaPayload.
Record t := mk {
  from : string;
  signature : string;
  amount : string;
  timestamp : Z;
  nonce : option string;
  mint : option string;
  fromTokenAccount : option string;
  toTokenAccount : option string
}.
End SolanaPayload.

Module PaymentPayload.
Record t := mk {
  x402Version : Z;
  scheme : string;
  network : string;
  payload : SolanaPayload.t
}.
End PaymentPayload.

Module VerificationResponse.
Record t := mk {
  isValid : bool;
  invalidReason : option string
}.
End VerificationResponse.

Module SettlementResponse.
Record t := mk {
  success : bool;
  error : option string;
  txHash : option string;
  networkId : option string
}.
End SettlementResponse.

Module SupportedScheme.
Record t := mk {
  scheme : string;
  network : string
}.
End SupportedScheme.

Definition X402_VERSION : Z := 1.

(** An object literal used as an enumeration: its keys and values in
    order. *)
Definition SOLANA_NETWORKS : list (string * string) :=
  [("MAINNET", "solana-mainnet"); ("DEVNET", "solana-devnet")]%string.

Definition SOLANA_SCHEMES : list (string * string) :=
  [("TRANSFER", "solana-transfer"); ("SPL", "solana-spl")]%string.

Definition Object_values {A} (o : list (string * A)) : list A := map snd o.

Definition SOLANA_SCHEMES_TRANSFER : string := "solana-transfer".
Definition SOLANA_SCHEMES_SPL : string := "solana-spl".

Definition NATIVE_SOL_MINT : string := "SOL".
Definition USDC_MINT_MAINNET : string :=
  "EPjFWdd5AufqSSqeM2qN1xzybapC8G4wEGGkZwyTDt1v".
Definition USDC_MINT_DEVNET : string :=
  "4zMMC9srt5Ri5X14GAgXhaHii3GnPAEERYPJgZJDncDU".

(** ** The JavaScript object of a payload *)

Module Wire.

Definition num (n : Z) : json := JNum (Number.of_Z n).

Definition optional (key : string) (v : option string)
  : list (string * json) :=
  match v with
  | Some s => [(key, JStr s)]
  | None => []
  end.

Definition payload_object (p : SolanaPayload.t) : json :=
  JObj ([("from"%string, JStr (SolanaPayload.from p));
         ("signature"%string, JStr (SolanaPayload.signature p));
         ("amount"%string, JStr (SolanaPayload.amount p));
         ("timestamp"%string, num (SolanaPayload.timestamp p))]
        ++ optional "nonce" (SolanaPayload.nonce p)
        ++ optional "mint" (SolanaPayload.mint p)
        ++ optional "fromTokenAccount" (SolanaPayload.fromTokenAccount p)
        ++ optional "toTokenAccount" (SolanaPayload.toTokenAccount p)).

(** The object a PaymentPayload is, its properties in the order in
    which createPaymentPayload writes them. *)
Definition object (p : PaymentPayload.t) : json :=
  JObj [("x402Version"%string, num (PaymentPayload.x402Version p));
        ("scheme"%string, JStr (PaymentPayload.scheme p));
        ("network"%string, JStr (PaymentPayload.network p));
        ("payload"%string, payload_object (PaymentPayload.payload p))].

Fixpoint get (key : string) (ms : list (string * json)) : option json :=
  match ms with
  | [] => None
  | (k, v) :: r => if String.eqb k key then Some v else get key r
  end.

Definition get_string (key : string) (ms : list (string * json))
  : option string :=
  match get key ms with
  | Some (JStr s) => Some s
  | _ => None
  end.

Definition get_integer (key : string) (ms : list (string * json))
  : option Z :=
  match get key ms with
  | Some (JNum x) => Number.to_integer x
  | _ => None
  end.

(** An optional string property: absent, or a string. *)
Definition get_optional (key : string) (ms : list (string * json))
  : option (option string) :=
  match get key ms with
  | None => Some None
  | Some (JStr s) => Some (Some s)
  | Some _ => None
  end.

Definition payload_of (v : json) : option SolanaPayload.t :=
  match v with
  | JObj ms =>
      from ← get_string "from" ms;
      signature ← get_string "signature" ms;
      amount ← get_string "amount" ms;
      timestamp ← get_integer "timestamp" ms;
      nonce ← get_optional "nonce" ms;
      mint ← get_optional "mint" ms;
      fromTokenAccount ← get_optional "fromTokenAccount" ms;
      toTokenAccount ← get_optional "toTokenAccount" ms;
      Some (SolanaPayload.mk from signature amount timestamp nonce mint
              fromTokenAccount toTokenAccount)
  | _ => None
  end.

(** The unchecked cast [value as PaymentPayload], where the value has
    the shape of the interface; [None] where it has not, and the code
    would go on with a value that is not of its declared type. *)
Definition typed (v : json) : option PaymentPayload.t :=
  match v with
  | JObj ms =>
      x402Version ← get_integer "x402Version" ms;
      scheme ← get_string "scheme" ms;
      network ← get_string "network" ms;
      payload ← get "payload" ms ≫= payload_of;
      Some (PaymentPayload.mk x402Version scheme network payload)
  | _ => None
  end.

(** The value as the engines read it.  They read [scheme] and the
    members of [payload], and never [x402Version]: where the value has
    no integer of that name, the record carries 0 in its place.  [None]
    where [scheme], [network] or [payload] has not the shape of the
    interface. *)
Definition read (v : json) : option PaymentPayload.t :=
  match v with
  | JObj ms =>
      scheme ← get_string "scheme" ms;
      network ← get_string "network" ms;
      payload ← get "payload" ms ≫= payload_of;
      Some (PaymentPayload.mk (default 0 (get_integer "x402Version" ms))
              scheme network payload)
  | _ => None
  end.

(** [value.key] for a parsed value and a key that is no property of the
    prototypes (here [scheme] and [network]): reading a property of
    [null] throws a TypeError, a primitive or an array has none of that
    name, and an object has its own or none. *)
Definition property (v : json) (key : string) : completion (option json) :=
  match v with
  | JNull =>
      Throw {| err_class := TypeError_;
               err_message :=
                 "Cannot read properties of null (reading '" +:+ key +:+ "')";
               err_code := None |}
  | JObj ms => Return (get key ms)
  | _ => Return None
  end.

(** [value === s] for a value read from a parsed object and a string. *)
Definition equals (v : option json) (s : string) : bool :=
  match v with
  | Some (JStr x) => String.eqb x s
  | _ => false
  end.

(** [String(value)] for a parsed value: an array is its elements joined
    by commas, where [null] counts as the empty string. *)
Fixpoint to_string (v : json) : string :=
  match v with
  | JNull => "null"
  | JBool true => "true"
  | JBool false => "false"
  | JNum x => NumberFormat.toString x
  | JStr s => s
  | JArr l =>
      let element (e : json) : string :=
        match e with
        | JNull => EmptyString
        | _ => to_string e
        end in
      match l with
      | [] => EmptyString
      | x :: r =>
          element x
          +:+ (fix more (r : list json) : string :=
                 match r with
                 | [] => EmptyString
                 | y :: r' => "," +:+ element y +:+ more r'
                 end) r
      end
  | JObj _ => "[object Object]"
  end.

(** A value in a template literal; an absent property is [undefined]. *)
Definition template (v : option json) : string :=
  match v with
  | Some j => to_string j
  | None => "undefined"
  end.

End Wire.

(** ** core/utils.ts *)

(** [isValidSolanaAddress] *)
Definition isValidSolanaAddress (address : string) : bool :=
  match new_PublicKey address with
  | Return _ => true
  | Throw _ => false
  end.

(** [toPublicKey] *)
Definition toPublicKey (address : string) : completion PublicKey :=
  match new_PublicKey address with
  | Return k => Return k
  | Throw _ =>
      Throw (X402Error ("Invalid Solana address: " +:+ address)
               "INVALID_ADDRESS")
  end.

(** [encodePaymentPayload] *)
Definition encodePaymentPayload (payload : PaymentPayload.t) : string :=
  Base64.encode (Utf8.encode (JSON.stringify (Wire.object payload))).

(** [decodePaymentPayload]: the parsed value is returned as it is. *)
Definition decodePaymentPayload (encoded : string) : completion json :=
  let decoded := Utf8.decode (Base64.decode encoded) in
  match JSON.parse decoded with
  | Some v => Return v
  | None =>
      Throw (X402Error "Invalid payment payload encoding" "INVALID_PAYLOAD")
  end.

Definition includes (l : list string) (s : string) : bool :=
  existsb (String.eqb s) l.

(** [validatePaymentRequirement] *)
Definition validatePaymentRequirement (requirement : Requirement.t)
  : completion unit :=
  if Js.falsy (Requirement.scheme requirement)
     || negb (includes ["solana-transfer"; "solana-spl"]%string
                (Requirement.scheme requirement))
  then Throw (X402Error "Invalid or missing scheme" "INVALID_SCHEME")
  else if Js.falsy (Requirement.network requirement)
     || negb (Js.startsWith (Requirement.network requirement) "solana-")
  then Throw (X402Error "Invalid or missing network" "INVALID_NETWORK")
  else if Js.falsy (Requirement.payTo requirement)
     || negb (isValidSolanaAddress (Requirement.payTo requirement))
  then Throw (X402Error "Invalid payTo address" "INVALID_PAY_TO")
  else if Js.falsy (Requirement.asset requirement)
  then Throw (X402Error "Missing asset specification" "MISSING_ASSET")
  else if String.eqb (Requirement.scheme requirement) "solana-spl"
     && String.eqb (Requirement.asset requirement) "SOL"
  then Throw (X402Error "SPL scheme cannot use native SOL"
                "INVALID_ASSET_SCHEME")
  else if String.eqb (Requirement.scheme requirement) "solana-transfer"
     && negb (String.eqb (Requirement.asset requirement) "SOL")
  then Throw (X402Error "Transfer scheme must use native SOL"
                "INVALID_ASSET_SCHEME")
  else
    let amount := Number.parseFloat (Requirement.maxAmountRequired requirement) in
    if Number.isNaN amount || Number.leb amount (S754_zero false)
    then Throw (X402Error "Invalid maxAmountRequired" "INVALID_AMOUNT")
    else Return tt.

(** [toAtomicUnits] *)
Definition toAtomicUnits (amount : Number.number) (decimals : Z)
  : completion Z :=
  BigInt.of_number (Number.floor (Number.mul amount (Number.pow10 decimals))).

(** [getRpcEndpoint]; [env] is [process.env]. *)
Definition getRpcEndpoint (env : string -> option string) (network : string)
  : completion string :=
  let or_default (v : option string) (d : string) :=
    match v with
    | Some u => if Js.falsy u then d else u
    | None => d
    end in
  if String.eqb network "solana-mainnet" then
    Return (or_default (env "SOLANA_MAINNET_RPC"%string)
              "https://api.mainnet-beta.solana.com")
  else if String.eqb network "solana-devnet" then
    Return (or_default (env "SOLANA_DEVNET_RPC"%string)
              "https://api.devnet.solana.com")
  else Throw (X402Error ("Unsupported network: " +:+ network)
                "UNSUPPORTED_NETWORK").

(** [isValidSignature] *)
Definition isValidSignature (signature : string) : bool :=
  (87 <=? Js.length signature) && (Js.length signature <=? 88).

(** [network = 'solana-devnet'] as a default parameter value: it stands
    in for an argument that is left out. *)
Definition network_or_default (network : option string) : string :=
  match network with
  | Some n => n
  | None => "solana-devnet"
  end.

(** [createSolTransferRequirement] *)
Definition createSolTransferRequirement
    (payTo amount resource description : string) (network : option string)
  : Requirement.t :=
  Requirement.mk "solana-transfer" (network_or_default network) amount
    resource description "application/json" None payTo 60 "SOL"
    (Extra.mk None (Some 5000) None).

(** [createSplTransferRequirement] *)
Definition createSplTransferRequirement
    (payTo amount mint resource description : string)
    (network : option string) : Requirement.t :=
  Requirement.mk "solana-spl" (network_or_default network) amount
    resource description "application/json" None payTo 60 mint
    (Extra.mk None (Some 5000) None).

(** ** The outside world: clock, RPC node, address derivation *)

(** An instruction as the libraries build it; an amount is the unsigned
    64-bit integer that its data carries. *)
Inductive Instruction :=
| SystemTransfer (fromPubkey toPubkey : PublicKey) (lamports : Z)
| CreateAssociatedTokenAccount (payer associatedToken owner mint : PublicKey)
| TokenTransfer (source destination owner : PublicKey) (amount : Z).

Module Transaction.
Record t := mk {
  instructions : list Instruction;
  recentBlockhash : option string;
  feePayer : option PublicKey
}.

(** [transaction.serialize({ requireAllSignatures: false })] of a
    transaction that nobody has signed: the message is compiled, which
    needs a recent blockhash and a fee payer, and encoded, which needs
    the blockhash to be the base58 text of 32 bytes. *)
Definition serialize (transaction : t) : completion unit :=
  match recentBlockhash transaction with
  | None => Throw (PlainError "Transaction recentBlockhash required")
  | Some blockhash =>
      if Js.falsy blockhash
      then Throw (PlainError "Transaction recentBlockhash required")
      else
        match feePayer transaction with
        | None => Throw (PlainError "Transaction fee payer required")
        | Some _ =>
            match Base58.decode blockhash with
            | None => Throw (PlainError "Non-base58 character")
            | Some decoded =>
                if Nat.eqb (List.length decoded) 32 then Return tt
                else
                  Throw {| err_class := TypeError_;
                           err_message :=
                             "Blob.encode[recentBlockhash] requires (length 32) Uint8Array as src";
                           err_code := None |}
            end
        end
  end.
End Transaction.

Record TransactionResponse := { slot : Z }.

(** The [data] of a parsed account: raw bytes, or the parsed fields of a
    mint. *)
Inductive AccountData :=
| RawData
| ParsedData (decimals : Z) (supply : string).

(** What the code asks of the outside; the first argument of an RPC is the
    endpoint of the connection. *)
Inductive Event :=
| DateNow
| GetTransaction (endpoint signature : string)
| GetAccount (endpoint : string) (address : PublicKey)
| GetLatestBlockhash (endpoint : string)
| SendRawTransaction (endpoint : string) (transaction : Transaction.t)
| ConfirmTransaction (endpoint signature : string)
| GetParsedAccountInfo (endpoint : string) (address : PublicKey).

(** The requests made so far, oldest first. *)
Definition Trace := list Event.

(** How the outside answers a request, given all earlier requests.
    [getAssociatedTokenAddress] derives an address and asks nothing of the
    node; it throws for an owner off the curve.  [encode_u64] is what
    the libraries that build an instruction make of an amount outside
    [0 .. 2^64 - 1]: they throw, or write other bytes, depending on the
    library and its version, which the sources do not fix. *)
Record World := {
  process_env : string -> option string;
  date_now : Trace -> Z;
  getTransaction :
    Trace -> string -> string -> completion (option TransactionResponse);
  getAccount : Trace -> string -> PublicKey -> completion unit;
  getLatestBlockhash : Trace -> string -> completion string;
  sendRawTransaction : Trace -> string -> Transaction.t -> completion string;
  confirmTransaction : Trace -> string -> string -> completion unit;
  getParsedAccountInfo :
    Trace -> string -> PublicKey -> completion (option AccountData);
  getAssociatedTokenAddress : PublicKey -> PublicKey -> completion PublicKey;
  encode_u64 : Z -> completion Z
}.

(** A request that changes the chain. *)
Definition mutates (e : Event) : bool :=
  match e with
  | SendRawTransaction _ _ => true
  | _ => false
  end.

(** ** The effect monad *)

Definition M (A : Type) : Type := World -> Trace -> completion A * Trace.

#[global] Instance M_ret : MRet M := fun A a _ t => (Return a, t).

#[global] Instance M_bind : MBind M := fun A B f m w t =>
  match m w t with
  | (Return a, t') => f a w t'
  | (Throw e, t') => (Throw e, t')
  end.

#[global] Instance M_fmap : FMap M := fun A B f m w t =>
  match m w t with
  | (Return a, t') => (Return (f a), t')
  | (Throw e, t') => (Throw e, t')
  end.

(** A pure call that may throw. *)
Definition lift {A} (c : completion A) : M A := fun _ t => (c, t).

(** [try body catch (error) handler] *)
Definition try_catch {A} (body : M A) (handler : JsError -> M A) : M A :=
  fun w t =>
    match body w t with
    | (Return a, t') => (Return a, t')
    | (Throw e, t') => handler e w t'
    end.

(** A request to the outside: it is recorded, and answered from the
    requests before it. *)
Definition request {A} (e : Event) (answer : World -> Trace -> completion A)
  : M A :=
  fun w t => (answer w t, t ++ [e]).

Definition Date_now : M Z := request DateNow (fun w t => Return (date_now w t)).

(** The unsigned 64-bit integer in the data of an instruction, for the
    amount [n]. *)
Definition u64 (n : Z) : M Z :=
  fun w t =>
    ((if (0 <=? n) && (n <? 2 ^ 64) then Return n else encode_u64 w n), t).

(** [SystemProgram.transfer({ fromPubkey, toPubkey, lamports })], for
    lamports that are a number: [BigInt(lamports)] is encoded. *)
Definition SystemProgram_transfer (fromPubkey toPubkey : PublicKey)
    (lamports : Number.number) : M Instruction :=
  n ← lift (BigInt.of_number lamports);
  data ← u64 n;
  mret (SystemTransfer fromPubkey toPubkey data).

(** [createTransferInstruction(source, destination, owner, amount, [],
    TOKEN_PROGRAM_ID)], for an amount that is a number: [BigInt(amount)]
    is encoded. *)
Definition createTransferInstruction (source destination owner : PublicKey)
    (amount : Number.number) : M Instruction :=
  n ← lift (BigInt.of_number amount);
  data ← u64 n;
  mret (TokenTransfer source destination owner data).

(** [error instanceof Error ? error.message : String(error)]: every value
    thrown here is an Error. *)
Definition message_of (error : JsError) : string := err_message error.

(** ** solana-scheme: results of the engines *)

Module VerifyResult.
Record t := mk {
  isValid : bool;
  invalidReason : option string
}.
End VerifyResult.

Module SettleResult.
Record t := mk {
  success : bool;
  txHash : option string;
  error : option string
}.
End SettleResult.

Definition invalid (reason : string) : VerifyResult.t :=
  VerifyResult.mk false (Some reason).

Definition valid : VerifyResult.t := VerifyResult.mk true None.

(** [5 * 60 * 1000] *)
Definition maxAge : Z := 5 * 60 * 1000.

(** ** solana-scheme/src/solana-transfer.ts *)

Module SolanaTransferScheme.

Record t := mk { connection : string }.

(** [constructor(network)] *)
Definition new (env : string -> option string) (network : string)
  : completion t :=
  rpcEndpoint ← getRpcEndpoint env network;
  connection ← Connection.new rpcEndpoint;
  mret (mk connection).

(** [verifyPayment] *)
Definition verifyPayment (self : t) (paymentPayload : PaymentPayload.t)
    (requirement : Requirement.t) : M VerifyResult.t :=
  try_catch
    (if negb (String.eqb (PaymentPayload.scheme paymentPayload)
                "solana-transfer")
     then mret (invalid "Invalid scheme")
     else
       let payload := PaymentPayload.payload paymentPayload in
       if Js.falsy (SolanaPayload.signature payload)
          || (Js.length (SolanaPayload.signature payload) <? 87)
       then mret (invalid "Invalid signature format")
       else
         fromPubkey ← lift (toPublicKey (SolanaPayload.from payload));
         toPubkey ← lift (toPublicKey (Requirement.payTo requirement));
         requiredAmount ←
           lift (toAtomicUnits
                   (Number.parseFloat
                      (Requirement.maxAmountRequired requirement)) 9);
         payloadAmount ← lift (BigInt.of_string (SolanaPayload.amount payload));
         if payloadAmount <? requiredAmount
         then mret (invalid "Insufficient payment amount")
         else
           now ← Date_now;
           if now - SolanaPayload.timestamp payload >? maxAge
           then mret (invalid "Payment payload expired")
           else mret valid)
    (fun error =>
       mret (invalid ("Verification error: " +:+ message_of error))).

(** [settlePayment] *)
Definition settlePayment (self : t) (paymentPayload : PaymentPayload.t)
    (requirement : Requirement.t) : M SettleResult.t :=
  try_catch
    (let payload := PaymentPayload.payload paymentPayload in
     verification ← verifyPayment self paymentPayload requirement;
     if negb (VerifyResult.isValid verification)
     then mret (SettleResult.mk false None
                  (VerifyResult.invalidReason verification))
     else
       onChain ←
         try_catch
           (txInfo ← request
              (GetTransaction (connection self)
                 (SolanaPayload.signature payload))
              (fun w t => getTransaction w t (connection self)
                            (SolanaPayload.signature payload));
            mret (bool_decide (is_Some txInfo)))
           (fun _ => mret false);
       if (onChain : bool)
       then mret (SettleResult.mk true
                    (Some (SolanaPayload.signature payload)) None)
       else
         fromPubkey ← lift (toPublicKey (SolanaPayload.from payload));
         toPubkey ← lift (toPublicKey (Requirement.payTo requirement));
         lamports ← lift (BigInt.of_string (SolanaPayload.amount payload));
         transferInstruction ←
           SystemProgram_transfer fromPubkey toPubkey (Number.of_Z lamports);
         blockhash ← request (GetLatestBlockhash (connection self))
           (fun w t => getLatestBlockhash w t (connection self));
         let transaction :=
           Transaction.mk [transferInstruction] (Some blockhash)
             (Some fromPubkey) in
         _ ← lift (Transaction.serialize transaction);
         signature ← request
           (SendRawTransaction (connection self) transaction)
           (fun w t => sendRawTransaction w t (connection self) transaction);
         _ ← request (ConfirmTransaction (connection self) signature)
           (fun w t => confirmTransaction w t (connection self) signature);
         mret (SettleResult.mk true (Some signature) None))
    (fun error =>
       mret (SettleResult.mk false None
               (Some ("Settlement error: " +:+ message_of error)))).

End SolanaTransferScheme.

(** ** solana-scheme/src/solana-spl.ts *)

Module SolanaSPLScheme.

Record t := mk { connection : string }.

(** [constructor(network)] *)
Definition new (env : string -> option string) (network : string)
  : completion t :=
  rpcEndpoint ← getRpcEndpoint env network;
  connection ← Connection.new rpcEndpoint;
  mret (mk connection).

Definition derive (mint owner : PublicKey) : M PublicKey :=
  fun w t => (getAssociatedTokenAddress w mint owner, t).

(** [payload.field !== expected], for a field that may be absent. *)
Definition differs (field : option string) (expected : string) : bool :=
  match field with
  | Some s => negb (String.eqb s expected)
  | None => true
  end.

(** An absent string handed to [toPublicKey] is not an address; the
    thrown TypeError is an Error with a message. *)
Definition toPublicKey_opt (field : option string) : completion PublicKey :=
  match field with
  | Some s => toPublicKey s
  | None => Throw (X402Error "Invalid Solana address: undefined"
                     "INVALID_ADDRESS")
  end.

(** [verifyPayment] *)
Definition verifyPayment (self : t) (paymentPayload : PaymentPayload.t)
    (requirement : Requirement.t) (tokenDecimals : Z) : M VerifyResult.t :=
  try_catch
    (if negb (String.eqb (PaymentPayload.scheme paymentPayload) "solana-spl")
     then mret (invalid "Invalid scheme")
     else
       let payload := PaymentPayload.payload paymentPayload in
       if Js.falsy (SolanaPayload.signature payload)
          || (Js.length (SolanaPayload.signature payload) <? 87)
       then mret (invalid "Invalid signature format")
       else if differs (SolanaPayload.mint payload)
                 (Requirement.asset requirement)
       then mret (invalid "Mint mismatch")
       else
         fromPubkey ← lift (toPublicKey (SolanaPayload.from payload));
         toPubkey ← lift (toPublicKey (Requirement.payTo requirement));
         mintPubkey ← lift (toPublicKey_opt (SolanaPayload.mint payload));
         expectedFromTokenAccount ← derive mintPubkey fromPubkey;
         expectedToTokenAccount ← derive mintPubkey toPubkey;
         if differs (SolanaPayload.fromTokenAccount payload)
              (PublicKey_toString expectedFromTokenAccount)
         then mret (invalid "Invalid from token account")
         else if differs (SolanaPayload.toTokenAccount payload)
                   (PublicKey_toString expectedToTokenAccount)
         then mret (invalid "Invalid to token account")
         else
           requiredAmount ←
             lift (toAtomicUnits
                     (Number.parseFloat
                        (Requirement.maxAmountRequired requirement))
                     tokenDecimals);
           payloadAmount ←
             lift (BigInt.of_string (SolanaPayload.amount payload));
           if payloadAmount <? requiredAmount
           then mret (invalid "Insufficient payment amount")
           else
             now ← Date_now;
             if now - SolanaPayload.timestamp payload >? maxAge
             then mret (invalid "Payment payload expired")
             else mret valid)
    (fun error =>
       mret (invalid ("Verification error: " +:+ message_of error))).

(** [settlePayment] *)
Definition settlePayment (self : t) (paymentPayload : PaymentPayload.t)
    (requirement : Requirement.t) (tokenDecimals : Z) : M SettleResult.t :=
  try_catch
    (let payload := PaymentPayload.payload paymentPayload in
     verification ←
       verifyPayment self paymentPayload requirement tokenDecimals;
     if negb (VerifyResult.isValid verification)
     then mret (SettleResult.mk false None
                  (VerifyResult.invalidReason verification))
     else
       onChain ←
         try_catch
           (txInfo ← request
              (GetTransaction (connection self)
                 (SolanaPayload.signature payload))
              (fun w t => getTransaction w t (connection self)
                            (SolanaPayload.signature payload));
            mret (bool_decide (is_Some txInfo)))
           (fun _ => mret false);
       if (onChain : bool)
       then mret (SettleResult.mk true
                    (Some (SolanaPayload.signature payload)) None)
       else
         fromPubkey ← lift (toPublicKey (SolanaPayload.from payload));
         toPubkey ← lift (toPublicKey (Requirement.payTo requirement));
         mintPubkey ← lift (toPublicKey_opt (SolanaPayload.mint payload));
         fromTokenAccount ←
           lift (toPublicKey_opt (SolanaPayload.fromTokenAccount payload));
         toTokenAccount ←
           lift (toPublicKey_opt (SolanaPayload.toTokenAccount payload));
         atomicAmount ← lift (BigInt.of_string (SolanaPayload.amount payload));
         create ←
           try_catch
             (_ ← request (GetAccount (connection self) toTokenAccount)
                (fun w t => getAccount w t (connection self) toTokenAccount);
              mret [])
             (fun error =>
                match err_class error with
                | TokenAccountNotFoundError_ =>
                    mret [CreateAssociatedTokenAccount fromPubkey
                            toTokenAccount toPubkey mintPubkey]
                | _ => mret []
                end);
         transferInstruction ←
           createTransferInstruction fromTokenAccount toTokenAccount
             fromPubkey (Number.of_Z atomicAmount);
         blockhash ← request (GetLatestBlockhash (connection self))
           (fun w t => getLatestBlockhash w t (connection self));
         let transaction :=
           Transaction.mk (create ++ [transferInstruction]) (Some blockhash)
             (Some fromPubkey) in
         _ ← lift (Transaction.serialize transaction);
         signature ← request
           (SendRawTransaction (connection self) transaction)
           (fun w t => sendRawTransaction w t (connection self) transaction);
         _ ← request (ConfirmTransaction (connection self) signature)
           (fun w t => confirmTransaction w t (connection self) signature);
         mret (SettleResult.mk true (Some signature) None))
    (fun error =>
       mret (SettleResult.mk false None
               (Some ("Settlement error: " +:+ message_of error)))).

(** [getTokenMintInfo]: the decimals and the supply of a mint. *)
Definition getTokenMintInfo (self : t) (mint : string) : M (Z * Z) :=
  try_catch
    (key ← lift (toPublicKey mint);
     mintInfo ← request (GetParsedAccountInfo (connection self) key)
       (fun w t => getParsedAccountInfo w t (connection self) key);
     match mintInfo with
     | Some (ParsedData decimals supply) =>
         total ← lift (BigInt.of_string supply);
         mret (decimals, total)
     | _ => lift (Throw (PlainError "Invalid mint account"))
     end)
    (fun error =>
       lift (Throw (SolanaPaymentError
                      ("Failed to get mint info: " +:+ message_of error)))).

End SolanaSPLScheme.

(** ** facilitator/src/facilitator-service.ts *)

Module FacilitatorService.

(** The two registries, keyed by network.  Logging is left out. *)
Record t := mk {
  transferSchemes : gmap string SolanaTransferScheme.t;
  splSchemes : gmap string SolanaSPLScheme.t
}.

(** [array.forEach(f)] over a state that [f] updates and a body that may
    throw. *)
Fixpoint forEach {A S} (l : list A) (f : A -> S -> completion S) (s : S)
  : completion S :=
  match l with
  | [] => Return s
  | x :: r => s' ← f x s; forEach r f s'
  end.

(** [initializeSchemes] *)
Definition initializeSchemes (env : string -> option string) (self : t)
  : completion t :=
  forEach (Object_values SOLANA_NETWORKS)
    (fun network self =>
       transfer ← SolanaTransferScheme.new env network;
       spl ← SolanaSPLScheme.new env network;
       mret (mk (<[network := transfer]> (transferSchemes self))
                (<[network := spl]> (splSchemes self))))
    self.

(** [constructor(logger)] *)
Definition new (env : string -> option string) : completion t :=
  initializeSchemes env (mk ∅ ∅).

(** [getSupportedSchemes] *)
Definition getSupportedSchemes (self : t) : list SupportedScheme.t :=
  fold_left
    (fun kinds network =>
       fold_left
         (fun kinds scheme => kinds ++ [SupportedScheme.mk scheme network])
         (Object_values SOLANA_SCHEMES) kinds)
    (Object_values SOLANA_NETWORKS) [].

(** [value || null] for a string that may be absent. *)
Definition or_null (v : option string) : option string :=
  match v with
  | Some s => if Js.falsy s then None else Some s
  | None => None
  end.

(** [getTokenDecimals] *)
Definition getTokenDecimals (self : t) (mint network : string) : M Z :=
  if String.eqb mint USDC_MINT_MAINNET || String.eqb mint USDC_MINT_DEVNET
  then mret 6
  else
    try_catch
      (match splSchemes self !! network with
       | None => lift (Throw (PlainError ("Unsupported network: " +:+ network)))
       | Some scheme =>
           mintInfo ← SolanaSPLScheme.getTokenMintInfo scheme mint;
           mret (fst mintInfo)
       end)
      (fun _ => mret 9).

(** [verifyTransferPayment] *)
Definition verifyTransferPayment (self : t)
    (paymentPayload : PaymentPayload.t) (requirement : Requirement.t)
  : M VerificationResponse.t :=
  match transferSchemes self !! Requirement.network requirement with
  | None =>
      mret (VerificationResponse.mk false
              (Some ("Unsupported network: "
                     +:+ Requirement.network requirement)))
  | Some scheme =>
      result ← SolanaTransferScheme.verifyPayment scheme paymentPayload
                 requirement;
      mret (VerificationResponse.mk (VerifyResult.isValid result)
              (or_null (VerifyResult.invalidReason result)))
  end.

(** [verifySPLPayment] *)
Definition verifySPLPayment (self : t)
    (paymentPayload : PaymentPayload.t) (requirement : Requirement.t)
  : M VerificationResponse.t :=
  match splSchemes self !! Requirement.network requirement with
  | None =>
      mret (VerificationResponse.mk false
              (Some ("Unsupported network: "
                     +:+ Requirement.network requirement)))
  | Some scheme =>
      tokenDecimals ← getTokenDecimals self (Requirement.asset requirement)
                        (Requirement.network requirement);
      result ← SolanaSPLScheme.verifyPayment scheme paymentPayload
                 requirement tokenDecimals;
      mret (VerificationResponse.mk (VerifyResult.isValid result)
              (or_null (VerifyResult.invalidReason result)))
  end.

(** [settleTransferPayment] *)
Definition settleTransferPayment (self : t)
    (paymentPayload : PaymentPayload.t) (requirement : Requirement.t)
  : M SettlementResponse.t :=
  match transferSchemes self !! Requirement.network requirement with
  | None =>
      mret (SettlementResponse.mk false
              (Some ("Unsupported network: "
                     +:+ Requirement.network requirement)) None None)
  | Some scheme =>
      result ← SolanaTransferScheme.settlePayment scheme paymentPayload
                 requirement;
      mret (SettlementResponse.mk (SettleResult.success result)
              (or_null (SettleResult.error result))
              (or_null (SettleResult.txHash result))
              (Some (Requirement.network requirement)))
  end.

(** [settleSPLPayment] *)
Definition settleSPLPayment (self : t)
    (paymentPayload : PaymentPayload.t) (requirement : Requirement.t)
  : M SettlementResponse.t :=
  match splSchemes self !! Requirement.network requirement with
  | None =>
      mret (SettlementResponse.mk false
              (Some ("Unsupported network: "
                     +:+ Requirement.network requirement)) None None)
  | Some scheme =>
      tokenDecimals ← getTokenDecimals self (Requirement.asset requirement)
                        (Requirement.network requirement);
      result ← SolanaSPLScheme.settlePayment scheme paymentPayload
                 requirement tokenDecimals;
      mret (SettlementResponse.mk (SettleResult.success result)
              (or_null (SettleResult.error result))
              (or_null (SettleResult.txHash result))
              (Some (Requirement.network requirement)))
  end.

(** The unchecked cast of the decoded value to PaymentPayload, at the
    call of an engine.  A value in which the engine would not find the
    shape of the interface is outside this model, and the call yields
    [None]. *)
Definition cast {A} (v : json) (call : PaymentPayload.t -> M A)
  : M (option A) :=
  match Wire.read v with
  | Some paymentPayload => Some <$> call paymentPayload
  | None => mret None
  end.

(** [verifyPayment] *)
Definition verifyPayment (self : t) (x402Version : Z)
    (paymentHeader : string) (paymentRequirements : Requirement.t)
  : M (option VerificationResponse.t) :=
  try_catch
    (if negb (x402Version =? 1)
     then mret (Some (VerificationResponse.mk false
                        (Some ("Unsupported x402 version: "
                               +:+ NumberFormat.toString
                                     (Number.of_Z x402Version)))))
     else
       paymentPayload ← lift (decodePaymentPayload paymentHeader);
       let solanaRequirement := paymentRequirements in
       scheme ← lift (Wire.property paymentPayload "scheme");
       if negb (Wire.equals scheme (Requirement.scheme solanaRequirement))
       then mret (Some (VerificationResponse.mk false
                          (Some "Payment scheme mismatch"%string)))
       else
         network ← lift (Wire.property paymentPayload "network");
         if negb (Wire.equals network (Requirement.network solanaRequirement))
         then mret (Some (VerificationResponse.mk false
                            (Some "Payment network mismatch"%string)))
         else if Wire.equals scheme SOLANA_SCHEMES_TRANSFER
         then cast paymentPayload
                (fun paymentPayload =>
                   verifyTransferPayment self paymentPayload
                     solanaRequirement)
         else if Wire.equals scheme SOLANA_SCHEMES_SPL
         then cast paymentPayload
                (fun paymentPayload =>
                   verifySPLPayment self paymentPayload solanaRequirement)
         else mret (Some (VerificationResponse.mk false
                            (Some ("Unsupported payment scheme: "
                                   +:+ Wire.template scheme)))))
    (fun error =>
       mret (Some (VerificationResponse.mk false
                     (Some ("Verification failed: "
                            +:+ message_of error))))).

(** [settlePayment] *)
Definition settlePayment (self : t) (x402Version : Z)
    (paymentHeader : string) (paymentRequirements : Requirement.t)
  : M (option SettlementResponse.t) :=
  try_catch
    (verification ← verifyPayment self x402Version paymentHeader
                      paymentRequirements;
     match verification with
     | None => mret None
     | Some verification =>
         if negb (VerificationResponse.isValid verification)
         then mret (Some (SettlementResponse.mk false
                            (VerificationResponse.invalidReason verification)
                            None None))
         else
           paymentPayload ← lift (decodePaymentPayload paymentHeader);
           let solanaRequirement := paymentRequirements in
           scheme ← lift (Wire.property paymentPayload "scheme");
           if Wire.equals scheme SOLANA_SCHEMES_TRANSFER
           then cast paymentPayload
                  (fun paymentPayload =>
                     settleTransferPayment self paymentPayload
                       solanaRequirement)
           else if Wire.equals scheme SOLANA_SCHEMES_SPL
           then cast paymentPayload
                  (fun paymentPayload =>
                     settleSPLPayment self paymentPayload solanaRequirement)
           else mret (Some (SettlementResponse.mk false
                              (Some ("Unsupported payment scheme: "
                                     +:+ Wire.template scheme))
                              None None))
     end)
    (fun error =>
       mret (Some (SettlementResponse.mk false
                     (Some ("Settlement failed: " +:+ message_of error))
                     None None))).

End FacilitatorService.

(** ** client-sdk/src/x402-client.ts *)

Module X402Client.

(** The fields of the client that its pure methods read; the HTTP client
    is left out. *)
Record t := mk {
  connection : string;
  facilitatorUrl : string;
  network : string
}.

(** [options.field || fallback] for an optional string. *)
Definition or_else (v : option string) (fallback : string) : string :=
  match v with
  | Some s => if Js.falsy s then fallback else s
  | None => fallback
  end.

(** [constructor(options)] *)
Definition new (env : string -> option string)
    (options_facilitatorUrl options_network : option string)
  : completion t :=
  let network := or_else options_network "solana-devnet" in
  let facilitatorUrl :=
    or_else options_facilitatorUrl "http://localhost:3000" in
  rpcEndpoint ← getRpcEndpoint env network;
  connection ← Connection.new rpcEndpoint;
  mret (mk connection facilitatorUrl network).

(** [selectPaymentRequirement] *)
Definition selectPaymentRequirement (self : t)
    (requirements : list Requirement.t) : option Requirement.t :=
  let solanaRequirements :=
    List.filter
      (fun req =>
         String.eqb (Requirement.network req) (network self)
         && (String.eqb (Requirement.scheme req) SOLANA_SCHEMES_TRANSFER
             || String.eqb (Requirement.scheme req) SOLANA_SCHEMES_SPL))
      requirements in
  if (List.length solanaRequirements =? 0)%nat then None
  else
    match List.find
            (fun req =>
               String.eqb (Requirement.scheme req) SOLANA_SCHEMES_TRANSFER)
            solanaRequirements with
    | Some solTransfer => Some solTransfer
    | None => head solanaRequirements
    end.

End X402Client.

(** ** The checks of validatePaymentRequirement, one by one *)

Module Validator.

Definition scheme_ok (r : Requirement.t) : bool :=
  negb (Js.falsy (Requirement.scheme r))
  && includes ["solana-transfer"; "solana-spl"]%string (Requirement.scheme r).

Definition network_ok (r : Requirement.t) : bool :=
  negb (Js.falsy (Requirement.network r))
  && Js.startsWith (Requirement.network r) "solana-".

Definition payTo_ok (r : Requirement.t) : bool :=
  negb (Js.falsy (Requirement.payTo r))
  && isValidSolanaAddress (Requirement.payTo r).

Definition asset_present (r : Requirement.t) : bool :=
  negb (Js.falsy (Requirement.asset r)).

Definition asset_scheme_ok (r : Requirement.t) : bool :=
  negb (String.eqb (Requirement.scheme r) "solana-spl"
        && String.eqb (Requirement.asset r) "SOL")
  && negb (String.eqb (Requirement.scheme r) "solana-transfer"
           && negb (String.eqb (Requirement.asset r) "SOL")).

Definition amount_ok (r : Requirement.t) : bool :=
  let amount := Number.parseFloat (Requirement.maxAmountRequired r) in
  negb (Number.isNaN amount || Number.leb amount (S754_zero false)).

(** The codes of the checks a requirement fails, in the order in which
    the validator makes them. *)
Definition failed (r : Requirement.t) : list string :=
  (if scheme_ok r then [] else ["INVALID_SCHEME"%string])
  ++ (if network_ok r then [] else ["INVALID_NETWORK"%string])
  ++ (if payTo_ok r then [] else ["INVALID_PAY_TO"%string])
  ++ (if asset_present r then [] else ["MISSING_ASSET"%string])
  ++ (if asset_scheme_ok r then [] else ["INVALID_ASSET_SCHEME"%string])
  ++ (if amount_ok r then [] else ["INVALID_AMOUNT"%string]).

(** The validation throws an X402Error with this code. *)
Definition throws (r : Requirement.t) (code : string) : Prop :=
  exists message,
    validatePaymentRequirement r = Throw (X402Error message code).

End Validator.

(** ** The specification's wording, for comparison with the code *)

Module Spec.

(** §3.1: the scheme and network enumerations. *)
Definition schemes : list string := ["solana-transfer"; "solana-spl"]%string.

Definition networks : list string :=
  ["solana-mainnet"; "solana-devnet"; "solana-testnet"]%string.

(** §4.D: the Cartesian product of schemes and networks. *)
Definition in_product (k : SupportedScheme.t) : Prop :=
  In (SupportedScheme.scheme k) schemes
  /\ In (SupportedScheme.network k) networks.

(** §3.1, the invariants of a requirement. *)
Inductive invariant :=
| SchemeEnum          (* scheme is one of the two schemes *)
| NetworkEnum         (* network is one of the three networks *)
| TransferIffSol      (* scheme = solana-transfer <=> asset = "SOL" *)
| SplMint             (* solana-spl => asset <> "SOL", a base58 mint *)
| PayToKey            (* payTo is a 32-byte base58 public key *)
| AmountPositive.     (* maxAmountRequired: a positive finite decimal *)

Definition positive_finite (x : Number.number) : bool :=
  match x with
  | S754_finite false _ _ => true
  | _ => false
  end.

Definition holds (i : invariant) (r : Requirement.t) : bool :=
  match i with
  | SchemeEnum => includes schemes (Requirement.scheme r)
  | NetworkEnum => includes networks (Requirement.network r)
  | TransferIffSol =>
      Bool.eqb (String.eqb (Requirement.scheme r) "solana-transfer")
               (String.eqb (Requirement.asset r) "SOL")
  | SplMint =>
      implb (String.eqb (Requirement.scheme r) "solana-spl")
            (negb (String.eqb (Requirement.asset r) "SOL")
             && isValidSolanaAddress (Requirement.asset r))
  | PayToKey => isValidSolanaAddress (Requirement.payTo r)
  | AmountPositive =>
      positive_finite (Number.parseFloat (Requirement.maxAmountRequired r))
  end.

Definition invariants : list invariant :=
  [SchemeEnum; NetworkEnum; TransferIffSol; SplMint; PayToKey;
   AmountPositive].

Definition satisfies (r : Requirement.t) : Prop :=
  forall i, holds i r = true.

(** The invariants a requirement violates. *)
Definition violated (r : Requirement.t) : list invariant :=
  List.filter (fun i => negb (holds i r)) invariants.

(** A plain decimal [digits] or [digits.digits]: its digits read as one
    integer [m], and the number [f] of digits after the point; the
    decimal is [m / 10^f]. *)
Definition decimal (s : string) : option (Z * Z) :=
  let '(ip, ni, r1) := Number.scan_digits 0 0 s in
  if ni =? 0 then None
  else
    match r1 with
    | EmptyString => Some (ip, 0)
    | String "."%char t =>
        let '(m, nf, r2) := Number.scan_digits ip 0 t in
        if (0 <? nf) && String.eqb r2 "" then Some (m, nf) else None
    | _ => None
    end.


(** The exact atomic value rounded down to an integer. *)
Definition atomic_floor (mf : Z * Z) (d : Z) : Z :=
  fst mf * 10 ^ d / 10 ^ snd mf.


(** The binary scale [t] of a positive decimal [x = m / 10^f]:
    [2^52 <= x * 2^t < 2^53], that is [2^(52-t) <= x < 2^(53-t)]. *)
Definition binade (mf : Z * Z) (t : Z) : Prop :=
  2 ^ 52 * 10 ^ snd mf <= fst mf * 2 ^ t < 2 ^ 53 * 10 ^ snd mf.

(** The decimals [x] whose atomic value at nine decimals cannot lose a
    unit to the rounding of binary fractions.  They are: zero; the
    decimals from [2^-1021] on and below [2^-30], less than one atomic
    unit; and the decimals of at most nine fraction digits and an atomic
    value [E = x * 10^9] below [2^53] that either are binary fractions
    of at most 53 significant bits themselves (whole numbers among
    them), or have [E > 2^(i+30)] where [2^i <= x < 2^(i+1)]:
    multiplying by [10^9] then raises the binary order of magnitude by
    30, not by 29. *)
Definition steady (mf : Z * Z) : Prop :=
  fst mf = 0
  \/ exists t,
       binade mf t /\ t <= 1073
       /\ (83 <= t
           \/ (snd mf <= 9 /\ atomic_floor mf 9 < 2 ^ 53
               /\ ((fst mf * 2 ^ t) mod 10 ^ snd mf = 0
                   \/ 2 ^ (82 - t) < atomic_floor mf 9))).

End Spec.

(** ** What a run asks of the outside *)

(** A computation that never asks the node to change the chain: whatever
    the world and the requests made before, it only adds requests that do
    not mutate. *)
Definition reads_only {A} (m : M A) : Prop :=
  forall w t, exists suffix,
    snd (m w t) = t ++ suffix
    /\ forallb (fun e => negb (mutates e)) suffix = true.

(** The requests a run added to the trace it started from. *)
Definition added (before after : Trace) : Trace :=
  drop (List.length before) after.

(** What a settlement reports: success with a transaction hash and no
    error, or failure with an error message and no hash. *)
Definition reports_coherently (res : SettleResult.t) : Prop :=
  (SettleResult.success res = true
   /\ is_Some (SettleResult.txHash res) /\ SettleResult.error res = None)
  \/ (SettleResult.success res = false
      /\ SettleResult.txHash res = None
      /\ exists reason,
           SettleResult.error res = Some reason /\ reason <> ""%string).

(** What a verification answers: valid with no reason, or invalid with a
    reason. *)
Definition answers_coherently (response : VerificationResponse.t) : Prop :=
  (VerificationResponse.isValid response = true
   /\ VerificationResponse.invalidReason response = None)
  \/ (VerificationResponse.isValid response = false
      /\ exists reason,
           VerificationResponse.invalidReason response = Some reason
           /\ reason <> ""%string).

(** What a settlement answers for a requirement: success with no error
    and the requirement's network, or failure with an error message and
    no transaction hash. *)
Definition settles_coherently (r : Requirement.t)
    (response : SettlementResponse.t) : Prop :=
  (SettlementResponse.success response = true
   /\ SettlementResponse.error response = None
   /\ SettlementResponse.networkId response = Some (Requirement.network r))
  \/ (SettlementResponse.success response = false
      /\ SettlementResponse.txHash response = None
      /\ exists reason,
           SettlementResponse.error response = Some reason
           /\ reason <> ""%string).

(** The headers on which the facilitator hands an engine a value that
    is not of the type it declares: the decoded value carries the
    requirement's scheme, one of the two supported, and the requirement's
    network, and its [payload] is absent or has not the shape of the
    interface.  What the engines do with such a value is not modelled. *)
Definition unshaped (paymentHeader : string) (r : Requirement.t) : Prop :=
  exists v,
    decodePaymentPayload paymentHeader = Return v
    /\ Wire.read v = None
    /\ Wire.property v "scheme" = Return (Some (JStr (Requirement.scheme r)))
    /\ Wire.property v "network"
       = Return (Some (JStr (Requirement.network r)))
    /\ (Requirement.scheme r = "solana-transfer"%string
        \/ Requirement.scheme r = "solana-spl"%string).

(** ** Checks that precede the amount and freshness checks *)

Definition returns {A} (c : completion A) : bool :=
  match c with
  | Return _ => true
  | Throw _ => false
  end.

Module TransferChecks.

(** Scheme, signature format and the two addresses are accepted. *)
Definition before_amount (p : PaymentPayload.t) (r : Requirement.t) : bool :=
  String.eqb (PaymentPayload.scheme p) "solana-transfer"
  && negb (Js.falsy (SolanaPayload.signature (PaymentPayload.payload p)))
  && (87 <=? Js.length (SolanaPayload.signature (PaymentPayload.payload p)))
  && returns (toPublicKey (SolanaPayload.from (PaymentPayload.payload p)))
  && returns (toPublicKey (Requirement.payTo r)).

(** ... and the amount is read and is sufficient. *)
Definition before_freshness (p : PaymentPayload.t) (r : Requirement.t)
  : bool :=
  before_amount p r
  && match toAtomicUnits
             (Number.parseFloat (Requirement.maxAmountRequired r)) 9,
           BigInt.of_string (SolanaPayload.amount (PaymentPayload.payload p))
     with
     | Return required, Return a => required <=? a
     | _, _ => false
     end.

End TransferChecks.

Module SplChecks.

(** The associated token account of [owner] for [mint], as text. *)
Definition expected (w : World) (mint owner : string) : option string :=
  match toPublicKey mint, toPublicKey owner with
  | Return m, Return o =>
      match getAssociatedTokenAddress w m o with
      | Return a => Some (PublicKey_toString a)
      | Throw _ => None
      end
  | _, _ => None
  end.

(** Scheme, signature format, mint, addresses and both token accounts
    are accepted. *)
Definition before_amount (w : World) (p : PaymentPayload.t)
    (r : Requirement.t) : bool :=
  let payload := PaymentPayload.payload p in
  String.eqb (PaymentPayload.scheme p) "solana-spl"
  && negb (Js.falsy (SolanaPayload.signature payload))
  && (87 <=? Js.length (SolanaPayload.signature payload))
  && negb (SolanaSPLScheme.differs (SolanaPayload.mint payload)
             (Requirement.asset r))
  && match expected w (Requirement.asset r) (SolanaPayload.from payload),
           expected w (Requirement.asset r) (Requirement.payTo r) with
     | Some a, Some b =>
         negb (SolanaSPLScheme.differs (SolanaPayload.fromTokenAccount payload) a)
         && negb (SolanaSPLScheme.differs (SolanaPayload.toTokenAccount payload) b)
     | _, _ => false
     end.

(** ... and the amount is read and is sufficient at the token's
    decimals. *)
Definition before_freshness (w : World) (p : PaymentPayload.t)
    (r : Requirement.t) (tokenDecimals : Z) : bool :=
  before_amount w p r
  && match toAtomicUnits
             (Number.parseFloat (Requirement.maxAmountRequired r))
             tokenDecimals,
           BigInt.of_string (SolanaPayload.amount (PaymentPayload.payload p))
     with
     | Return required, Return a => required <=? a
     | _, _ => false
     end.

End SplChecks.

(** ** The text of a value, and the values that text carries exactly *)

(** The characters of standard base64 text, padding included. *)
Definition BASE64_CHARACTERS : string :=
  "ABCDEFGHIJKLMNOPQRSTUVWXYZabcdefghijklmnopqrstuvwxyz0123456789+/=".

(** Bytes that do not start with a zero byte, and base-58 text that
    does not start with the digit of zero. *)
Definition no_leading_zero (l : list ascii) : Prop :=
  match l with
  | [] => True
  | c :: _ => Ascii.eqb c Js.zero = false
  end.

Definition no_leading_one (s : string) : Prop :=
  match s with
  | EmptyString => True
  | String c _ => Ascii.eqb c "1" = false
  end.

(** Strings of ASCII characters. *)
Fixpoint ascii_only (s : string) : bool :=
  match s with
  | EmptyString => true
  | String c r => (Js.code c <? 128) && ascii_only r
  end.

(** The digits of a positive integer: a first digit that is not 0, ASCII
    only, and read back by [scan_digits]. *)
Definition digits_ok (n : Z) (D : string) : Prop :=
  exists c r len,
    D = String c r
    /\ Number.is_digit c = true /\ Ascii.eqb c "0" = false
    /\ ascii_only D = true /\ 0 < len
    /\ forall a cnt k,
         Number.scan_digits a cnt (D +:+ k)
         = Number.scan_digits (a * 10 ^ len + n) (cnt + len) k.

(** What may follow a value inside the text that [write] produces. *)
Definition delimited (k : string) : bool :=
  match k with
  | EmptyString => true
  | String c _ => Ascii.eqb c "," || Ascii.eqb c "]" || Ascii.eqb c "}"
  end.

(** The text after the first element of an array: the other elements,
    each after a comma, and the closing bracket. *)
Fixpoint elements_tail (r : list json) (k : string) : string :=
  match r with
  | [] => String "]"%char k
  | y :: r' => String ","%char (JSON.write y (elements_tail r' k))
  end.

(** The text after the first member of an object. *)
Fixpoint members_tail (r : list (string * json)) (k : string) : string :=
  match r with
  | [] => String "}"%char k
  | (key, y) :: r' =>
      String ","%char
        (JSON.quote key (String ":"%char (JSON.write y (members_tail r' k))))
  end.

(** The fuel that reading a value back takes. *)
Fixpoint need (v : json) : nat :=
  match v with
  | JArr l => S (fold_right (fun x n => S (need x + n)%nat) O l)
  | JObj ms => S (fold_right (fun m n => S (need (snd m) + n)%nat) O ms)
  | _ => 1%nat
  end.

Definition need_elements (l : list json) : nat :=
  fold_right (fun x n => S (need x + n)%nat) O l.

Definition need_members (ms : list (string * json)) : nat :=
  fold_right (fun m n => S (need (snd m) + n)%nat) O ms.

(** Values that JSON text carries exactly: numbers that are safe
    integers, well-formed strings, and objects whose keys are distinct and
    none an array index (so that enumeration order is insertion order). *)
Fixpoint well_formed (v : json) : Prop :=
  match v with
  | JNull | JBool _ => True
  | JNum x => exists n, Z.abs n < 2 ^ 53 /\ x = Number.of_Z n
  | JStr s => Utf8.valid s = true
  | JArr l => fold_right (fun x P => well_formed x /\ P) True l
  | JObj ms =>
      List.NoDup (map fst ms)
      /\ fold_right
           (fun m P =>
              (Utf8.valid (fst m) = true /\ JSON.array_index (fst m) = None
               /\ well_formed (snd m)) /\ P)
           True ms
  end.

(** The value is read back from its text, whatever delimiter follows. *)
Definition reads_back (v : json) : Prop :=
  forall fuel k, (need v <= fuel)%nat -> delimited k = true ->
    JSON.parse_value fuel (JSON.write v k) = Some (v, k).

(** The text of a value is at least as long as the fuel that reading it
    back takes. *)
Definition long_enough (v : json) : Prop :=
  forall k, (need v + String.length k <= String.length (JSON.write v k))%nat.

(** The text of a value, before well-formed text, is well-formed. *)
Definition valid_text (v : json) : Prop :=
  forall k, Utf8.valid k = true -> Utf8.valid (JSON.write v k) = true.

(** A number that is an integer and has a neighbour on either side:
    [Number.isSafeInteger]. *)
Definition safe_integer (n : Z) : bool := Z.abs n <? 2 ^ 53.

Definition optional_valid (v : option string) : bool :=
  match v with
  | Some s => Utf8.valid s
  | None => true
  end.

(** A syntactically well-formed payload: its strings are well-formed
    (no unpaired surrogate) and its numbers are safe integers. *)
Definition well_formed_payload (p : PaymentPayload.t) : bool :=
  let q := PaymentPayload.payload p in
  safe_integer (PaymentPayload.x402Version p)
  && Utf8.valid (PaymentPayload.scheme p)
  && Utf8.valid (PaymentPayload.network p)
  && Utf8.valid (SolanaPayload.from q)
  && Utf8.valid (SolanaPayload.signature q)
  && Utf8.valid (SolanaPayload.amount q)
  && safe_integer (SolanaPayload.timestamp q)
  && optional_valid (SolanaPayload.nonce q)
  && optional_valid (SolanaPayload.mint q)
  && optional_valid (SolanaPayload.fromTokenAccount q)
  && optional_valid (SolanaPayload.toTokenAccount q).

(** ** Rounding to the nearest number *)



(** ** Concrete inputs *)

Module Example.

Definition wallet : string := "vines1vzrYbzLMRdu58ou5XTby4qAqVRLmqo36NKPTg".

Definition merchant : string := "So11111111111111111111111111111111111111112".

(** 87 characters of the base58 alphabet. *)
Definition sig87 : string :=
  "222222222222222222222222222222222222222222222222222222222222222222222222222222222222222".

Definition sig88 : string := String "3"%char sig87.

Definition sig89 : string := String "4"%char sig88.

Definition T0 : Z := 1700000000000.

Definition transfer_payload (signature amount : string) (timestamp : Z)
  : PaymentPayload.t :=
  PaymentPayload.mk 1 "solana-transfer" "solana-devnet"
    (SolanaPayload.mk wallet signature amount timestamp (Some "n1"%string)
       None None None).

Definition requirement (scheme network amount payTo asset : string)
  : Requirement.t :=
  Requirement.mk scheme network amount "/api/premium" "Premium data"
    "application/json" None payTo 60 asset (Extra.mk None (Some 5000) None).

Definition sol_requirement (amount : string) : Requirement.t :=
  requirement "solana-transfer" "solana-devnet" amount merchant "SOL".

(** The associated token accounts of the wallet and of the merchant for
    the USDC mint of devnet. *)
Definition wallet_usdc : string :=
  "6r6KJLTwFLnJ2czodnEQeiWfAEDw2nkCDsu4AwptU3fm".

Definition merchant_usdc : string :=
  "7PjMarDEg48ezEmFD15ca3NbmgAZjEZvDVbWk24pdcez".

Definition spl_payload (signature amount : string) (timestamp : Z)
  : PaymentPayload.t :=
  PaymentPayload.mk 1 "solana-spl" "solana-devnet"
    (SolanaPayload.mk wallet signature amount timestamp (Some "n1"%string)
       (Some USDC_MINT_DEVNET) (Some wallet_usdc) (Some merchant_usdc)).

Definition usdc_requirement (amount : string) : Requirement.t :=
  requirement "solana-spl" "solana-devnet" amount merchant USDC_MINT_DEVNET.

(** The key that an address of these examples stands for. *)
Definition key_of (address : string) : PublicKey :=
  match new_PublicKey address with
  | Return k => k
  | Throw _ => {| pk_bytes := [] |}
  end.

(** A recent blockhash, and the signature a node returns for a
    transaction that nobody has signed. *)
Definition blockhash : string :=
  "EkSnNWid2cvwEVnVx9aBqawnmiCNiDgp3gUdkDPTKN1N".

Definition unsigned : string :=
  "1111111111111111111111111111111111111111111111111111111111111111".

(** The derived addresses of these examples; an owner that is not of
    them is answered as an owner off the curve is. *)
Definition associated (mint owner : PublicKey) : completion PublicKey :=
  if String.eqb (PublicKey_toString mint) USDC_MINT_DEVNET
     && String.eqb (PublicKey_toString owner) wallet
  then Return (key_of wallet_usdc)
  else if String.eqb (PublicKey_toString mint) USDC_MINT_DEVNET
          && String.eqb (PublicKey_toString owner) merchant
  then Return (key_of merchant_usdc)
  else Throw (PlainError "").

(** An amount out of range is refused. *)
Definition out_of_range (n : Z) : completion Z :=
  Throw {| err_class := Error_;
           err_message :=
             "Codec [u64] expected number to be in the range [0, 18446744073709551615], got "
             +:+ Js.string_of_Z n +:+ ".";
           err_code := None |}.

(** A world with a given clock, where a given signature is on chain and
    the node accepts what it is sent. *)
Definition world (clock : Trace -> Z) (landed : string) : World :=
  {| process_env := fun _ => None;
     date_now := clock;
     getTransaction := fun _ _ signature =>
       if String.eqb signature landed then Return (Some {| slot := 1 |})
       else Return None;
     getAccount := fun _ _ _ => Return tt;
     getLatestBlockhash := fun _ _ => Return blockhash;
     sendRawTransaction := fun _ _ _ => Return unsigned;
     confirmTransaction := fun _ _ _ => Return tt;
     getParsedAccountInfo := fun _ _ _ => Return None;
     getAssociatedTokenAddress := associated;
     encode_u64 := out_of_range |}.

(** The same world, but where a confirmation times out. *)
Definition unconfirmed (clock : Trace -> Z) : World :=
  {| process_env := fun _ => None;
     date_now := clock;
     getTransaction := fun _ _ _ => Return None;
     getAccount := fun _ _ _ => Return tt;
     getLatestBlockhash := fun _ _ => Return blockhash;
     sendRawTransaction := fun _ _ _ => Return unsigned;
     confirmTransaction := fun _ _ _ =>
       Throw (PlainError "Transaction was not confirmed in 30.00 seconds");
     getParsedAccountInfo := fun _ _ _ => Return None;
     getAssociatedTokenAddress := associated;
     encode_u64 := out_of_range |}.

(** A clock that reads [start], and [step] more at every later reading. *)
Definition ticking (start step : Z) (t : Trace) : Z :=
  start + step * Z.of_nat (List.length (List.filter
    (fun e => match e with DateNow => true | _ => false end) t)).

Definition devnet : SolanaTransferScheme.t :=
  SolanaTransferScheme.mk "https://api.devnet.solana.com".

Definition devnet_spl : SolanaSPLScheme.t :=
  SolanaSPLScheme.mk "https://api.devnet.solana.com".

Definition service : FacilitatorService.t :=
  FacilitatorService.mk
    (<["solana-devnet"%string := devnet]>
       (<["solana-mainnet"%string :=
            SolanaTransferScheme.mk "https://api.mainnet-beta.solana.com"]> ∅))
    (<["solana-devnet"%string := devnet_spl]>
       (<["solana-mainnet"%string :=
            SolanaSPLScheme.mk "https://api.mainnet-beta.solana.com"]> ∅)).

End Example.

(** * Properties *)

(** ** The effect monad *)

Lemma reads_ret {A} (a : A) : reads_only (mret a).
Proof. intros w t. exists []. simpl. by rewrite app_nil_r. Qed.

Lemma reads_lift {A} (c : completion A) : reads_only (lift c).
Proof. intros w t. exists []. simpl. by rewrite app_nil_r. Qed.

Lemma reads_bind {A B} (m : M A) (k : A -> M B) :
  reads_only m -> (forall a, reads_only (k a)) -> reads_only (m ≫= k).
Proof.
  intros Hm Hk w t. unfold mbind, M_bind.
  destruct (Hm w t) as (s1 & E1 & F1).
  destruct (m w t) as [[a|e] t1]; simpl in *; subst.
  - destruct (Hk a w (t ++ s1)) as (s2 & E2 & F2).
    exists (s1 ++ s2). rewrite E2, forallb_app, F1, F2.
    by rewrite app_assoc.
  - by exists s1.
Qed.

Lemma reads_fmap {A B} (f : A -> B) (m : M A) :
  reads_only m -> reads_only (f <$> m).
Proof.
  intros Hm w t. unfold fmap, M_fmap.
  destruct (Hm w t) as (s1 & E1 & F1).
  destruct (m w t) as [[a|e] t1]; simpl in *; subst; by exists s1.
Qed.

Lemma reads_try {A} (body : M A) (handler : JsError -> M A) :
  reads_only body -> (forall e, reads_only (handler e)) ->
  reads_only (try_catch body handler).
Proof.
  intros Hm Hk w t. unfold try_catch.
  destruct (Hm w t) as (s1 & E1 & F1).
  destruct (body w t) as [[a|e] t1]; simpl in *; subst.
  - by exists s1.
  - destruct (Hk e w (t ++ s1)) as (s2 & E2 & F2).
    exists (s1 ++ s2). rewrite E2, forallb_app, F1, F2.
    by rewrite app_assoc.
Qed.

Lemma reads_request {A} (e : Event) (answer : World -> Trace -> completion A) :
  mutates e = false -> reads_only (request e answer).
Proof. intros He w t. exists [e]. simpl. by rewrite He. Qed.

Lemma reads_if {A} (c : bool) (a b : M A) :
  reads_only a -> reads_only b -> reads_only (if c then a else b).
Proof. by destruct c. Qed.

Lemma reads_derive (mint owner : PublicKey) :
  reads_only (SolanaSPLScheme.derive mint owner).
Proof. intros w t. exists []. simpl. by rewrite app_nil_r. Qed.

Create HintDb reads discriminated.
#[local] Hint Resolve reads_ret reads_lift reads_fmap reads_request reads_if
  reads_derive : reads.

(** Splits a computation along its binds, handlers and branches. *)
Ltac reads_step :=
  first
    [ apply reads_try | apply reads_bind | apply reads_if | apply reads_fmap
    | apply reads_ret | apply reads_lift | apply reads_derive
    | apply reads_request; reflexivity
    | match goal with
      | |- reads_only (match ?x with _ => _ end) => destruct x
      | |- forall _, _ => intro
      end
    | progress cbv beta zeta ].

Lemma Date_now_reads : reads_only Date_now.
Proof. by apply reads_request. Qed.
#[local] Hint Resolve Date_now_reads : reads.

Lemma transfer_verify_reads self p r :
  reads_only (SolanaTransferScheme.verifyPayment self p r).
Proof.
  unfold SolanaTransferScheme.verifyPayment.
  repeat first [apply Date_now_reads | reads_step].
Qed.

Lemma spl_verify_reads self p r d :
  reads_only (SolanaSPLScheme.verifyPayment self p r d).
Proof.
  unfold SolanaSPLScheme.verifyPayment.
  repeat first [apply Date_now_reads | reads_step].
Qed.

Lemma getTokenMintInfo_reads self mint :
  reads_only (SolanaSPLScheme.getTokenMintInfo self mint).
Proof.
  unfold SolanaSPLScheme.getTokenMintInfo. repeat reads_step.
Qed.

Lemma getTokenDecimals_reads self mint network :
  reads_only (FacilitatorService.getTokenDecimals self mint network).
Proof.
  unfold FacilitatorService.getTokenDecimals.
  repeat first [apply getTokenMintInfo_reads | reads_step].
Qed.

Lemma facilitator_verify_reads self v h r :
  reads_only (FacilitatorService.verifyPayment self v h r).
Proof.
  unfold FacilitatorService.verifyPayment, FacilitatorService.cast,
    FacilitatorService.verifyTransferPayment,
    FacilitatorService.verifySPLPayment.
  repeat first
    [ apply transfer_verify_reads | apply spl_verify_reads
    | apply getTokenDecimals_reads | reads_step ].
Qed.

(** ** C9: the supported kinds *)

(** C9, as stated, fails: the pair (solana-transfer, solana-testnet) is in
    the Cartesian product of the scheme and network enumerations of the
    specification, and getSupportedSchemes does not return it. *)
Lemma getSupportedSchemes_lacks_testnet :
  Spec.in_product (SupportedScheme.mk "solana-transfer" "solana-testnet")
  /\ ~ In (SupportedScheme.mk "solana-transfer" "solana-testnet")
         (FacilitatorService.getSupportedSchemes Example.service).
Proof.
  split.
  - split; simpl; auto.
  - cbn. intros H. repeat destruct H as [H|H]; try discriminate H. exact H.
Qed.

(** C9 (amended). getSupportedSchemes returns exactly the Cartesian
    product of the schemes solana-transfer and solana-spl and the networks of
    SOLANA_NETWORKS, solana-mainnet and solana-devnet: every such pair is
    in kinds, kinds holds no other entry, and no entry twice. *)
Theorem getSupportedSchemes_product (self : FacilitatorService.t)
    (k : SupportedScheme.t) :
  (In k (FacilitatorService.getSupportedSchemes self) <->
   In (SupportedScheme.scheme k) (Object_values SOLANA_SCHEMES)
   /\ In (SupportedScheme.network k) (Object_values SOLANA_NETWORKS))
  /\ Object_values SOLANA_SCHEMES = ["solana-transfer"; "solana-spl"]%string
  /\ Object_values SOLANA_NETWORKS = ["solana-mainnet"; "solana-devnet"]%string
  /\ List.NoDup (FacilitatorService.getSupportedSchemes self).
Proof.
  split; [|split; [reflexivity|split; [reflexivity|]]].
  - destruct k as [s n]. cbn. split.
    + intros H. repeat destruct H as [H|H]; try (injection H as <- <-; auto).
      destruct H.
    + intros [[<-|[<-|[]]] [<-|[<-|[]]]]; auto 10.
  - cbn.
    repeat (apply List.NoDup_cons;
            [ cbn; intros H; repeat destruct H as [H|H];
              try discriminate H; exact H | ]).
    apply List.NoDup_nil.
Qed.

(** ** C4: the signature format check *)

(** C4, evaluated on the code: a signature of 89 characters is outside the
    interval [87, 88], and isValidSignature rejects it, yet verifyPayment of
    either engine does not answer "Invalid signature format" for it: the
    payment is found valid. *)
Theorem signature_of_89_characters_is_accepted :
  Js.length Example.sig89 = 89
  /\ isValidSignature Example.sig89 = false
  /\ SolanaTransferScheme.verifyPayment Example.devnet
       (Example.transfer_payload Example.sig89 "10000000" Example.T0)
       (Example.sol_requirement "0.01")
       (Example.world (fun _ => Example.T0) "") []
     = (Return valid, [DateNow])
  /\ SolanaSPLScheme.verifyPayment Example.devnet_spl
       (Example.spl_payload Example.sig89 "1000000" Example.T0)
       (Example.usdc_requirement "1.00") 6
       (Example.world (fun _ => Example.T0) "") []
     = (Return valid, [DateNow]).
Proof. repeat split; vm_compute; reflexivity. Qed.

(** ** Running the engines *)

Ltac run_unfold :=
  unfold Date_now, SolanaSPLScheme.derive;
  unfold mbind, M_bind, mret, M_ret, fmap, M_fmap, lift, try_catch, request.

Lemma added_app (t suffix : Trace) : added t (t ++ suffix) = suffix.
Proof. unfold added. apply drop_app_length. Qed.

Lemma no_submission (l : Trace) :
  forallb (fun e => negb (mutates e)) l = true ->
  forall endpoint transaction,
    ~ In (SendRawTransaction endpoint transaction) l.
Proof.
  intros H endpoint transaction Hin.
  rewrite forallb_forall in H. by apply H in Hin.
Qed.

(** With the earlier checks passed, the verdict of the transfer engine is
    that of the freshness check, on one reading of the clock. *)
Lemma transfer_verify_fresh self p r w t :
  TransferChecks.before_freshness p r = true ->
  SolanaTransferScheme.verifyPayment self p r w t
  = (Return (if date_now w t
                - SolanaPayload.timestamp (PaymentPayload.payload p) >? maxAge
             then invalid "Payment payload expired" else valid),
     t ++ [DateNow]).
Proof.
  unfold TransferChecks.before_freshness, TransferChecks.before_amount.
  rewrite !andb_true_iff, negb_true_iff, Z.leb_le.
  intros [[[[[Hs Hf] Hl] Hfrom] Hto] Ha].
  unfold SolanaTransferScheme.verifyPayment. run_unfold.
  rewrite Hs, Hf.
  destruct (Z.ltb_spec
              (Js.length (SolanaPayload.signature (PaymentPayload.payload p)))
              87); [lia|].
  destruct (toPublicKey (SolanaPayload.from _)); [|discriminate].
  destruct (toPublicKey (Requirement.payTo r)); [|discriminate].
  destruct (toAtomicUnits _ _) as [required|]; [|discriminate].
  destruct (BigInt.of_string _) as [amount|]; [|discriminate].
  apply Z.leb_le in Ha.
  destruct (Z.ltb_spec amount required); [lia|].
  cbn. destruct (_ >? _); reflexivity.
Qed.

(** The same for the SPL engine. *)
Lemma spl_verify_fresh self p r d w t :
  SplChecks.before_freshness w p r d = true ->
  SolanaSPLScheme.verifyPayment self p r d w t
  = (Return (if date_now w t
                - SolanaPayload.timestamp (PaymentPayload.payload p) >? maxAge
             then invalid "Payment payload expired" else valid),
     t ++ [DateNow]).
Proof.
  unfold SplChecks.before_freshness, SplChecks.before_amount,
    SplChecks.expected.
  rewrite !andb_true_iff, !negb_true_iff, Z.leb_le.
  intros [[[[[Hs Hf] Hl] Hm] Hata] Ha].
  unfold SolanaSPLScheme.verifyPayment. run_unfold.
  rewrite Hs, Hf, Hm.
  destruct (Z.ltb_spec
              (Js.length (SolanaPayload.signature (PaymentPayload.payload p)))
              87); [lia|].
  unfold SolanaSPLScheme.differs in Hm.
  destruct (SolanaPayload.mint (PaymentPayload.payload p)) as [mint|];
    [|discriminate].
  apply negb_false_iff, String.eqb_eq in Hm. subst mint.
  cbn [SolanaSPLScheme.toPublicKey_opt].
  destruct (toPublicKey (Requirement.asset r)) as [km|]; [|discriminate].
  destruct (toPublicKey (SolanaPayload.from _)) as [kf|]; [|discriminate].
  destruct (getAssociatedTokenAddress w km kf) as [af|] eqn:Eaf;
    [|discriminate].
  destruct (toPublicKey (Requirement.payTo r)) as [kt|]; [|discriminate].
  destruct (getAssociatedTokenAddress w km kt) as [at_|] eqn:Eat;
    [|discriminate].
  apply andb_true_iff in Hata as [Hfa Hta].
  apply negb_true_iff in Hfa, Hta.
  cbn -[SolanaSPLScheme.differs PublicKey_toString toAtomicUnits
        BigInt.of_string Z.ltb Z.gtb].
  rewrite Eaf, Eat, Hfa, Hta.
  destruct (toAtomicUnits _ _) as [required|]; [|discriminate].
  destruct (BigInt.of_string _) as [amount|]; [|discriminate].
  apply Z.leb_le in Ha.
  destruct (Z.ltb_spec amount required); [lia|].
  cbn. destruct (_ >? _); reflexivity.
Qed.

(** ** C6: the freshness window *)

(** C6. For a payload that passes the checks before it, the freshness
    check of either engine answers "Payment payload expired" exactly when
    the clock reads more than 300000 ms past the payload's timestamp: with
    now - timestamp > 300000 the payment is rejected as expired, with
    now - timestamp <= 300000, the boundary 300000 included, it is valid. *)
Theorem freshness_window (w : World) (t : Trace) (p : PaymentPayload.t)
    (r : Requirement.t) :
  let age := date_now w t - SolanaPayload.timestamp (PaymentPayload.payload p) in
  (forall self, TransferChecks.before_freshness p r = true ->
     (300000 < age ->
      SolanaTransferScheme.verifyPayment self p r w t
      = (Return (invalid "Payment payload expired"), t ++ [DateNow]))
     /\ (age <= 300000 ->
         SolanaTransferScheme.verifyPayment self p r w t
         = (Return valid, t ++ [DateNow])))
  /\ (forall self tokenDecimals,
        SplChecks.before_freshness w p r tokenDecimals = true ->
        (300000 < age ->
         SolanaSPLScheme.verifyPayment self p r tokenDecimals w t
         = (Return (invalid "Payment payload expired"), t ++ [DateNow]))
        /\ (age <= 300000 ->
            SolanaSPLScheme.verifyPayment self p r tokenDecimals w t
            = (Return valid, t ++ [DateNow]))).
Proof.
  intros age. split.
  - intros self H. rewrite (transfer_verify_fresh _ _ _ _ _ H).
    fold age. change maxAge with 300000.
    split; intros Hage; destruct (Z.gtb_spec age 300000); try lia; reflexivity.
  - intros self d H. rewrite (spl_verify_fresh _ _ _ _ _ _ H).
    fold age. change maxAge with 300000.
    split; intros Hage; destruct (Z.gtb_spec age 300000); try lia; reflexivity.
Qed.

(** The boundary and the first expired instant, for both engines. *)
Lemma freshness_window_witness :
  SolanaTransferScheme.verifyPayment Example.devnet
    (Example.transfer_payload Example.sig88 "10000000" Example.T0)
    (Example.sol_requirement "0.01")
    (Example.world (fun _ => Example.T0 + 300000) "") []
  = (Return valid, [DateNow])
  /\ SolanaSPLScheme.verifyPayment Example.devnet_spl
       (Example.spl_payload Example.sig88 "1000000" Example.T0)
       (Example.usdc_requirement "1.00") 6
       (Example.world (fun _ => Example.T0 + 300001) "") []
     = (Return (invalid "Payment payload expired"), [DateNow]).
Proof.
  split.
  - apply (proj1 (freshness_window
                    (Example.world (fun _ => Example.T0 + 300000) "") []
                    (Example.transfer_payload Example.sig88 "10000000"
                       Example.T0)
                    (Example.sol_requirement "0.01"))
             Example.devnet).
    + vm_compute. reflexivity.
    + vm_compute. discriminate.
  - apply (proj2 (freshness_window
                    (Example.world (fun _ => Example.T0 + 300001) "") []
                    (Example.spl_payload Example.sig88 "1000000" Example.T0)
                    (Example.usdc_requirement "1.00"))
             Example.devnet_spl 6).
    + vm_compute. reflexivity.
    + vm_compute. reflexivity.
Defined.

(** ** C1: the idempotency probe *)

(** C1. For a payload that passes verification, when the probe
    getTransaction(payload.signature) finds the transaction on chain,
    settlePayment of either engine returns success with txHash equal to
    payload.signature, and the run asks nothing but the verification's
    reading of the clock and the probe itself: sendRawTransaction is never
    called. *)
Theorem settle_is_idempotent (w : World) (t t1 : Trace)
    (p : PaymentPayload.t) (r : Requirement.t) (info : TransactionResponse) :
  let signature := SolanaPayload.signature (PaymentPayload.payload p) in
  (forall self,
     SolanaTransferScheme.verifyPayment self p r w t = (Return valid, t1) ->
     getTransaction w t1 (SolanaTransferScheme.connection self) signature
     = Return (Some info) ->
     SolanaTransferScheme.settlePayment self p r w t
     = (Return (SettleResult.mk true (Some signature) None),
        t1 ++ [GetTransaction (SolanaTransferScheme.connection self) signature])
     /\ forall endpoint transaction,
          ~ In (SendRawTransaction endpoint transaction)
               (added t (snd (SolanaTransferScheme.settlePayment self p r w t))))
  /\ (forall self tokenDecimals,
        SolanaSPLScheme.verifyPayment self p r tokenDecimals w t
        = (Return valid, t1) ->
        getTransaction w t1 (SolanaSPLScheme.connection self) signature
        = Return (Some info) ->
        SolanaSPLScheme.settlePayment self p r tokenDecimals w t
        = (Return (SettleResult.mk true (Some signature) None),
           t1 ++ [GetTransaction (SolanaSPLScheme.connection self) signature])
        /\ forall endpoint transaction,
             ~ In (SendRawTransaction endpoint transaction)
                  (added t (snd (SolanaSPLScheme.settlePayment self p r
                                   tokenDecimals w t)))).
Proof.
  intros signature. split.
  - intros self Hv Hprobe.
    assert (Hrun : SolanaTransferScheme.settlePayment self p r w t
      = (Return (SettleResult.mk true (Some signature) None),
         t1 ++ [GetTransaction (SolanaTransferScheme.connection self) signature])).
    { unfold SolanaTransferScheme.settlePayment. run_unfold.
      rewrite Hv. cbn. fold signature. rewrite Hprobe. reflexivity. }
    split; [exact Hrun|]. rewrite Hrun. cbn [snd].
    destruct (transfer_verify_reads self p r w t) as (s & Es & Fs).
    rewrite Hv in Es. cbn in Es. subst t1.
    rewrite <- app_assoc, added_app. apply no_submission.
    by rewrite forallb_app, Fs.
  - intros self d Hv Hprobe.
    assert (Hrun : SolanaSPLScheme.settlePayment self p r d w t
      = (Return (SettleResult.mk true (Some signature) None),
         t1 ++ [GetTransaction (SolanaSPLScheme.connection self) signature])).
    { unfold SolanaSPLScheme.settlePayment. run_unfold.
      rewrite Hv. cbn. fold signature. rewrite Hprobe. reflexivity. }
    split; [exact Hrun|]. rewrite Hrun. cbn [snd].
    destruct (spl_verify_reads self p r d w t) as (s & Es & Fs).
    rewrite Hv in Es. cbn in Es. subst t1.
    rewrite <- app_assoc, added_app. apply no_submission.
    by rewrite forallb_app, Fs.
Qed.

(** A retry of a landed SOL payment and of a landed USDC payment. *)
Lemma settle_is_idempotent_witness :
  SolanaTransferScheme.settlePayment Example.devnet
    (Example.transfer_payload Example.sig88 "10000000" Example.T0)
    (Example.sol_requirement "0.01")
    (Example.world (fun _ => Example.T0) Example.sig88) []
  = (Return (SettleResult.mk true (Some Example.sig88) None),
     [DateNow; GetTransaction "https://api.devnet.solana.com" Example.sig88])
  /\ SolanaSPLScheme.settlePayment Example.devnet_spl
       (Example.spl_payload Example.sig88 "1000000" Example.T0)
       (Example.usdc_requirement "1.00") 6
       (Example.world (fun _ => Example.T0) Example.sig88) []
     = (Return (SettleResult.mk true (Some Example.sig88) None),
        [DateNow; GetTransaction "https://api.devnet.solana.com" Example.sig88]).
Proof.
  split.
  - apply (proj1 (settle_is_idempotent
                    (Example.world (fun _ => Example.T0) Example.sig88)
                    [] [DateNow]
                    (Example.transfer_payload Example.sig88 "10000000"
                       Example.T0)
                    (Example.sol_requirement "0.01") {| slot := 1 |})
             Example.devnet); vm_compute; reflexivity.
  - apply (proj2 (settle_is_idempotent
                    (Example.world (fun _ => Example.T0) Example.sig88)
                    [] [DateNow]
                    (Example.spl_payload Example.sig88 "1000000" Example.T0)
                    (Example.usdc_requirement "1.00") {| slot := 1 |})
             Example.devnet_spl 6); vm_compute; reflexivity.
Defined.

(** ** C2: settlement after a failed verification *)

(** C2. When verify returns isValid = false with a reason, settlePayment
    returns success = false with that reason as its error and no txHash, at
    the engines and at the facilitator (whose answer carries txHash null
    and networkId null); the run ends where the verification ended, and
    no transaction is submitted. *)
Theorem settle_reports_verification_failure (w : World) (t t1 : Trace)
    (p : PaymentPayload.t) (r : Requirement.t) (reason : string) :
  (forall self,
     SolanaTransferScheme.verifyPayment self p r w t
     = (Return (VerifyResult.mk false (Some reason)), t1) ->
     SolanaTransferScheme.settlePayment self p r w t
     = (Return (SettleResult.mk false None (Some reason)), t1)
     /\ forall endpoint transaction,
          ~ In (SendRawTransaction endpoint transaction) (added t t1))
  /\ (forall self tokenDecimals,
        SolanaSPLScheme.verifyPayment self p r tokenDecimals w t
        = (Return (VerifyResult.mk false (Some reason)), t1) ->
        SolanaSPLScheme.settlePayment self p r tokenDecimals w t
        = (Return (SettleResult.mk false None (Some reason)), t1)
        /\ forall endpoint transaction,
             ~ In (SendRawTransaction endpoint transaction) (added t t1))
  /\ (forall self x402Version paymentHeader,
        FacilitatorService.verifyPayment self x402Version paymentHeader r w t
        = (Return (Some (VerificationResponse.mk false (Some reason))), t1) ->
        FacilitatorService.settlePayment self x402Version paymentHeader r w t
        = (Return (Some (SettlementResponse.mk false (Some reason) None None)),
           t1)
        /\ forall endpoint transaction,
             ~ In (SendRawTransaction endpoint transaction) (added t t1)).
Proof.
  split; [|split].
  - intros self Hv. split.
    + unfold SolanaTransferScheme.settlePayment. run_unfold.
      rewrite Hv. reflexivity.
    + destruct (transfer_verify_reads self p r w t) as (s & Es & Fs).
      rewrite Hv in Es. cbn in Es. subst t1.
      rewrite added_app. by apply no_submission.
  - intros self d Hv. split.
    + unfold SolanaSPLScheme.settlePayment. run_unfold.
      rewrite Hv. reflexivity.
    + destruct (spl_verify_reads self p r d w t) as (s & Es & Fs).
      rewrite Hv in Es. cbn in Es. subst t1.
      rewrite added_app. by apply no_submission.
  - intros self v h Hv. split.
    + unfold FacilitatorService.settlePayment. run_unfold.
      rewrite Hv. reflexivity.
    + destruct (facilitator_verify_reads self v h r w t) as (s & Es & Fs).
      rewrite Hv in Es. cbn in Es. subst t1.
      rewrite added_app. by apply no_submission.
Qed.

(** The underpayment of scenario S2, at the engine and at the
    facilitator. *)
Lemma settle_reports_verification_failure_witness :
  SolanaTransferScheme.settlePayment Example.devnet
    (Example.transfer_payload Example.sig88 "9999999" Example.T0)
    (Example.sol_requirement "0.01")
    (Example.world (fun _ => Example.T0) "") []
  = (Return (SettleResult.mk false None
               (Some "Insufficient payment amount"%string)), [])
  /\ FacilitatorService.settlePayment Example.service 1
       (encodePaymentPayload
          (Example.transfer_payload Example.sig88 "9999999" Example.T0))
       (Example.sol_requirement "0.01")
       (Example.world (fun _ => Example.T0) "") []
     = (Return (Some (SettlementResponse.mk false
                        (Some "Insufficient payment amount"%string)
                        None None)), []).
Proof.
  split.
  - apply (proj1 (settle_reports_verification_failure
                    (Example.world (fun _ => Example.T0) "") [] []
                    (Example.transfer_payload Example.sig88 "9999999"
                       Example.T0)
                    (Example.sol_requirement "0.01")
                    "Insufficient payment amount")
             Example.devnet).
    vm_compute. reflexivity.
  - apply (proj2 (proj2 (settle_reports_verification_failure
                    (Example.world (fun _ => Example.T0) "") [] []
                    (Example.transfer_payload Example.sig88 "9999999"
                       Example.T0)
                    (Example.sol_requirement "0.01")
                    "Insufficient payment amount"))
             Example.service 1).
    vm_compute. reflexivity.
Defined.

(** ** C7: what a verification depends on *)

(** The verdict of the transfer engine is a function of the payload, the
    requirement and the clock reading. *)
Lemma transfer_verify_clock self self' p r w t w' t' :
  date_now w t = date_now w' t' ->
  fst (SolanaTransferScheme.verifyPayment self p r w t)
  = fst (SolanaTransferScheme.verifyPayment self' p r w' t').
Proof.
  intros Hclock.
  unfold SolanaTransferScheme.verifyPayment. run_unfold.
  destruct (negb _); [reflexivity|].
  destruct (_ || _); [reflexivity|].
  destruct (toPublicKey (SolanaPayload.from _)); [|reflexivity].
  destruct (toPublicKey (Requirement.payTo r)); [|reflexivity].
  destruct (toAtomicUnits _ _); [|reflexivity].
  destruct (BigInt.of_string _); [|reflexivity].
  destruct (_ <? _); [reflexivity|]. cbn. rewrite Hclock.
  destruct (_ >? _); reflexivity.
Qed.

(** The verdict of the SPL engine is a function of the payload, the
    requirement, the decimals, the clock reading and the derivation of
    associated token addresses. *)
Lemma spl_verify_clock self self' p r d w t w' t' :
  date_now w t = date_now w' t' ->
  getAssociatedTokenAddress w = getAssociatedTokenAddress w' ->
  fst (SolanaSPLScheme.verifyPayment self p r d w t)
  = fst (SolanaSPLScheme.verifyPayment self' p r d w' t').
Proof.
  intros Hclock Hata.
  unfold SolanaSPLScheme.verifyPayment. run_unfold.
  destruct (negb _); [reflexivity|].
  destruct (_ || _); [reflexivity|].
  destruct (SolanaSPLScheme.differs (SolanaPayload.mint _) _); [reflexivity|].
  destruct (toPublicKey (SolanaPayload.from _)) as [kf|]; [|reflexivity].
  destruct (toPublicKey (Requirement.payTo r)) as [kt|]; [|reflexivity].
  destruct (SolanaSPLScheme.toPublicKey_opt _) as [km|]; [|reflexivity].
  cbn beta. rewrite <- Hata.
  destruct (getAssociatedTokenAddress w km kf) as [af|]; [|reflexivity].
  destruct (getAssociatedTokenAddress w km kt) as [at_|]; [|reflexivity].
  destruct (SolanaSPLScheme.differs (SolanaPayload.fromTokenAccount _) _);
    [reflexivity|].
  destruct (SolanaSPLScheme.differs (SolanaPayload.toTokenAccount _) _);
    [reflexivity|].
  destruct (toAtomicUnits _ _); [|reflexivity].
  destruct (BigInt.of_string _); [|reflexivity].
  destruct (_ <? _); [reflexivity|]. cbn. rewrite Hclock.
  destruct (_ >? _); reflexivity.
Qed.

Lemma added_same (t : Trace) : added t t = [].
Proof. unfold added. apply drop_all. Qed.

(** A verification asks at most for the time. *)
Lemma transfer_verify_asks self p r w t :
  let t' := snd (SolanaTransferScheme.verifyPayment self p r w t) in
  t' = t \/ t' = t ++ [DateNow].
Proof.
  unfold SolanaTransferScheme.verifyPayment. run_unfold.
  destruct (negb _); [by left|].
  destruct (_ || _); [by left|].
  destruct (toPublicKey (SolanaPayload.from _)); [|by left].
  destruct (toPublicKey (Requirement.payTo r)); [|by left].
  destruct (toAtomicUnits _ _); [|by left].
  destruct (BigInt.of_string _); [|by left].
  destruct (_ <? _); [by left|]. cbn.
  destruct (_ >? _); by right.
Qed.

Lemma spl_verify_asks self p r d w t :
  let t' := snd (SolanaSPLScheme.verifyPayment self p r d w t) in
  t' = t \/ t' = t ++ [DateNow].
Proof.
  unfold SolanaSPLScheme.verifyPayment. run_unfold.
  destruct (negb _); [by left|].
  destruct (_ || _); [by left|].
  destruct (SolanaSPLScheme.differs (SolanaPayload.mint _) _); [by left|].
  destruct (toPublicKey (SolanaPayload.from _)) as [kf|]; [|by left].
  destruct (toPublicKey (Requirement.payTo r)) as [kt|]; [|by left].
  destruct (SolanaSPLScheme.toPublicKey_opt _) as [km|]; [|by left].
  cbn beta.
  destruct (getAssociatedTokenAddress w km kf) as [af|]; [|by left].
  destruct (getAssociatedTokenAddress w km kt) as [at_|]; [|by left].
  destruct (SolanaSPLScheme.differs (SolanaPayload.fromTokenAccount _) _);
    [by left|].
  destruct (SolanaSPLScheme.differs (SolanaPayload.toTokenAccount _) _);
    [by left|].
  destruct (toAtomicUnits _ _); [|by left].
  destruct (BigInt.of_string _); [|by left].
  destruct (_ <? _); [by left|]. cbn.
  destruct (_ >? _); by right.
Qed.

(** C7, as stated, fails: two invocations of verifyPayment on the same
    payload and requirement, one after the other, return different
    results when the payload's age passes five minutes in between. *)
Lemma verify_twice_differs :
  (first ← SolanaTransferScheme.verifyPayment Example.devnet
             (Example.transfer_payload Example.sig88 "10000000" Example.T0)
             (Example.sol_requirement "0.01");
   second ← SolanaTransferScheme.verifyPayment Example.devnet
              (Example.transfer_payload Example.sig88 "10000000" Example.T0)
              (Example.sol_requirement "0.01");
   mret (first, second))
    (Example.world (Example.ticking (Example.T0 + 300000) 1) "") []
  = (Return (valid, invalid "Payment payload expired"), [DateNow; DateNow]).
Proof. vm_compute. reflexivity. Qed.

(** C7 (amended). verifyPayment is deterministic in its inputs and the
    time: for the same payload and requirement (and decimals, and
    derivation of associated token addresses, for SPL), two invocations
    that read the same time from the clock yield the same result, whatever
    the state of the chain and whatever was asked of it before; and an
    invocation asks the outside for nothing but the time, so it performs no
    chain mutation. *)
Theorem verify_is_deterministic_given_the_time (w w' : World) (t t' : Trace)
    (p : PaymentPayload.t) (r : Requirement.t) (tokenDecimals : Z)
    (transfer transfer' : SolanaTransferScheme.t)
    (spl spl' : SolanaSPLScheme.t) :
  date_now w t = date_now w' t' ->
  getAssociatedTokenAddress w = getAssociatedTokenAddress w' ->
  fst (SolanaTransferScheme.verifyPayment transfer p r w t)
  = fst (SolanaTransferScheme.verifyPayment transfer' p r w' t')
  /\ fst (SolanaSPLScheme.verifyPayment spl p r tokenDecimals w t)
     = fst (SolanaSPLScheme.verifyPayment spl' p r tokenDecimals w' t')
  /\ (forall e,
        In e (added t (snd (SolanaTransferScheme.verifyPayment transfer p r
                              w t)))
        \/ In e (added t (snd (SolanaSPLScheme.verifyPayment spl p r
                                 tokenDecimals w t))) ->
        e = DateNow).
Proof.
  intros Hclock Hata. split; [|split].
  - by apply transfer_verify_clock.
  - by apply spl_verify_clock.
  - intros e [He|He].
    + destruct (transfer_verify_asks transfer p r w t) as [E|E];
        rewrite E in He.
      * rewrite added_same in He. destruct He.
      * rewrite added_app in He. destruct He as [<-|[]]. reflexivity.
    + destruct (spl_verify_asks spl p r tokenDecimals w t) as [E|E];
        rewrite E in He.
      * rewrite added_same in He. destruct He.
      * rewrite added_app in He. destruct He as [<-|[]]. reflexivity.
Qed.

(** Two worlds with the payment on chain in one and not in the other, and
    different requests behind them, read the same time. *)
Lemma verify_is_deterministic_given_the_time_witness :
  fst (SolanaTransferScheme.verifyPayment Example.devnet
         (Example.transfer_payload Example.sig88 "10000000" Example.T0)
         (Example.sol_requirement "0.01")
         (Example.world (fun _ => Example.T0 + 1000) "") [])
  = fst (SolanaTransferScheme.verifyPayment Example.devnet
           (Example.transfer_payload Example.sig88 "10000000" Example.T0)
           (Example.sol_requirement "0.01")
           (Example.world (Example.ticking Example.T0 1000) Example.sig88)
           [DateNow]).
Proof.
  apply (verify_is_deterministic_given_the_time
           (Example.world (fun _ => Example.T0 + 1000) "")
           (Example.world (Example.ticking Example.T0 1000) Example.sig88)
           [] [DateNow]
           (Example.transfer_payload Example.sig88 "10000000" Example.T0)
           (Example.sol_requirement "0.01") 9
           Example.devnet Example.devnet Example.devnet_spl Example.devnet_spl).
  - vm_compute. reflexivity.
  - reflexivity.
Defined.

(** ** C10: what decodePaymentPayload rejects *)

(** C10. decodePaymentPayload throws the INVALID_PAYLOAD error exactly
    when the base64-decoded text is not valid JSON, and returns the parsed
    value as it is otherwise, with no validation of its shape: headers that
    decode to null, to a number, to a string, or to an object without the
    scheme, network and payload fields are returned, although none of them
    is a PaymentPayload. *)
Theorem decodePaymentPayload_rejects_only_invalid_json (encoded : string) :
  (decodePaymentPayload encoded
   = Throw (X402Error "Invalid payment payload encoding" "INVALID_PAYLOAD")
   <-> JSON.parse (Utf8.decode (Base64.decode encoded)) = None)
  /\ (forall v, decodePaymentPayload encoded = Return v
      <-> JSON.parse (Utf8.decode (Base64.decode encoded)) = Some v)
  /\ (forall e, decodePaymentPayload encoded = Throw e ->
      err_code e = Some "INVALID_PAYLOAD"%string)
  /\ (decodePaymentPayload "bnVsbA==" = Return JNull
      /\ Wire.typed JNull = None)
  /\ (decodePaymentPayload "NDI=" = Return (JNum (Number.of_Z 42))
      /\ Wire.typed (JNum (Number.of_Z 42)) = None)
  /\ (decodePaymentPayload "ImhpIg==" = Return (JStr "hi")
      /\ Wire.typed (JStr "hi") = None)
  /\ (decodePaymentPayload "eyJmb28iOjF9"
      = Return (JObj [("foo"%string, JNum (Number.of_Z 1))])
      /\ Wire.typed (JObj [("foo"%string, JNum (Number.of_Z 1))]) = None)
  /\ decodePaymentPayload "bm90IGpzb24="
     = Throw (X402Error "Invalid payment payload encoding" "INVALID_PAYLOAD").
Proof.
  unfold decodePaymentPayload.
  split; [|split; [|split]].
  - destruct (JSON.parse _); split; intros H; congruence.
  - intros v. destruct (JSON.parse _); split; intros H; congruence.
  - intros e. destruct (JSON.parse _); intros H; [discriminate|].
    by injection H as <-.
  - repeat split; vm_compute; reflexivity.
Qed.

(** ** C5: the requirement validator *)

(** The validator makes its six checks in order and throws at the first
    that fails. *)
Lemma validatePaymentRequirement_in_order (r : Requirement.t) :
  validatePaymentRequirement r =
  if negb (Validator.scheme_ok r)
  then Throw (X402Error "Invalid or missing scheme" "INVALID_SCHEME")
  else if negb (Validator.network_ok r)
  then Throw (X402Error "Invalid or missing network" "INVALID_NETWORK")
  else if negb (Validator.payTo_ok r)
  then Throw (X402Error "Invalid payTo address" "INVALID_PAY_TO")
  else if negb (Validator.asset_present r)
  then Throw (X402Error "Missing asset specification" "MISSING_ASSET")
  else if negb (Validator.asset_scheme_ok r)
  then Throw (X402Error
                (if String.eqb (Requirement.scheme r) "solana-spl"
                 then "SPL scheme cannot use native SOL"
                 else "Transfer scheme must use native SOL")
                "INVALID_ASSET_SCHEME")
  else if negb (Validator.amount_ok r)
  then Throw (X402Error "Invalid maxAmountRequired" "INVALID_AMOUNT")
  else Return tt.
Proof.
  unfold validatePaymentRequirement, Validator.scheme_ok, Validator.network_ok,
    Validator.payTo_ok, Validator.asset_present, Validator.asset_scheme_ok,
    Validator.amount_ok.
  rewrite !negb_andb, !negb_involutive.
  destruct (Js.falsy (Requirement.scheme r) || _); [reflexivity|].
  destruct (Js.falsy (Requirement.network r) || _); [reflexivity|].
  destruct (Js.falsy (Requirement.payTo r) || _); [reflexivity|].
  destruct (Js.falsy (Requirement.asset r)); [reflexivity|].
  destruct (String.eqb_spec (Requirement.scheme r) "solana-spl") as [E|E].
  - rewrite E. cbn [String.eqb Ascii.eqb Bool.eqb andb orb].
    destruct (String.eqb (Requirement.asset r) "SOL"); reflexivity.
  - destruct (String.eqb (Requirement.scheme r) "solana-transfer"),
      (String.eqb (Requirement.asset r) "SOL"); reflexivity.
Qed.

Lemma includes_cases (l : list string) (s : string) :
  includes l s = true -> In s l.
Proof.
  unfold includes. rewrite existsb_exists.
  intros (x & Hin & Heq). apply String.eqb_eq in Heq. by subst.
Qed.

Lemma valid_address_not_empty (s : string) :
  isValidSolanaAddress s = true -> Js.falsy s = false.
Proof.
  intros H. unfold Js.falsy. destruct (String.eqb_spec s EmptyString); [|done].
  subst. discriminate H.
Qed.

(** A requirement that satisfies the invariants of the specification
    passes every check of the validator. *)
Lemma satisfies_passes_checks (r : Requirement.t) :
  Spec.satisfies r -> Validator.failed r = [].
Proof.
  intros H.
  pose proof (H Spec.SchemeEnum) as Hs. pose proof (H Spec.NetworkEnum) as Hn.
  pose proof (H Spec.TransferIffSol) as Hi. pose proof (H Spec.SplMint) as Hm.
  pose proof (H Spec.PayToKey) as Hp. pose proof (H Spec.AmountPositive) as Ha.
  cbn [Spec.holds] in *. unfold Validator.failed.
  assert (Validator.scheme_ok r = true) as ->.
  { unfold Validator.scheme_ok.
    apply includes_cases in Hs. cbn in Hs.
    destruct Hs as [<-|[<-|[]]]; reflexivity. }
  assert (Validator.network_ok r = true) as ->.
  { unfold Validator.network_ok.
    apply includes_cases in Hn. cbn in Hn.
    destruct Hn as [<-|[<-|[<-|[]]]]; reflexivity. }
  assert (Validator.payTo_ok r = true) as ->.
  { unfold Validator.payTo_ok. by rewrite valid_address_not_empty, Hp. }
  assert (Validator.asset_present r = true /\ Validator.asset_scheme_ok r = true)
    as [-> ->].
  { unfold Validator.asset_present, Validator.asset_scheme_ok.
    apply includes_cases in Hs. cbn in Hs.
    destruct Hs as [Es|[Es|[]]]; rewrite <- Es in *;
      cbn [String.eqb Ascii.eqb Bool.eqb andb negb implb] in *.
    - destruct (String.eqb_spec (Requirement.asset r) "SOL") as [E|E];
        [|discriminate Hi].
      rewrite E. split; reflexivity.
    - apply andb_true_iff in Hm as [Hne Hv].
      apply negb_true_iff in Hne.
      rewrite Hne, (valid_address_not_empty _ Hv). split; reflexivity. }
  assert (Validator.amount_ok r = true) as ->.
  { unfold Validator.amount_ok.
    destruct (Number.parseFloat _) as [| | |[] m e]; try discriminate Ha.
    reflexivity. }
  reflexivity.
Qed.

(** C5, as stated, fails in its second half.  Each of these requirements
    violates exactly one invariant of the specification, and the validator
    accepts it: a network outside the enumeration that begins with
    "solana-"; an SPL asset that is not a base58 mint; an amount that is
    not finite. *)
Lemma validator_accepts_violations :
  (Spec.violated (Example.requirement "solana-transfer" "solana-foo" "0.01"
                    Example.merchant "SOL") = [Spec.NetworkEnum]
   /\ validatePaymentRequirement
        (Example.requirement "solana-transfer" "solana-foo" "0.01"
           Example.merchant "SOL") = Return tt)
  /\ (Spec.violated (Example.requirement "solana-spl" "solana-devnet" "0.01"
                       Example.merchant "not a mint") = [Spec.SplMint]
      /\ validatePaymentRequirement
           (Example.requirement "solana-spl" "solana-devnet" "0.01"
              Example.merchant "not a mint") = Return tt)
  /\ (Spec.violated (Example.requirement "solana-transfer" "solana-devnet"
                       "Infinity" Example.merchant "SOL")
      = [Spec.AmountPositive]
      /\ validatePaymentRequirement
           (Example.requirement "solana-transfer" "solana-devnet" "Infinity"
              Example.merchant "SOL") = Return tt).
Proof. repeat split; vm_compute; reflexivity. Qed.

(** C5 (amended). A requirement that satisfies the invariants of §3.1
    (scheme and network in their enumerations, solana-transfer iff asset
    "SOL", solana-spl with a base58 mint, payTo a 32-byte base58 key,
    maxAmountRequired a positive finite number) is accepted.  The validator
    makes six checks, in this order: the scheme is one of the two schemes;
    the network begins with "solana-"; payTo is a 32-byte base58 key; the
    asset is present; scheme and asset agree (solana-spl without "SOL",
    solana-transfer with "SOL"); parseFloat(maxAmountRequired) is a number
    above zero.  It accepts exactly the requirements that pass all six, and
    otherwise throws the code of the first check that fails, so a
    requirement that fails exactly one check gets that check's code; the
    six codes are distinct. *)
Theorem validatePaymentRequirement_codes (r : Requirement.t) :
  (Spec.satisfies r -> validatePaymentRequirement r = Return tt)
  /\ (validatePaymentRequirement r = Return tt <-> Validator.failed r = [])
  /\ (forall code rest,
        Validator.failed r = code :: rest -> Validator.throws r code)
  /\ (forall code, In code (Validator.failed r) ->
        In code ["INVALID_SCHEME"; "INVALID_NETWORK"; "INVALID_PAY_TO";
                 "MISSING_ASSET"; "INVALID_ASSET_SCHEME";
                 "INVALID_AMOUNT"]%string)
  /\ List.NoDup ["INVALID_SCHEME"; "INVALID_NETWORK"; "INVALID_PAY_TO";
                 "MISSING_ASSET"; "INVALID_ASSET_SCHEME";
                 "INVALID_AMOUNT"]%string.
Proof.
  assert (Hiff : validatePaymentRequirement r = Return tt
                 <-> Validator.failed r = []).
  { rewrite validatePaymentRequirement_in_order. unfold Validator.failed.
    destruct (Validator.scheme_ok r), (Validator.network_ok r),
      (Validator.payTo_ok r), (Validator.asset_present r),
      (Validator.asset_scheme_ok r), (Validator.amount_ok r);
      cbn; split; intros H; congruence. }
  split; [|split; [exact Hiff|split; [|split]]].
  - intros H. apply Hiff. by apply satisfies_passes_checks.
  - intros code rest. unfold Validator.throws.
    rewrite validatePaymentRequirement_in_order. unfold Validator.failed.
    destruct (Validator.scheme_ok r), (Validator.network_ok r),
      (Validator.payTo_ok r), (Validator.asset_present r),
      (Validator.asset_scheme_ok r), (Validator.amount_ok r);
      cbn; intros H; try discriminate H; injection H as <- _; eauto.
  - intros code. unfold Validator.failed.
    destruct (Validator.scheme_ok r), (Validator.network_ok r),
      (Validator.payTo_ok r), (Validator.asset_present r),
      (Validator.asset_scheme_ok r), (Validator.amount_ok r);
      cbn; intuition.
  - repeat (apply List.NoDup_cons;
            [ cbn; intros H; repeat destruct H as [H|H];
              try discriminate H; exact H | ]).
    apply List.NoDup_nil.
Qed.

(** Scenario S1's requirement is accepted; scenario S3's requirement,
    which fails the scheme and asset agreement only, is rejected with
    INVALID_ASSET_SCHEME. *)
Lemma validatePaymentRequirement_codes_witness :
  validatePaymentRequirement (Example.sol_requirement "0.01") = Return tt
  /\ Validator.throws
       (Example.requirement "solana-spl" "solana-devnet" "1.00"
          Example.merchant "SOL")
       "INVALID_ASSET_SCHEME".
Proof.
  split.
  - apply (proj1 (validatePaymentRequirement_codes
                    (Example.sol_requirement "0.01"))).
    intros i. destruct i; vm_compute; reflexivity.
  - apply (proj1 (proj2 (proj2 (validatePaymentRequirement_codes
                    (Example.requirement "solana-spl" "solana-devnet" "1.00"
                       Example.merchant "SOL"))))
             "INVALID_ASSET_SCHEME" []).
    vm_compute. reflexivity.
Defined.

(** ** C3: the amount check *)






Lemma digit_not_letter (p q : ascii) :
  Number.is_digit p = true -> Number.is_digit q = false ->
  Ascii.eqb p q = false.
Proof.
  intros Hp Hq. destruct (Ascii.eqb_spec p q); [subst; congruence|done].
Qed.



(** *** Safe integers *)

Lemma digits2_size (p : positive) : digits2_pos p = Pos.size p.
Proof. induction p; cbn; congruence. Qed.

Lemma iter_xO_shiftl (p d : positive) :
  Zpos (Pos.iter xO p d) = Z.shiftl (Zpos p) (Zpos d).
Proof.
  unfold Z.shiftl. induction d using Pos.peano_ind.
  - reflexivity.
  - rewrite !Pos.iter_succ, <- IHd. reflexivity.
Qed.

Lemma digits2_iter_xO (p d : positive) :
  digits2_pos (Pos.iter xO p d) = (digits2_pos p + d)%positive.
Proof.
  induction d using Pos.peano_ind.
  - cbn. lia.
  - rewrite Pos.iter_succ. cbn. rewrite IHd. lia.
Qed.

Lemma digits2_bound (p : positive) :
  Zpos p < 2 ^ 53 -> Zpos (digits2_pos p) <= 53.
Proof.
  intros H. rewrite digits2_size.
  pose proof (Pos.size_le p) as Hle.
  apply Pos2Z.pos_le_pos in Hle. rewrite Pos2Z.inj_pow in Hle.
  destruct (Z.le_gt_cases (Zpos (Pos.size p)) 53) as [|Hgt]; [done|].
  assert (2 ^ 54 <= 2 ^ Zpos (Pos.size p)) by (apply Z.pow_le_mono_r; lia).
  change (Zpos p~0) with (2 * Zpos p) in Hle. lia.
Qed.

Lemma round_aux_exact (s : bool) (m : positive) (e : Z) :
  Zpos (digits2_pos m) = 53 -> -1074 <= e <= 971 ->
  binary_round_aux 53 1024 s (Zpos m) e loc_Exact = S754_finite s m e.
Proof.
  intros Hd He.
  unfold binary_round_aux, shr_fexp, fexp, emin, Zdigits2.
  cbn [shr_record_of_loc]. rewrite Hd.
  replace (Z.max (53 + e - 53) (3 - 1024 - 53) - e) with 0 by lia.
  cbn [shr shr_m loc_of_shr_record round_nearest_even shr_record_of_loc].
  rewrite Hd.
  replace (Z.max (53 + e - 53) (3 - 1024 - 53) - e) with 0 by lia.
  cbn [shr shr_m].
  destruct (Z.leb_spec e (1024 - 53)); [reflexivity|lia].
Qed.

Lemma of_Z_signed (s : bool) (p : positive) :
  Zpos p < 2 ^ 53 ->
  exists m e, binary_round 53 1024 s p 0 = S754_finite s m e
              /\ Number.to_integer (S754_finite s m e)
                 = Some (if s then Zneg p else Zpos p).
Proof.
  intros Hp. pose proof (digits2_bound p Hp) as Hd.
  unfold binary_round, shl_align, fexp, emin.
  set (d := digits2_pos p) in *.
  replace (Z.max (Z.pos d + 0 - 53) (3 - 1024 - 53)) with (Zpos d - 53) by lia.
  destruct (Zpos d - 53 - 0) as [|q|q] eqn:Hq; [|lia|].
  - exists p, 0. split.
    + apply round_aux_exact; [fold d|]; lia.
    + cbn. by destruct s.
  - exists (Pos.iter xO p q), (Zpos d - 53). split.
    + apply round_aux_exact; [|lia].
      rewrite digits2_iter_xO. fold d. lia.
    + unfold Number.to_integer.
      destruct (Z.leb_spec 0 (Zpos d - 53)); [lia|].
      replace (- (Zpos d - 53)) with (Zpos q) by lia.
      rewrite iter_xO_shiftl, Z.shiftr_shiftl_l, Z.sub_diag by lia.
      change (Z.shiftl (Zpos p) 0) with (Zpos p).
      rewrite Z.eqb_refl. by destruct s.
Qed.

(** A safe integer is a number, exactly. *)
Lemma of_Z_safe (n : Z) :
  Z.abs n < 2 ^ 53 ->
  Number.to_integer (Number.of_Z n) = Some n
  /\ JSON.finite (Number.of_Z n) = true.
Proof.
  intros Hn. unfold Number.of_Z, binary_normalize, Number.prec, Number.emax.
  destruct n as [|p|p].
  - split; reflexivity.
  - destruct (of_Z_signed false p) as (m & e & -> & Hi); [lia|]. by split.
  - destruct (of_Z_signed true p) as (m & e & -> & Hi); [lia|]. by split.
Qed.

Lemma of_decimal_integer (neg : bool) (n : Z) :
  0 <= n -> (n = 0 -> neg = false) ->
  Number.of_decimal neg n (- 0) = Number.of_Z (if neg then - n else n).
Proof.
  intros Hn Hz. unfold Number.of_decimal. destruct n as [|p|p]; [|clear Hz|lia].
  - rewrite Hz by done. reflexivity.
  - cbn [Z.opp Z.leb Z.compare]. rewrite Z.mul_1_r. by destruct neg.
Qed.


(** *** Rounding to the nearest number *)















(** *** Plain decimals *)




(** *** Whole numbers and binary fractions *)

Lemma pow2_split (a b : Z) :
  0 <= a -> 0 <= b -> 2 ^ (a + b) = 2 ^ a * 2 ^ b.
Proof. intros. apply Z.pow_add_r; lia. Qed.


(** *** The product with [10^9] *)


Lemma pow2_pos (n : Z) : 0 <= n -> 0 < 2 ^ n.
Proof. intros. apply Z.pow_pos_nonneg; lia. Qed.








(** *** The atomic value of a steady decimal *)





(** *** Steady decimals *)

(** Every whole number whose atomic value is below [2^53] is steady. *)
Lemma whole_prices_steady (n : Z) :
  0 < n -> n * 10 ^ 9 < 2 ^ 53 -> Spec.steady (n, 0).
Proof.
  intros Hn Hb. right. exists (52 - Z.log2 n).
  destruct (Z.log2_spec n Hn) as [Hlo Hhi].
  pose proof (Z.log2_nonneg n) as Hl0.
  assert (Hl : Z.log2 n < 53).
  { apply (Z.pow_lt_mono_r_iff 2); [lia|lia|].
    change (10 ^ 9) with 1000000000 in Hb. lia. }
  pose proof (pow2_pos (52 - Z.log2 n) ltac:(lia)) as HT.
  assert (H52 : 2 ^ 52 = 2 ^ Z.log2 n * 2 ^ (52 - Z.log2 n)).
  { rewrite <- Z.pow_add_r by lia. f_equal. lia. }
  assert (H53 : 2 ^ 53 = 2 ^ Z.succ (Z.log2 n) * 2 ^ (52 - Z.log2 n)).
  { rewrite <- Z.pow_add_r by lia. f_equal. lia. }
  unfold Spec.binade, Spec.atomic_floor. cbn [fst snd].
  rewrite Z.pow_0_r, !Z.mul_1_r, Z.div_1_r.
  split; [|split; [lia|]].
  - rewrite H52 at 1. rewrite H53. split.
    + apply Z.mul_le_mono_nonneg_r; lia.
    + apply Z.mul_lt_mono_pos_r; lia.
  - right. split; [lia|]. split; [exact Hb|]. left. apply Z.mod_1_r.
Qed.

(** Settles a comparison of integers that are given. *)
Ltac closed :=
  unfold Spec.binade, Spec.atomic_floor; cbn [fst snd]; repeat split;
  first [reflexivity | vm_compute; discriminate | by left].

(** Some steady prices: 0.01, 0.05, 0.1 and 0.25 SOL, half a SOL, and
    half a lamport. *)
Lemma steady_examples :
  Forall (fun s => exists mf, Spec.decimal s = Some mf /\ Spec.steady mf)
    ["0.01"; "0.05"; "0.1"; "0.25"; "0.5"; "0.0000000005"]%string.
Proof.
  assert (Hzone : forall m f t,
            Spec.binade (m, f) t -> t <= 1073 -> f <= 9 ->
            Spec.atomic_floor (m, f) 9 < 2 ^ 53 ->
            2 ^ (82 - t) < Spec.atomic_floor (m, f) 9 ->
            Spec.steady (m, f)).
  { intros m f t Hb Ht Hf HE Hz. right. exists t. cbn [fst snd]. tauto. }
  assert (Hexact : forall m f t,
            Spec.binade (m, f) t -> t <= 1073 -> f <= 9 ->
            Spec.atomic_floor (m, f) 9 < 2 ^ 53 ->
            (m * 2 ^ t) mod 10 ^ f = 0 ->
            Spec.steady (m, f)).
  { intros m f t Hb Ht Hf HE Hz. right. exists t. cbn [fst snd]. tauto. }
  repeat apply List.Forall_cons; [..|apply List.Forall_nil];
    (eexists; split; [vm_compute; reflexivity|]).
  - apply (Hzone 1 2 59); closed.
  - apply (Hzone 5 2 57); closed.
  - apply (Hzone 1 1 56); closed.
  - apply (Hexact 25 2 54); closed.
  - apply (Hexact 5 1 53); closed.
  - right. exists 83. closed.
Qed.



(** ** C8: the codec round trip *)

(** *** Bytes *)

Lemma code_range (c : ascii) : 0 <= Js.code c < 256.
Proof.
  unfold Js.code. pose proof (N_ascii_bounded c). lia.
Qed.

Lemma chr_code (c : ascii) : Js.chr (Js.code c) = c.
Proof.
  unfold Js.chr, Js.code. rewrite N2Z.id. apply ascii_N_embedding.
Qed.

Lemma code_chr (n : Z) : 0 <= n < 256 -> Js.code (Js.chr n) = n.
Proof.
  intros H. unfold Js.chr, Js.code.
  rewrite N_ascii_embedding by lia. lia.
Qed.

Lemma chr_eq (n : Z) (c : ascii) : n = Js.code c -> Js.chr n = c.
Proof. intros ->. apply chr_code. Qed.

(** *** Base64 *)

Lemma base64_value_digit (v : Z) :
  0 <= v < 64 ->
  Base64.value (Base64.digit v) = Some v
  /\ Ascii.eqb (Base64.digit v) "=" = false.
Proof.
  intros Hv. unfold Base64.digit, Base64.value.
  assert (Hne : forall n, 0 <= n < 256 -> n <> 61 ->
                  Ascii.eqb (Js.chr n) "=" = false).
  { intros n Hn Hne. destruct (Ascii.eqb_spec (Js.chr n) "="%char) as [E|]; [|done].
    apply (f_equal Js.code) in E. rewrite code_chr in E by lia.
    change (Js.code "=") with 61 in E. lia. }
  destruct (Z.ltb_spec v 26); [|destruct (Z.ltb_spec v 52);
    [|destruct (Z.ltb_spec v 62); [|destruct (Z.eqb_spec v 62)]]].
  - rewrite code_chr by lia. split; [|apply Hne; lia].
    destruct (Z.leb_spec 65 (65 + v)), (Z.leb_spec (65 + v) 90); try lia.
    cbn. f_equal. lia.
  - rewrite code_chr by lia. split; [|apply Hne; lia].
    destruct (Z.leb_spec 65 (97 + (v - 26))), (Z.leb_spec (97 + (v - 26)) 90),
      (Z.leb_spec 97 (97 + (v - 26))), (Z.leb_spec (97 + (v - 26)) 122);
      try lia; cbn; f_equal; lia.
  - rewrite code_chr by lia. split; [|apply Hne; lia].
    destruct (Z.leb_spec 65 (48 + (v - 52))), (Z.leb_spec (48 + (v - 52)) 90),
      (Z.leb_spec 97 (48 + (v - 52))), (Z.leb_spec (48 + (v - 52)) 122),
      (Z.leb_spec 48 (48 + (v - 52))), (Z.leb_spec (48 + (v - 52)) 57);
      try lia; cbn; f_equal; lia.
  - subst v. split; reflexivity.
  - assert (v = 63) as -> by lia. split; reflexivity.
Qed.

(** Lists, three elements at a time. *)
Lemma list_ind3 {A} (P : list A -> Prop) :
  P [] -> (forall x, P [x]) -> (forall x y, P [x; y]) ->
  (forall x y z r, P r -> P (x :: y :: z :: r)) ->
  forall l, P l.
Proof.
  intros H0 H1 H2 H3 l.
  enough (P l /\ (forall x, P (x :: l)) /\ (forall x y, P (x :: y :: l)))
    by tauto.
  induction l as [|a l (IH0 & IH1 & IH2)]; auto.
Qed.

Ltac base64_digit v :=
  let Hv := fresh in
  let Hs := fresh in
  let He := fresh in
  assert (Hv : 0 <= v < 64) by (Z.div_mod_to_equations; lia);
  destruct (base64_value_digit v Hv) as [Hs He];
  rewrite ?Hs, ?He; clear Hv.

(** Decoding what [toString('base64')] wrote gives the bytes back. *)
Lemma base64_round_trip (b : Buffer) : Base64.decode (Base64.encode b) = b.
Proof.
  unfold Base64.decode.
  induction b as [|x|x y|x y z r IH] using list_ind3.
  - reflexivity.
  - cbn [Base64.encode Base64.sextets].
    pose proof (code_range x) as Hx.
    base64_digit (Js.code x / 4). base64_digit (Js.code x mod 4 * 16).
    cbn. f_equal. rewrite <- (chr_code x) at 3. f_equal.
    Z.div_mod_to_equations; lia.
  - cbn [Base64.encode Base64.sextets].
    pose proof (code_range x) as Hx. pose proof (code_range y) as Hy.
    base64_digit (Js.code x / 4).
    base64_digit (Js.code x mod 4 * 16 + Js.code y / 16).
    base64_digit (Js.code y mod 16 * 4).
    cbn. f_equal; [|f_equal].
    + apply chr_eq. Z.div_mod_to_equations; lia.
    + apply chr_eq. Z.div_mod_to_equations; lia.
  - cbn [Base64.encode Base64.sextets].
    pose proof (code_range x) as Hx. pose proof (code_range y) as Hy.
    pose proof (code_range z) as Hz.
    base64_digit (Js.code x / 4).
    base64_digit (Js.code x mod 4 * 16 + Js.code y / 16).
    base64_digit (Js.code y mod 16 * 4 + Js.code z / 64).
    base64_digit (Js.code z mod 64).
    cbn [Base64.pack]. rewrite IH. f_equal; [|f_equal; [|f_equal]].
    + apply chr_eq. Z.div_mod_to_equations; lia.
    + apply chr_eq. Z.div_mod_to_equations; lia.
    + apply chr_eq. Z.div_mod_to_equations; lia.
Qed.

(** *** UTF-8 *)

(** Well-formed strings, one code point at a time. *)
Lemma utf8_valid_ind (P : string -> Prop) :
  P EmptyString ->
  (forall c r, Js.code c < 128 -> Utf8.valid r = true -> P r ->
     P (String c r)) ->
  (forall c1 c2 r, Js.code c1 >= 128 -> Utf8.in_range 194 223 c1 = true ->
     Js.is_cont c2 = true -> Utf8.valid r = true -> P r ->
     P (String c1 (String c2 r))) ->
  (forall c1 c2 c3 r, Js.code c1 >= 128 -> Utf8.in_range 194 223 c1 = false ->
     Utf8.in_range 224 239 c1 = true -> Utf8.second3 c1 c2 = true ->
     Js.is_cont c3 = true -> Utf8.valid r = true -> P r ->
     P (String c1 (String c2 (String c3 r)))) ->
  (forall c1 c2 c3 c4 r, Js.code c1 >= 128 ->
     Utf8.in_range 194 223 c1 = false -> Utf8.in_range 224 239 c1 = false ->
     Utf8.in_range 240 244 c1 = true -> Utf8.second4 c1 c2 = true ->
     Js.is_cont c3 = true -> Js.is_cont c4 = true -> Utf8.valid r = true ->
     P r -> P (String c1 (String c2 (String c3 (String c4 r))))) ->
  forall s, Utf8.valid s = true -> P s.
Proof.
  intros H0 H1 H2 H3 H4 s.
  remember (String.length s) as n eqn:Hn. revert s Hn.
  induction n as [n IH] using lt_wf_ind. intros s -> Hv.
  destruct s as [|c1 r1]; [exact H0|]. cbn in Hv.
  destruct (Z.ltb_spec (Js.code c1) 128) as [E1|E1].
  { apply H1; [lia|exact Hv|]. eapply IH; [|reflexivity|exact Hv]. cbn. lia. }
  destruct (Utf8.in_range 194 223 c1) eqn:E2.
  { destruct r1 as [|c2 r2]; [discriminate|].
    apply andb_true_iff in Hv as [Hc Hv].
    apply H2; [lia|done..|]. eapply IH; [|reflexivity|exact Hv]. cbn. lia. }
  destruct (Utf8.in_range 224 239 c1) eqn:E3.
  { destruct r1 as [|c2 [|c3 r3]]; try discriminate.
    apply andb_true_iff in Hv as [Hv Hr].
    apply andb_true_iff in Hv as [Hc2 Hc3].
    apply H3; [lia|done..|]. eapply IH; [|reflexivity|exact Hr]. cbn. lia. }
  destruct (Utf8.in_range 240 244 c1) eqn:E4; [|discriminate].
  destruct r1 as [|c2 [|c3 [|c4 r4]]]; try discriminate.
  apply andb_true_iff in Hv as [Hv Hr].
  apply andb_true_iff in Hv as [Hv Hc4].
  apply andb_true_iff in Hv as [Hc2 Hc3].
  apply H4; [lia|done..|]. eapply IH; [|reflexivity|exact Hr]. cbn. lia.
Qed.

Lemma not_below_128 (c : ascii) : Js.code c >= 128 -> (Js.code c <? 128) = false.
Proof. intros H. apply Z.ltb_ge. lia. Qed.

(** [toString('utf8')] of the bytes of a well-formed string is the
    string. *)
Lemma utf8_round_trip (s : string) :
  Utf8.valid s = true -> Utf8.decode (Utf8.encode s) = s.
Proof.
  unfold Utf8.encode. revert s.
  apply utf8_valid_ind; cbn [list_ascii_of_string Utf8.decode].
  - reflexivity.
  - intros c r Hc _ ->. apply Z.ltb_lt in Hc. by rewrite Hc.
  - intros c1 c2 r Hc E2 Hc2 _ ->.
    by rewrite (not_below_128 _ Hc), E2, Hc2.
  - intros c1 c2 c3 r Hc E2 E3 Hc2 Hc3 _ ->.
    by rewrite (not_below_128 _ Hc), E2, E3, Hc2, Hc3.
  - intros c1 c2 c3 c4 r Hc E2 E3 E4 Hc2 Hc3 Hc4 _ ->.
    by rewrite (not_below_128 _ Hc), E2, E3, E4, Hc2, Hc3, Hc4.
Qed.

(** ASCII characters in front of a well-formed string. *)
Lemma valid_ascii (c : ascii) (r : string) :
  Js.code c < 128 -> Utf8.valid (String c r) = Utf8.valid r.
Proof. intros H. cbn. apply Z.ltb_lt in H. by rewrite H. Qed.

Lemma valid_ascii_app (s k : string) :
  ascii_only s = true -> Utf8.valid (s +:+ k) = Utf8.valid k.
Proof.
  induction s as [|c s IH]; [done|].
  intros [Hc Hs]%andb_true_iff. apply Z.ltb_lt in Hc.
  change (String c s +:+ k) with (String c (s +:+ k)).
  rewrite valid_ascii by done. auto.
Qed.

(** *** Decimal digits *)

Lemma append_nil (b : string) : EmptyString +:+ b = b.
Proof. reflexivity. Qed.

Lemma append_cons (x : ascii) (a b : string) :
  String x a +:+ b = String x (a +:+ b).
Proof. reflexivity. Qed.

Lemma append_assoc (a b c : string) : (a +:+ b) +:+ c = a +:+ (b +:+ c).
Proof.
  induction a as [|x a IH]; [done|]. by rewrite !append_cons, IH.
Qed.

Lemma ascii_only_app (a b : string) :
  ascii_only (a +:+ b) = ascii_only a && ascii_only b.
Proof.
  induction a as [|x a IH]; [done|].
  rewrite append_cons. cbn [ascii_only]. by rewrite IH, andb_assoc.
Qed.

Lemma digit_chr (d : Z) :
  0 <= d <= 9 ->
  Number.is_digit (Js.chr (48 + d)) = true
  /\ Js.code (Js.chr (48 + d)) - 48 = d
  /\ (Js.code (Js.chr (48 + d)) <? 128) = true
  /\ (0 < d -> Ascii.eqb (Js.chr (48 + d)) "0" = false).
Proof.
  intros Hd. unfold Number.is_digit. rewrite code_chr by lia.
  split; [|split; [|split]].
  - apply andb_true_iff. split; apply Z.leb_le; lia.
  - lia.
  - apply Z.ltb_lt. lia.
  - intros Hpos.
    destruct (Ascii.eqb_spec (Js.chr (48 + d)) "0"%char) as [E|]; [|done].
    apply (f_equal Js.code) in E. rewrite code_chr in E by lia.
    change (Js.code "0") with 48 in E. lia.
Qed.

Lemma digits_fuel_app (fuel : nat) :
  forall n acc,
    Js.digits_fuel fuel n acc = Js.digits_fuel fuel n EmptyString +:+ acc.
Proof.
  induction fuel as [|fuel IH]; intros n acc; [done|].
  cbn [Js.digits_fuel]. destruct (n <? 10); [done|].
  set (d := Js.chr (48 + n mod 10)).
  rewrite (IH (n / 10) (String d acc)), (IH (n / 10) (String d EmptyString)).
  by rewrite append_assoc.
Qed.

Lemma digits_fuel_spec (fuel : nat) :
  forall n, 0 < n < 2 ^ Z.of_nat fuel ->
    digits_ok n (Js.digits_fuel fuel n EmptyString).
Proof.
  induction fuel as [|fuel IH]; intros n Hn; [cbn in Hn; lia|].
  cbn [Js.digits_fuel].
  assert (Hmod : 0 <= n mod 10 <= 9) by (Z.div_mod_to_equations; lia).
  destruct (digit_chr (n mod 10) Hmod) as (Hd & Hv & Ha & Hz).
  destruct (Z.ltb_spec n 10) as [Hlt|Hge].
  - exists (Js.chr (48 + n mod 10)), EmptyString, 1.
    rewrite Z.mod_small in * by lia.
    split; [reflexivity|]. split; [exact Hd|]. split; [apply Hz; lia|].
    split; [cbn; by rewrite Ha|]. split; [lia|].
    intros a cnt k. rewrite append_cons, append_nil.
    cbn [Number.scan_digits]. rewrite Hd, Hv. f_equal; lia.
  - rewrite digits_fuel_app.
    destruct (IH (n / 10)) as (c & r & len & E & Hc & Hc0 & Hasc & Hlen & Hscan).
    { rewrite Nat2Z.inj_succ, Z.pow_succ_r in Hn by lia.
      Z.div_mod_to_equations; lia. }
    exists c, (r +:+ String (Js.chr (48 + n mod 10)) EmptyString), (len + 1).
    split; [by rewrite E|]. split; [exact Hc|]. split; [exact Hc0|].
    split; [rewrite ascii_only_app, Hasc; cbn; by rewrite Ha|].
    split; [lia|].
    intros a cnt k. rewrite append_assoc, Hscan.
    rewrite append_cons, append_nil. cbn [Number.scan_digits].
    rewrite Hd, Hv. rewrite Z.pow_add_r, Z.pow_1_r by lia.
    set (P := 10 ^ len). pose proof (Z.div_mod n 10 ltac:(lia)) as Hdm.
    replace ((a * P + n / 10) * 10 + n mod 10) with (a * (P * 10) + n) by lia.
    by replace (cnt + len + 1) with (cnt + (len + 1)) by lia.
Qed.

Lemma digits_spec (n : Z) : 0 < n -> digits_ok n (Js.digits n).
Proof.
  intros Hn. apply digits_fuel_spec.
  rewrite Nat2Z.inj_succ, Z2Nat.id by apply Z.log2_nonneg.
  pose proof (Z.log2_spec n Hn). lia.
Qed.

(** *** Numbers in JSON text *)

Lemma delimited_cases (k : string) :
  delimited k = true ->
  k = EmptyString
  \/ exists t, k = String ","%char t \/ k = String "]"%char t
               \/ k = String "}"%char t.
Proof.
  destruct k as [|c t]; [by left|]. cbn. rewrite !orb_true_iff.
  intros [[H|H]|H]; apply Ascii.eqb_eq in H; subst; right; exists t; auto.
Qed.

Lemma toString_safe (n : Z) :
  Z.abs n < 2 ^ 53 ->
  NumberFormat.toString (Number.of_Z n) = Js.string_of_Z n.
Proof.
  intros Hn. destruct (of_Z_safe n Hn) as [Hi _].
  unfold NumberFormat.toString.
  destruct (Number.of_Z n) as [s|s| |s m e] eqn:E; try discriminate Hi.
  - injection Hi as <-. reflexivity.
  - rewrite Hi. unfold NumberFormat.SAFE.
    destruct (Z.leb_spec (Z.abs n) (2 ^ 53)); [reflexivity|lia].
Qed.

(** After the digits of a number, a delimiter ends the literal. *)
Lemma number_tail (neg : bool) (m : Z) (k : string) :
  delimited k = true ->
  (let frac :=
     match k with
     | String "."%char t =>
         let '(m', nf, r2) := Number.scan_digits m 0 t in
         if nf =? 0 then None else Some (m', nf, r2)
     | _ => Some (m, 0, k)
     end in
   match frac with
   | None => None
   | Some (m', nf, r2) =>
       match r2 with
       | String c t =>
           if Ascii.eqb c "e" || Ascii.eqb c "E" then
             let '(eneg, t1) := Number.scan_sign t in
             let '(ev, en, r3) := Number.scan_digits 0 0 t1 in
             if en =? 0 then None
             else Some (Number.of_decimal neg m'
                          ((if eneg then - ev else ev) - nf), r3)
           else Some (Number.of_decimal neg m' (- nf), r2)
       | EmptyString => Some (Number.of_decimal neg m' (- nf), r2)
       end
   end) = Some (Number.of_decimal neg m (- 0), k).
Proof.
  intros Hk. destruct (delimited_cases k Hk) as [-> | (t & [-> | [-> | ->]])];
    reflexivity.
Qed.

Lemma scan_stop (a cnt : Z) (k : string) :
  delimited k = true -> Number.scan_digits a cnt k = (a, cnt, k).
Proof.
  intros Hk. destruct (delimited_cases k Hk) as [-> | (t & [-> | [-> | ->]])];
    reflexivity.
Qed.

Lemma number_round_trip (n : Z) (k : string) :
  Z.abs n < 2 ^ 53 -> delimited k = true ->
  JSON.parse_number (NumberFormat.toString (Number.of_Z n) +:+ k)
  = Some (Number.of_Z n, k).
Proof.
  intros Hn Hk. rewrite toString_safe by done.
  unfold Js.string_of_Z, JSON.parse_number.
  destruct (Z.ltb_spec n 0) as [Hneg|Hpos].
  - destruct (digits_spec (- n)) as (c & r & len & E & Hc & Hc0 & _ & _ & Hscan);
      [lia|].
    rewrite append_cons. cbn [Ascii.eqb Bool.eqb].
    specialize (Hscan 0 0 k). rewrite E in *. rewrite append_cons in *.
    rewrite Hc0, Hc, Hscan, scan_stop by done.
    rewrite (number_tail true _ k Hk), of_decimal_integer by lia.
    do 3 f_equal; lia.
  - destruct (Z.eq_dec n 0) as [->|Hne].
    + change (Js.digits 0) with "0"%string. rewrite append_cons, append_nil.
      destruct (delimited_cases k Hk) as [-> | (t & [-> | [-> | ->]])];
        reflexivity.
    + destruct (digits_spec n) as (c & r & len & E & Hc & Hc0 & _ & _ & Hscan);
        [lia|].
      specialize (Hscan 0 0 k). rewrite E in *. rewrite append_cons in *.
      rewrite (digit_not_letter c "-") by done.
      rewrite Hc0, Hc, Hscan, scan_stop by done.
      rewrite (number_tail false _ k Hk), of_decimal_integer by lia.
      do 3 f_equal; lia.
Qed.

(** *** Strings in JSON text *)

(** Reading back one quoted character. *)
Lemma quote_char_parse (c : ascii) (K : string) :
  JSON.parse_string_body JSON.SNormal None (JSON.quote_char c K)
  = match JSON.parse_string_body JSON.SNormal None K with
    | Some (o, rest) => Some (String c o, rest)
    | None => None
    end.
Proof.
  destruct c as [[] [] [] [] [] [] [] []]; reflexivity.
Qed.

(** Every string is read back from its quoted form. *)
Lemma string_round_trip (s k : string) :
  JSON.parse_string_body JSON.SNormal None
    (JSON.quote_body s (String Js.dquote k))
  = Some (s, k).
Proof.
  induction s as [|c s IH]; [reflexivity|].
  cbn [JSON.quote_body]. by rewrite quote_char_parse, IH.
Qed.

(** *** Values in JSON text *)

Lemma json_induction (P : json -> Prop) :
  P JNull -> (forall b, P (JBool b)) -> (forall x, P (JNum x)) ->
  (forall s, P (JStr s)) ->
  (forall l, Forall P l -> P (JArr l)) ->
  (forall ms, Forall (fun m => P (snd m)) ms -> P (JObj ms)) ->
  forall v, P v.
Proof.
  intros Hnull Hbool Hnum Hstr Harr Hobj.
  fix IH 1. intros [|b|x|s|l|ms].
  - exact Hnull.
  - apply Hbool.
  - apply Hnum.
  - apply Hstr.
  - apply Harr. induction l as [|x l IHl]; constructor; [apply IH|exact IHl].
  - apply Hobj. induction ms as [|[key x] ms IHms]; constructor;
      [apply IH|exact IHms].
Qed.

Lemma write_array (x : json) (r : list json) (k : string) :
  JSON.write (JArr (x :: r)) k
  = String "["%char (JSON.write x (elements_tail r k)).
Proof.
  cbn [JSON.write]. do 2 f_equal.
  induction r as [|y r IH]; [reflexivity|].
  cbn [elements_tail]. by rewrite <- IH.
Qed.

Lemma write_object (key : string) (x : json) (r : list (string * json))
    (k : string) :
  JSON.write (JObj ((key, x) :: r)) k
  = String "{"%char
      (JSON.quote key (String ":"%char (JSON.write x (members_tail r k)))).
Proof.
  cbn [JSON.write].
  enough (E : forall r, (fix more (r : list (string * json)) : string :=
                match r with
                | [] => String "}"%char k
                | (key', y) :: r' =>
                    String ","%char
                      (JSON.quote key'
                         (String ":"%char (JSON.write y (more r'))))
                end) r = members_tail r k) by (by rewrite E).
  clear. induction r as [|[key' y] r IH]; [reflexivity|].
  cbn [members_tail]. by rewrite <- IH.
Qed.

Lemma need_array (l : list json) : need (JArr l) = S (need_elements l).
Proof. reflexivity. Qed.

Lemma need_object (ms : list (string * json)) :
  need (JObj ms) = S (need_members ms).
Proof. reflexivity. Qed.

(** *** Objects built member by member *)

Lemma obj_set_fresh (key : string) (v : json) (ms : list (string * json)) :
  JSON.array_index key = None -> ~ In key (map fst ms) ->
  JSON.obj_set key v ms = ms ++ [(key, v)].
Proof.
  intros Hi. induction ms as [|[k' v'] r IH]; [reflexivity|].
  cbn [map fst In JSON.obj_set]. intros Hn.
  destruct (String.eqb_spec k' key) as [->|_]; [tauto|].
  rewrite Hi, IH by tauto. reflexivity.
Qed.

Lemma object_of_members (ms : list (string * json)) :
  List.NoDup (map fst ms) ->
  (forall m, In m ms -> JSON.array_index (fst m) = None) ->
  JSON.object_of ms = JObj ms.
Proof.
  unfold JSON.object_of. intros Hd Hi. f_equal.
  change ms with ([] ++ ms) at 2.
  assert (Hacc : List.NoDup (map fst ([] ++ ms))) by exact Hd.
  revert Hacc. generalize (@nil (string * json)) as acc. clear Hd.
  induction ms as [|[key v] r IH]; intros acc Hd.
  - cbn. by rewrite app_nil_r.
  - cbn [fold_left fst snd].
    assert (Hn : ~ In key (map fst acc)).
    { rewrite map_app in Hd. cbn [map fst] in Hd.
      apply List.NoDup_remove_2 in Hd. intros H. apply Hd.
      apply in_or_app. by left. }
    rewrite obj_set_fresh; [|apply (Hi (key, v)); by left|exact Hn].
    rewrite IH.
    + by rewrite <- app_assoc.
    + intros m Hm. apply Hi. by right.
    + by rewrite <- app_assoc.
Qed.

(** *** Values in JSON text: what a value starts with *)

Lemma string_of_Z_head (n : Z) :
  exists c t, Js.string_of_Z n = String c t
              /\ (Number.is_digit c = true \/ c = "-"%char).
Proof.
  unfold Js.string_of_Z. destruct (Z.ltb_spec n 0) as [Hneg|Hpos].
  - eexists _, _. split; [reflexivity|by right].
  - destruct (Z.eq_dec n 0) as [->|Hne].
    + exists "0"%char, EmptyString. split; [reflexivity|by left].
    + destruct (digits_spec n) as (c & r & len & E & Hc & _); [lia|].
      exists c, r. split; [exact E|by left].
Qed.

Lemma number_head_not_ws (c : ascii) :
  Number.is_digit c = true \/ c = "-"%char -> JSON.is_ws c = false.
Proof.
  intros [H| ->]; [|reflexivity].
  unfold Number.is_digit in H. unfold JSON.is_ws.
  apply andb_true_iff in H as [Hlo Hhi]. apply Z.leb_le in Hlo, Hhi.
  repeat match goal with
    | |- context [Js.code c =? ?k] => destruct (Z.eqb_spec (Js.code c) k); [lia|]
    end.
  reflexivity.
Qed.

Lemma parse_value_number (fuel : nat) (c : ascii) (t : string) :
  Number.is_digit c = true \/ c = "-"%char ->
  JSON.parse_value (S fuel) (String c t)
  = match JSON.parse_number (String c t) with
    | Some (x, r') => Some (JNum x, r')
    | None => None
    end.
Proof.
  intros [H| ->]; [|reflexivity].
  cbn [JSON.parse_value].
  by rewrite !(digit_not_letter c _ H) by reflexivity.
Qed.

(** The text of a value starts with a character that is neither white
    space nor a closing bracket. *)
Lemma write_head (v : json) (k : string) :
  well_formed v ->
  exists c t, JSON.write v k = String c t
              /\ JSON.is_ws c = false /\ Ascii.eqb c "]" = false.
Proof.
  destruct v as [|[]|x|s|[|y l]|[|[key y] ms]]; intros Hv;
    try (eexists _, _; split; [reflexivity|by split]).
  - destruct Hv as (n & Hn & ->). cbn [JSON.write].
    destruct (of_Z_safe n Hn) as [_ ->]. rewrite toString_safe by done.
    destruct (string_of_Z_head n) as (c & t & -> & Hc).
    exists c, (t +:+ k). split; [reflexivity|]. split.
    + by apply number_head_not_ws.
    + destruct Hc as [Hc| ->]; [|reflexivity].
      by apply digit_not_letter.
Qed.

Lemma skip_ws_write (v : json) (k : string) :
  well_formed v -> JSON.skip_ws (JSON.write v k) = JSON.write v k.
Proof.
  intros Hv. destruct (write_head v k Hv) as (c & t & -> & Hc & _).
  cbn [JSON.skip_ws]. by rewrite Hc.
Qed.

Lemma peek_write (v : json) (k : string) :
  well_formed v -> JSON.peek "]" (JSON.write v k) = None.
Proof.
  intros Hv. destruct (write_head v k Hv) as (c & t & -> & _ & Hc).
  cbn [JSON.peek]. by rewrite Hc.
Qed.

Lemma delimited_elements (r : list json) (k : string) :
  delimited (elements_tail r k) = true.
Proof. by destruct r. Qed.

Lemma delimited_members (r : list (string * json)) (k : string) :
  delimited (members_tail r k) = true.
Proof. by destruct r as [|[key y] r]. Qed.

(** *** Values in JSON text: reading back *)

Lemma well_formed_array (l : list json) :
  well_formed (JArr l) <-> Forall well_formed l.
Proof.
  change (well_formed (JArr l))
    with (fold_right (fun x P => well_formed x /\ P) True l).
  induction l as [|x l IH]; cbn [fold_right].
  - split; [constructor|done].
  - rewrite Forall_cons, IH. done.
Qed.

Lemma well_formed_object (ms : list (string * json)) :
  well_formed (JObj ms) <->
  List.NoDup (map fst ms)
  /\ Forall (fun m => Utf8.valid (fst m) = true
                      /\ JSON.array_index (fst m) = None
                      /\ well_formed (snd m)) ms.
Proof.
  change (well_formed (JObj ms))
    with (List.NoDup (map fst ms)
          /\ fold_right
               (fun m P =>
                  (Utf8.valid (fst m) = true
                   /\ JSON.array_index (fst m) = None
                   /\ well_formed (snd m)) /\ P)
               True ms).
  apply and_iff_compat_l.
  induction ms as [|m ms IH]; cbn [fold_right].
  - split; [constructor|done].
  - rewrite Forall_cons, IH. done.
Qed.

Lemma parse_value_string (fuel : nat) (r : string) :
  JSON.parse_value (S fuel) (String Js.dquote r)
  = match JSON.parse_string_body JSON.SNormal None r with
    | Some (str, r') => Some (JStr str, r')
    | None => None
    end.
Proof. reflexivity. Qed.

Lemma parse_value_array (fuel : nat) (r : string) :
  JSON.parse_value (S fuel) (String "["%char r)
  = match JSON.peek "]" (JSON.skip_ws r) with
    | Some r' => Some (JArr [], r')
    | None =>
        match JSON.parse_elements fuel (JSON.skip_ws r) with
        | Some (l, r'') => Some (JArr l, r'')
        | None => None
        end
    end.
Proof. reflexivity. Qed.

Lemma parse_value_object (fuel : nat) (r : string) :
  JSON.parse_value (S fuel) (String "{"%char r)
  = match JSON.peek "}" (JSON.skip_ws r) with
    | Some r' => Some (JObj [], r')
    | None =>
        match JSON.parse_members fuel (JSON.skip_ws r) with
        | Some (ms, r'') => Some (JSON.object_of ms, r'')
        | None => None
        end
    end.
Proof. reflexivity. Qed.

Lemma parse_elements_step (fuel : nat) (s : string) :
  JSON.parse_elements (S fuel) s
  = match JSON.parse_value fuel s with
    | None => None
    | Some (v, r1) =>
        match JSON.skip_ws r1 with
        | String ","%char r2 =>
            match JSON.parse_elements fuel (JSON.skip_ws r2) with
            | Some (l, r3) => Some (v :: l, r3)
            | None => None
            end
        | String "]"%char r2 => Some ([v], r2)
        | _ => None
        end
    end.
Proof. reflexivity. Qed.

Lemma parse_members_step (fuel : nat) (r : string) :
  JSON.parse_members (S fuel) (String Js.dquote r)
  = match JSON.parse_string_body JSON.SNormal None r with
    | None => None
    | Some (key, r1) =>
        match JSON.skip_ws r1 with
        | String ":"%char r2 =>
            match JSON.parse_value fuel (JSON.skip_ws r2) with
            | None => None
            | Some (v, r3) =>
                match JSON.skip_ws r3 with
                | String ","%char r4 =>
                    match JSON.parse_members fuel (JSON.skip_ws r4) with
                    | Some (ms, r5) => Some ((key, v) :: ms, r5)
                    | None => None
                    end
                | String "}"%char r4 => Some ([(key, v)], r4)
                | _ => None
                end
            end
        | _ => None
        end
    end.
Proof. reflexivity. Qed.

Lemma elements_round_trip (r : list json) :
  forall x fuel k,
    Forall (fun v => well_formed v -> reads_back v) (x :: r) ->
    Forall well_formed (x :: r) ->
    (need_elements (x :: r) <= fuel)%nat -> delimited k = true ->
    JSON.parse_elements fuel (JSON.write x (elements_tail r k))
    = Some (x :: r, k).
Proof.
  induction r as [|y r IH]; intros x fuel k HP Hw Hf Hk;
    apply Forall_cons in HP as [Hx HP]; apply Forall_cons in Hw as [Hwx Hw];
    (destruct fuel as [|fuel]; [cbn in Hf; lia|]);
    change (need_elements (x :: ?l)) with (S (need x + need_elements l))
      in Hf;
    rewrite parse_elements_step, (Hx Hwx) by
      (first [lia | apply delimited_elements]).
  - reflexivity.
  - cbn [elements_tail].
    change (JSON.skip_ws (String ","%char ?t)) with (String ","%char t).
    cbn match.
    rewrite skip_ws_write by (by apply Forall_cons in Hw as [? _]).
    rewrite IH by (done || lia). reflexivity.
Qed.

Lemma members_round_trip (r : list (string * json)) :
  forall key x fuel k,
    Forall (fun m => well_formed (snd m) -> reads_back (snd m))
      ((key, x) :: r) ->
    Forall (fun m => well_formed (snd m)) ((key, x) :: r) ->
    (need_members ((key, x) :: r) <= fuel)%nat -> delimited k = true ->
    JSON.parse_members fuel
      (JSON.quote key
         (String ":"%char (JSON.write x (members_tail r k))))
    = Some ((key, x) :: r, k).
Proof.
  induction r as [|[key' y] r IH]; intros key x fuel k HP Hw Hf Hk;
    apply Forall_cons in HP as [Hx HP]; apply Forall_cons in Hw as [Hwx Hw];
    cbn [snd] in Hx, Hwx;
    (destruct fuel as [|fuel]; [cbn in Hf; lia|]);
    change (need_members ((key, x) :: ?l)) with (S (need x + need_members l))
      in Hf;
    unfold JSON.quote at 1;
    rewrite parse_members_step, string_round_trip;
    change (JSON.skip_ws (String ":"%char ?t)) with (String ":"%char t);
    cbn match;
    rewrite skip_ws_write, (Hx Hwx) by
      (first [done | lia | apply delimited_members]).
  - reflexivity.
  - cbn [members_tail].
    change (JSON.skip_ws (String ","%char ?t)) with (String ","%char t).
    cbn match.
    change (JSON.skip_ws (JSON.quote key' ?t)) with (JSON.quote key' t).
    rewrite IH by (done || lia). reflexivity.
Qed.

Lemma value_round_trip (v : json) : well_formed v -> reads_back v.
Proof.
  induction v as [|b|x|s|l IH|ms IH] using json_induction;
    intros Hv [|fuel] k Hf Hk; try (cbn in Hf; lia).
  - by destruct k.
  - by destruct b, k.
  - destruct Hv as (n & Hn & ->). cbn [JSON.write].
    destruct (of_Z_safe n Hn) as [_ ->].
    destruct (string_of_Z_head n) as (c & t & E & Hc).
    pose proof (toString_safe n Hn) as Es. rewrite E in Es.
    pose proof (number_round_trip n k Hn Hk) as Hr.
    rewrite Es in *. rewrite append_cons in *.
    by rewrite parse_value_number, Hr.
  - cbn [JSON.write]. unfold JSON.quote.
    by rewrite parse_value_string, string_round_trip.
  - destruct l as [|x r]; [reflexivity|].
    apply well_formed_array in Hv.
    rewrite write_array, parse_value_array.
    rewrite skip_ws_write, peek_write by (by apply Forall_cons in Hv as [? _]).
    rewrite elements_round_trip; [reflexivity|done..| |done].
    rewrite need_array in Hf. lia.
  - destruct ms as [|[key x] r]; [reflexivity|].
    apply well_formed_object in Hv as [Hd Hv].
    rewrite write_object, parse_value_object.
    change (JSON.skip_ws (JSON.quote key ?t)) with (JSON.quote key t).
    change (JSON.peek "}" (JSON.quote key ?t)) with (@None string).
    rewrite members_round_trip; [|done| | |done].
    + rewrite object_of_members; [reflexivity|done|].
      intros m Hm. rewrite List.Forall_forall in Hv. by apply Hv.
    + eapply Forall_impl; [exact Hv|]. by intros m (_ & _ & ?).
    + rewrite need_object in Hf. lia.
Qed.

(** *** The fuel is enough *)

Lemma length_app (a b : string) :
  String.length (a +:+ b) = (String.length a + String.length b)%nat.
Proof.
  induction a as [|x a IH]; [done|].
  rewrite append_cons. cbn [String.length]. by rewrite IH.
Qed.

Lemma quote_char_length (c : ascii) (K : string) :
  (S (String.length K) <= String.length (JSON.quote_char c K))%nat.
Proof.
  unfold JSON.quote_char.
  repeat match goal with
    | |- context [if ?b then _ else _] => destruct b
    end; cbn [String.length]; lia.
Qed.

Lemma quote_body_length (s k : string) :
  (String.length k <= String.length (JSON.quote_body s k))%nat.
Proof.
  induction s as [|c s IH]; [done|]. cbn [JSON.quote_body].
  pose proof (quote_char_length c (JSON.quote_body s k)). lia.
Qed.

Lemma quote_length (s k : string) :
  (2 + String.length k <= String.length (JSON.quote s k))%nat.
Proof.
  unfold JSON.quote. cbn [String.length].
  pose proof (quote_body_length s (String Js.dquote k)) as H.
  cbn [String.length] in H. lia.
Qed.

Lemma elements_length (r : list json) (k : string) :
  Forall (fun v => well_formed v -> long_enough v) r ->
  Forall well_formed r ->
  (need_elements r + S (String.length k)
   <= String.length (elements_tail r k))%nat.
Proof.
  induction r as [|y r IH]; intros HP Hw; [done|].
  apply Forall_cons in HP as [Hy HP]. apply Forall_cons in Hw as [Hwy Hw].
  change (need_elements (y :: r)) with (S (need y + need_elements r)).
  cbn [elements_tail String.length].
  pose proof (Hy Hwy (elements_tail r k)). pose proof (IH HP Hw). lia.
Qed.

Lemma members_length (r : list (string * json)) (k : string) :
  Forall (fun m => well_formed (snd m) -> long_enough (snd m)) r ->
  Forall (fun m => well_formed (snd m)) r ->
  (need_members r + S (String.length k)
   <= String.length (members_tail r k))%nat.
Proof.
  induction r as [|[key y] r IH]; intros HP Hw; [done|].
  apply Forall_cons in HP as [Hy HP]. apply Forall_cons in Hw as [Hwy Hw].
  cbn [snd] in Hy, Hwy.
  change (need_members ((key, y) :: r)) with (S (need y + need_members r)).
  cbn [members_tail String.length].
  pose proof (quote_length key
                (String ":"%char (JSON.write y (members_tail r k)))) as Hq.
  cbn [String.length] in Hq.
  pose proof (Hy Hwy (members_tail r k)). pose proof (IH HP Hw). lia.
Qed.

Lemma write_length (v : json) : well_formed v -> long_enough v.
Proof.
  induction v as [|b|x|s|l IH|ms IH] using json_induction; intros Hv k.
  - cbn [JSON.write need]. rewrite length_app. cbn. lia.
  - destruct b; cbn [JSON.write need]; rewrite length_app; cbn; lia.
  - destruct Hv as (n & Hn & ->). cbn [JSON.write need].
    destruct (of_Z_safe n Hn) as [_ ->]. rewrite toString_safe by done.
    destruct (string_of_Z_head n) as (c & t & -> & _).
    rewrite length_app. cbn [String.length]. lia.
  - cbn [JSON.write need]. pose proof (quote_length s k). lia.
  - destruct l as [|x r]; [cbn; lia|].
    apply well_formed_array in Hv.
    apply Forall_cons in Hv as [Hwx Hw]. apply Forall_cons in IH as [Hx HP].
    rewrite write_array, need_array.
    change (need_elements (x :: r)) with (S (need x + need_elements r)).
    cbn [String.length].
    pose proof (Hx Hwx (elements_tail r k)).
    pose proof (elements_length r k HP Hw). lia.
  - destruct ms as [|[key x] r]; [cbn; lia|].
    apply well_formed_object in Hv as [_ Hv].
    assert (Hw : Forall (fun m => well_formed (snd m)) ((key, x) :: r)).
    { eapply Forall_impl; [exact Hv|]. by intros m (_ & _ & ?). }
    apply Forall_cons in Hw as [Hwx Hw]. apply Forall_cons in IH as [Hx HP].
    cbn [snd] in Hx, Hwx.
    rewrite write_object, need_object.
    change (need_members ((key, x) :: r)) with (S (need x + need_members r)).
    cbn [String.length].
    pose proof (quote_length key
                  (String ":"%char (JSON.write x (members_tail r k)))) as Hq.
    cbn [String.length] in Hq.
    pose proof (Hx Hwx (members_tail r k)).
    pose proof (members_length r k HP Hw). lia.
Qed.

(** [JSON.parse(JSON.stringify(v))] is [v]. *)
Lemma json_round_trip (v : json) :
  well_formed v -> JSON.parse (JSON.stringify v) = Some v.
Proof.
  intros Hv. unfold JSON.parse, JSON.stringify.
  rewrite skip_ws_write by done.
  rewrite (value_round_trip v Hv); [reflexivity| |reflexivity].
  pose proof (write_length v Hv EmptyString). lia.
Qed.

(** *** The text of a value is well-formed UTF-8 *)

Lemma quote_char_ascii (c : ascii) (K : string) :
  Js.code c < 128 -> Utf8.valid (JSON.quote_char c K) = Utf8.valid K.
Proof.
  intros H.
  destruct c as [[] [] [] [] [] [] [] []]; try reflexivity;
    cbv in H; discriminate.
Qed.

Lemma quote_char_other (c : ascii) (K : string) :
  Js.code c >= 128 -> JSON.quote_char c K = String c K.
Proof.
  intros H. unfold JSON.quote_char.
  repeat match goal with
    | |- context [Js.code c =? ?k] => destruct (Z.eqb_spec (Js.code c) k); [lia|]
    end.
  destruct (Z.ltb_spec (Js.code c) 32); [lia|reflexivity].
Qed.

Lemma cont_other (c : ascii) : Js.is_cont c = true -> Js.code c >= 128.
Proof.
  unfold Js.is_cont. intros [H _]%andb_true_iff. apply Z.leb_le in H. lia.
Qed.

Lemma in_range_other (lo hi : Z) (c : ascii) :
  128 <= lo -> Utf8.in_range lo hi c = true -> Js.code c >= 128.
Proof.
  unfold Utf8.in_range. intros Hlo [H _]%andb_true_iff.
  apply Z.leb_le in H. lia.
Qed.

Lemma second3_other (c1 c2 : ascii) :
  Utf8.second3 c1 c2 = true -> Js.code c2 >= 128.
Proof.
  unfold Utf8.second3. apply in_range_other. by destruct (_ =? _).
Qed.

Lemma second4_other (c1 c2 : ascii) :
  Utf8.second4 c1 c2 = true -> Js.code c2 >= 128.
Proof.
  unfold Utf8.second4. apply in_range_other. by destruct (_ =? _).
Qed.

Lemma valid_quote_body (s k : string) :
  Utf8.valid s = true -> Utf8.valid k = true ->
  Utf8.valid (JSON.quote_body s k) = true.
Proof.
  intros Hs Hk. revert s Hs.
  apply utf8_valid_ind; cbn [JSON.quote_body].
  - exact Hk.
  - intros c r Hc _ IH. by rewrite quote_char_ascii.
  - intros c1 c2 r Hc E2 Hc2 _ IH.
    rewrite !quote_char_other by auto using cont_other.
    cbn [Utf8.valid]. by rewrite (not_below_128 _ Hc), E2, Hc2, IH.
  - intros c1 c2 c3 r Hc E2 E3 Hc2 Hc3 _ IH.
    rewrite !quote_char_other by eauto using cont_other, second3_other.
    cbn [Utf8.valid]. by rewrite (not_below_128 _ Hc), E2, E3, Hc2, Hc3, IH.
  - intros c1 c2 c3 c4 r Hc E2 E3 E4 Hc2 Hc3 Hc4 _ IH.
    rewrite !quote_char_other by eauto using cont_other, second4_other.
    cbn [Utf8.valid].
    by rewrite (not_below_128 _ Hc), E2, E3, E4, Hc2, Hc3, Hc4, IH.
Qed.

Lemma valid_quote (s k : string) :
  Utf8.valid s = true -> Utf8.valid k = true ->
  Utf8.valid (JSON.quote s k) = true.
Proof.
  intros Hs Hk. unfold JSON.quote.
  rewrite valid_ascii by done. apply valid_quote_body; [done|].
  by rewrite valid_ascii.
Qed.

Lemma string_of_Z_ascii (n : Z) : ascii_only (Js.string_of_Z n) = true.
Proof.
  unfold Js.string_of_Z. destruct (Z.ltb_spec n 0) as [Hneg|Hpos].
  - destruct (digits_spec (- n)) as (c & r & len & _ & _ & _ & H & _); [lia|].
    cbn [ascii_only]. by rewrite H.
  - destruct (Z.eq_dec n 0) as [->|Hne]; [reflexivity|].
    by destruct (digits_spec n) as (c & r & len & _ & _ & _ & H & _); [lia|].
Qed.

Lemma valid_elements (r : list json) (k : string) :
  Forall (fun v => well_formed v -> valid_text v) r ->
  Forall well_formed r -> Utf8.valid k = true ->
  Utf8.valid (elements_tail r k) = true.
Proof.
  intros HP Hw Hk. induction r as [|y r IH]; [done|].
  apply Forall_cons in HP as [Hy HP]. apply Forall_cons in Hw as [Hwy Hw].
  cbn [elements_tail]. rewrite valid_ascii by done. apply (Hy Hwy). auto.
Qed.

Lemma valid_members (r : list (string * json)) (k : string) :
  Forall (fun m => well_formed (snd m) -> valid_text (snd m)) r ->
  Forall (fun m => Utf8.valid (fst m) = true /\ well_formed (snd m)) r ->
  Utf8.valid k = true ->
  Utf8.valid (members_tail r k) = true.
Proof.
  intros HP Hw Hk. induction r as [|[key y] r IH]; [done|].
  apply Forall_cons in HP as [Hy HP].
  apply Forall_cons in Hw as [[Hkey Hwy] Hw]. cbn [fst snd] in *.
  cbn [members_tail]. rewrite valid_ascii by done.
  apply valid_quote; [done|]. rewrite valid_ascii by done.
  apply (Hy Hwy). auto.
Qed.

Lemma write_valid (v : json) : well_formed v -> valid_text v.
Proof.
  induction v as [|b|x|s|l IH|ms IH] using json_induction; intros Hv k Hk.
  - cbn [JSON.write]. by rewrite valid_ascii_app.
  - destruct b; cbn [JSON.write]; by rewrite valid_ascii_app.
  - destruct Hv as (n & Hn & ->). cbn [JSON.write].
    destruct (of_Z_safe n Hn) as [_ ->]. rewrite toString_safe by done.
    by rewrite valid_ascii_app by apply string_of_Z_ascii.
  - cbn [JSON.write]. by apply valid_quote.
  - destruct l as [|x r]; [cbn [JSON.write]; by rewrite !valid_ascii|].
    apply well_formed_array in Hv.
    apply Forall_cons in Hv as [Hwx Hw]. apply Forall_cons in IH as [Hx HP].
    rewrite write_array, valid_ascii by done.
    apply (Hx Hwx). by apply valid_elements.
  - destruct ms as [|[key x] r]; [cbn [JSON.write]; by rewrite !valid_ascii|].
    apply well_formed_object in Hv as [_ Hv].
    assert (Hw : Forall (fun m => Utf8.valid (fst m) = true
                                  /\ well_formed (snd m)) ((key, x) :: r)).
    { eapply Forall_impl; [exact Hv|]. by intros m (? & _ & ?). }
    apply Forall_cons in Hw as [[Hkey Hwx] Hw].
    apply Forall_cons in IH as [Hx HP]. cbn [fst snd] in *.
    rewrite write_object, valid_ascii by done.
    apply valid_quote; [done|]. rewrite valid_ascii by done.
    apply (Hx Hwx). by apply valid_members.
Qed.

(** *** The payload object *)

Lemma typed_object (p : PaymentPayload.t) :
  safe_integer (PaymentPayload.x402Version p) = true ->
  safe_integer (SolanaPayload.timestamp (PaymentPayload.payload p)) = true ->
  Wire.typed (Wire.object p) = Some p.
Proof.
  unfold safe_integer. rewrite !Z.ltb_lt.
  destruct p as [v s n [f sg a ts no mi fa ta]].
  cbn [PaymentPayload.x402Version PaymentPayload.payload
       SolanaPayload.timestamp].
  intros [Hv _]%of_Z_safe [Ht _]%of_Z_safe.
  destruct no, mi, fa, ta;
    cbn -[Number.of_Z Number.to_integer]; rewrite ?Hv, ?Ht;
    cbn -[Number.of_Z Number.to_integer]; rewrite ?Hv, ?Ht; reflexivity.
Qed.

Lemma well_formed_num (n : Z) :
  safe_integer n = true -> well_formed (Wire.num n).
Proof. intros H%Z.ltb_lt. by exists n. Qed.

Lemma distinct_keys (l : list string) :
  bool_decide (NoDup l) = true -> List.NoDup l.
Proof. intros H. apply NoDup_ListNoDup. by apply bool_decide_eq_true in H. Qed.

Lemma well_formed_object_of_payload (p : PaymentPayload.t) :
  well_formed_payload p = true -> well_formed (Wire.object p).
Proof.
  unfold well_formed_payload. rewrite !andb_true_iff.
  destruct p as [v s n [f sg a ts no mi fa ta]].
  cbn [PaymentPayload.x402Version PaymentPayload.scheme
       PaymentPayload.network PaymentPayload.payload SolanaPayload.from
       SolanaPayload.signature SolanaPayload.amount SolanaPayload.timestamp
       SolanaPayload.nonce SolanaPayload.mint SolanaPayload.fromTokenAccount
       SolanaPayload.toTokenAccount].
  intros [[[[[[[[[[Hv Hs] Hn] Hf] Hsg] Ha] Hts] Hno] Hmi] Hfa] Hta].
  apply well_formed_num in Hv, Hts.
  apply well_formed_object. split; [by apply distinct_keys|].
  repeat (apply Forall_cons; split; [by repeat split|]).
  apply Forall_cons. split; [|constructor].
  do 2 (split; [reflexivity|]). cbn [snd].
  apply well_formed_object.
  destruct no, mi, fa, ta; cbn [optional_valid] in *;
    (split; [by apply distinct_keys|]);
    repeat (apply Forall_cons; split; [by repeat split|]); constructor.
Qed.

(** *** The round trip *)

(** C8.  For every syntactically well-formed payload (strings without
    unpaired surrogate, numbers that are safe integers) decoding the
    encoded payload returns the object of that payload, which is the
    payload: base64-encoding the UTF-8 JSON text and decoding it recovers
    the original value. *)
Theorem decode_after_encode (p : PaymentPayload.t) :
  well_formed_payload p = true ->
  decodePaymentPayload (encodePaymentPayload p) = Return (Wire.object p)
  /\ Wire.typed (Wire.object p) = Some p.
Proof.
  intros Hp. pose proof (well_formed_object_of_payload p Hp) as Hw. split.
  - unfold decodePaymentPayload, encodePaymentPayload.
    rewrite base64_round_trip, utf8_round_trip.
    + by rewrite json_round_trip.
    + by apply write_valid.
  - unfold well_formed_payload in Hp. rewrite !andb_true_iff in Hp.
    apply typed_object; tauto.
Qed.

Lemma decode_after_encode_witness :
  well_formed_payload
    (Example.spl_payload Example.sig88 "1000000" Example.T0) = true
  /\ decodePaymentPayload
       (encodePaymentPayload
          (Example.spl_payload Example.sig88 "1000000" Example.T0))
     = Return
         (Wire.object (Example.spl_payload Example.sig88 "1000000" Example.T0))
  /\ Wire.typed
       (Wire.object (Example.spl_payload Example.sig88 "1000000" Example.T0))
     = Some (Example.spl_payload Example.sig88 "1000000" Example.T0).
Proof.
  split; [reflexivity|]. apply decode_after_encode. reflexivity.
Defined.

(** * Further properties *)

(** ** bs58 *)

Lemma base58_value_digit (n : nat) :
  (n < 58)%nat ->
  Base58.value (Base58.digit (Z.of_nat n)) = Some (Z.of_nat n)
  /\ (0 < n -> Ascii.eqb (Base58.digit (Z.of_nat n)) "1" = false)%nat.
Proof.
  intros Hn.
  do 58 (destruct n as [|n]; [split; [reflexivity|intros; first [lia|reflexivity]]|]).
  lia.
Qed.

Lemma base58_digit (v : Z) :
  0 <= v < 58 ->
  Base58.value (Base58.digit v) = Some v
  /\ (0 < v -> Ascii.eqb (Base58.digit v) "1" = false).
Proof.
  intros Hv. destruct (base58_value_digit (Z.to_nat v)) as [H1 H2]; [lia|].
  rewrite Z2Nat.id in * by lia. split; [done|]. intros. apply H2. lia.
Qed.

Lemma base58_value_range (c : ascii) (v : Z) :
  Base58.value c = Some v ->
  0 <= v < 58 /\ (v = 0 -> c = "1"%char).
Proof.
  intros H.
  destruct c as [[] [] [] [] [] [] [] []]; vm_compute in H;
    first [discriminate H | injection H as <-];
    (split; [lia|]); intros E; first [discriminate E | reflexivity].
Qed.

Lemma append_empty (s : string) : s +:+ EmptyString = s.
Proof. induction s as [|c s IH]; [done|]. by rewrite append_cons, IH. Qed.

Lemma digits58_app (fuel : nat) :
  forall n acc,
    Base58.digits58 fuel n acc
    = Base58.digits58 fuel n EmptyString +:+ acc.
Proof.
  induction fuel as [|fuel IH]; intros n acc; [done|].
  cbn [Base58.digits58]. destruct (n <=? 0); [done|].
  set (d := Base58.digit (n mod 58)).
  rewrite (IH (n / 58) (String d acc)), (IH (n / 58) (String d EmptyString)).
  by rewrite append_assoc.
Qed.

Lemma length_app_Z (a b : string) :
  Z.of_nat (String.length (a +:+ b))
  = Z.of_nat (String.length a) + Z.of_nat (String.length b).
Proof.
  induction a as [|c a IH]; [done|].
  rewrite append_cons. cbn [String.length]. lia.
Qed.

(** The base-58 digits of a positive number: the first is not '1', they
    are read back by [number], and there are as many as the number
    needs. *)
Lemma digits58_spec (fuel : nat) :
  forall n, 0 < n < 2 ^ Z.of_nat fuel ->
    let D := Base58.digits58 fuel n EmptyString in
    let len := Z.of_nat (String.length D) in
    (exists c r, D = String c r /\ Ascii.eqb c "1" = false)
    /\ (forall a k, Base58.number a (D +:+ k)
                    = Base58.number (a * 58 ^ len + n) k)
    /\ 58 ^ (len - 1) <= n < 58 ^ len.
Proof.
  induction fuel as [|fuel IH]; intros n Hn; [cbn in Hn; lia|].
  cbn [Base58.digits58].
  destruct (Z.leb_spec n 0) as [|_]; [lia|].
  assert (Hmod : 0 <= n mod 58 < 58) by (Z.div_mod_to_equations; lia).
  destruct (base58_digit (n mod 58) Hmod) as [Hv Hone].
  pose proof (Z.div_mod n 58 ltac:(lia)) as Hdm.
  destruct (Z.eq_dec (n / 58) 0) as [Hq|Hq].
  - rewrite Hq. replace (n mod 58) with n in * by lia.
    destruct fuel; cbn [Base58.digits58 Z.leb Z.compare String.length];
      (split; [eexists _, _; split; [reflexivity|apply Hone; lia]|]);
      (split; [|change (Z.of_nat 1) with 1; lia]);
      intros a k; rewrite append_cons, append_nil; cbn [Base58.number];
      rewrite Hv; f_equal; change (Z.of_nat 1) with 1; lia.
  - rewrite digits58_app.
    destruct (IH (n / 58)) as ((c & r & E & Hc) & Hnum & Hlen).
    { rewrite Nat2Z.inj_succ, Z.pow_succ_r in Hn by lia.
      Z.div_mod_to_equations; lia. }
    set (D := Base58.digits58 fuel (n / 58) EmptyString) in *.
    cbv zeta. rewrite length_app_Z. cbn [String.length].
    change (Z.of_nat 1) with 1.
    set (len := Z.of_nat (String.length D)) in *.
    assert (Hpos : 0 < len) by (subst len; rewrite E; cbn; lia).
    split; [exists c, (r +:+ String (Base58.digit (n mod 58)) EmptyString);
            split; [by rewrite E|exact Hc]|].
    replace (len + 1 - 1) with (len - 1 + 1) by lia.
    rewrite !Z.pow_add_r, !Z.pow_1_r by lia.
    split; [|nia].
    intros a k. rewrite append_assoc, Hnum.
    rewrite append_cons, append_nil. cbn [Base58.number]. rewrite Hv.
    f_equal. lia.
Qed.

Lemma digits58_enough (n : Z) :
  0 < n -> 0 < n < 2 ^ Z.of_nat (S (Z.to_nat (Z.log2 n))).
Proof.
  intros Hn. rewrite Nat2Z.inj_succ, Z2Nat.id by apply Z.log2_nonneg.
  pose proof (Z.log2_spec n Hn). lia.
Qed.

(** *** Bytes *)

Lemma leading_zeroes_spec (b : list ascii) :
  b = replicate (fst (Base58.leading_zeroes b)) Js.zero
      ++ snd (Base58.leading_zeroes b)
  /\ no_leading_zero (snd (Base58.leading_zeroes b)).
Proof.
  induction b as [|c b [IH1 IH2]]; [done|]. cbn [Base58.leading_zeroes].
  destruct (Ascii.eqb_spec c Js.zero) as [->|Hc].
  - destruct (Base58.leading_zeroes b) as [n t]. cbn in *.
    split; [by rewrite <- IH1|done].
  - cbn. split; [done|]. by apply Ascii.eqb_neq.
Qed.

Lemma leading_zeroes_replicate (z : nat) (l : list ascii) :
  no_leading_zero l ->
  Base58.leading_zeroes (replicate z Js.zero ++ l) = (z, l).
Proof.
  intros Hl. induction z as [|z IH].
  - destruct l as [|c l]; [done|]. cbn in *. by rewrite Hl.
  - cbn [replicate app Base58.leading_zeroes]. by rewrite Ascii.eqb_refl, IH.
Qed.

Lemma leading_ones_ones (z : nat) (D : string) :
  (D = EmptyString \/ exists c r, D = String c r /\ Ascii.eqb c "1" = false) ->
  Base58.leading_ones (Base58.ones z D) = (z, D).
Proof.
  intros HD. induction z as [|z IH].
  - destruct HD as [->|(c & r & -> & Hc)]; [done|]. cbn [Base58.ones].
    destruct c as [[] [] [] [] [] [] [] []]; try reflexivity; discriminate Hc.
  - cbn [Base58.ones Base58.leading_ones]. by rewrite IH.
Qed.

Lemma number_of_bytes_snoc (l : list ascii) (c : ascii) :
  Base58.number_of_bytes (l ++ [c])
  = Base58.number_of_bytes l * 256 + Js.code c.
Proof. unfold Base58.number_of_bytes. by rewrite fold_left_app. Qed.

Lemma nonzero_code (c : ascii) : Ascii.eqb c Js.zero = false -> 0 < Js.code c.
Proof.
  intros H. pose proof (code_range c).
  destruct (Z.eq_dec (Js.code c) 0) as [E|]; [|lia].
  apply (f_equal Js.chr) in E. rewrite chr_code in E. subst c.
  by rewrite Ascii.eqb_refl in H.
Qed.

(** The number of a byte string without leading zero byte. *)
Lemma number_of_bytes_range (l : list ascii) :
  no_leading_zero l ->
  let len := Z.of_nat (List.length l) in
  (l = [] -> Base58.number_of_bytes l = 0)
  /\ (l <> [] -> 256 ^ (len - 1) <= Base58.number_of_bytes l < 256 ^ len).
Proof.
  induction l as [|c l IH] using rev_ind; intros Hl; [done|].
  cbv zeta. split; [by destruct l|]. intros _.
  rewrite number_of_bytes_snoc, List.length_app, Nat2Z.inj_add. cbn [List.length].
  change (Z.of_nat 1) with 1. pose proof (code_range c) as Hc.
  destruct l as [|c' l].
  - cbn in *. pose proof (nonzero_code c Hl). lia.
  - destruct IH as [_ IH]; [exact Hl|]. specialize (IH ltac:(done)).
    set (len := Z.of_nat (List.length (c' :: l))) in *.
    assert (0 < len) by (subst len; cbn [List.length]; lia).
    replace (len + 1 - 1) with (len - 1 + 1) by lia.
    rewrite !Z.pow_add_r, !Z.pow_1_r by lia. nia.
Qed.

Lemma be_bytes_number (l : list ascii) :
  no_leading_zero l ->
  forall fuel acc, (List.length l <= fuel)%nat ->
    Base58.be_bytes fuel (Base58.number_of_bytes l) acc = l ++ acc.
Proof.
  induction l as [|c l IH] using rev_ind; intros Hl fuel acc Hf.
  - by destruct fuel.
  - rewrite List.length_app in Hf. cbn [List.length] in Hf.
    destruct fuel as [|fuel]; [lia|].
    pose proof (number_of_bytes_range (l ++ [c]) Hl) as [_ Hr].
    specialize (Hr ltac:(by destruct l)).
    assert (0 <= 256 ^ (Z.of_nat (List.length (l ++ [c])) - 1))
      by (apply Z.pow_nonneg; lia).
    cbn [Base58.be_bytes].
    destruct (Z.leb_spec (Base58.number_of_bytes (l ++ [c])) 0) as [Hle|_].
    { destruct l as [|c' l].
      - cbn in Hle, Hl. pose proof (nonzero_code c Hl). lia.
      - pose proof (Z.pow_pos_nonneg 256
          (Z.of_nat (List.length ((c' :: l) ++ [c])) - 1) ltac:(lia)) as Hp.
        rewrite List.length_app in Hp. cbn [List.length] in Hp.
        rewrite List.length_app in Hr. cbn [List.length] in Hr. lia. }
    rewrite number_of_bytes_snoc. pose proof (code_range c) as Hc.
    replace ((Base58.number_of_bytes l * 256 + Js.code c) / 256)
      with (Base58.number_of_bytes l) by (Z.div_mod_to_equations; lia).
    replace ((Base58.number_of_bytes l * 256 + Js.code c) mod 256)
      with (Js.code c) by (Z.div_mod_to_equations; lia).
    rewrite chr_code, IH; [by rewrite <- app_assoc| |lia].
    by destruct l.
Qed.

Lemma bytes_of_number_of_bytes (l : list ascii) :
  no_leading_zero l ->
  Base58.bytes_of_number (Base58.number_of_bytes l) = l.
Proof.
  intros Hl. unfold Base58.bytes_of_number.
  rewrite be_bytes_number; [apply app_nil_r|done|].
  destruct l as [|c l]; [cbn; lia|].
  pose proof (number_of_bytes_range (c :: l) Hl) as [_ Hr].
  specialize (Hr ltac:(done)). destruct Hr as [Hlo _].
  set (len := Z.of_nat (List.length (c :: l))) in *.
  assert (Hlen : 0 < len) by (subst len; cbn [List.length]; lia).
  assert (Hpow : 2 ^ (len - 1) <= 256 ^ (len - 1)).
  { apply Z.pow_le_mono_l. lia. }
  assert (H2 : len - 1 <= Z.log2 (Base58.number_of_bytes (c :: l))).
  { rewrite <- (Z.log2_pow2 (len - 1)) by lia. apply Z.log2_le_mono. lia. }
  lia.
Qed.

(** [bs58.decode(bs58.encode(bytes))] is [bytes]. *)
Lemma base58_round_trip (b : list ascii) :
  Base58.decode (Base58.encode b) = Some b.
Proof.
  unfold Base58.decode, Base58.encode.
  destruct (leading_zeroes_spec b) as [Hb Hrest].
  destruct (Base58.leading_zeroes b) as [z rest]. cbn [fst snd] in *.
  set (n := Base58.number_of_bytes rest).
  destruct (number_of_bytes_range rest Hrest) as [H0 Hpos].
  destruct rest as [|c rest].
  - subst n. rewrite H0 by done. cbn [Base58.digits58 Z.leb Z.compare].
    rewrite leading_ones_ones by (by left). cbn [Base58.number].
    f_equal. symmetry. exact Hb.
  - specialize (Hpos ltac:(done)).
    assert (Hn : 0 < n).
    { assert (0 < 256 ^ (Z.of_nat (List.length (c :: rest)) - 1))
        by (apply Z.pow_pos_nonneg; cbn [List.length]; lia).
      cbv zeta in Hpos. subst n. lia. }
    destruct (digits58_spec _ n (digits58_enough n Hn)) as (Hhead & Hnum & _).
    rewrite leading_ones_ones by (by right).
    specialize (Hnum 0 EmptyString). rewrite append_empty in Hnum.
    rewrite Hnum. cbn [Base58.number]. rewrite Z.mul_0_l, Z.add_0_l.
    subst n. rewrite bytes_of_number_of_bytes by done.
    f_equal. symmetry. exact Hb.
Qed.

(** [new PublicKey(key.toString())] is [key]. *)
Lemma new_PublicKey_toString (k : PublicKey) :
  List.length (pk_bytes k) = PUBLIC_KEY_LENGTH ->
  new_PublicKey (PublicKey_toString k) = Return k.
Proof.
  intros Hk. unfold new_PublicKey, PublicKey_toString.
  rewrite base58_round_trip, Hk. cbn. by destruct k.
Qed.

(** *** What bs58 reads *)

Lemma number_range (s : string) :
  forall a n, 0 <= a -> Base58.number a s = Some n ->
    let len := Z.of_nat (String.length s) in
    a * 58 ^ len <= n < (a + 1) * 58 ^ len.
Proof.
  induction s as [|c s IH]; intros a n Ha H; cbn [Base58.number] in H.
  - injection H as <-. cbn. lia.
  - destruct (Base58.value c) as [v|] eqn:Ev; [|discriminate].
    destruct (base58_value_range c v Ev) as [Hv _].
    specialize (IH (a * 58 + v) n ltac:(lia) H). cbv zeta in *.
    cbn [String.length]. rewrite Nat2Z.inj_succ, Z.pow_succ_r by lia.
    set (P := 58 ^ Z.of_nat (String.length s)) in *.
    assert (0 < P) by (apply Z.pow_pos_nonneg; lia). nia.
Qed.

Lemma number_alphabet (s : string) :
  forall a n, Base58.number a s = Some n ->
    forall c, In c (list_ascii_of_string s) -> is_Some (Base58.value c).
Proof.
  induction s as [|c s IH]; intros a n H c' Hin; [done|].
  cbn [Base58.number] in H.
  destruct (Base58.value c) as [v|] eqn:Ev; [|discriminate].
  destruct Hin as [<-|Hin]; [by rewrite Ev|eauto].
Qed.

Lemma leading_ones_spec (s : string) :
  s = Base58.ones (fst (Base58.leading_ones s)) (snd (Base58.leading_ones s))
  /\ no_leading_one (snd (Base58.leading_ones s)).
Proof.
  induction s as [|c s [IH1 IH2]]; [done|].
  destruct (Ascii.eqb_spec c "1"%char) as [->|Hc].
  - cbn [Base58.leading_ones].
    destruct (Base58.leading_ones s) as [n t]. cbn in *.
    split; [by rewrite <- IH1|done].
  - assert (E : Base58.leading_ones (String c s) = (O, String c s)).
    { destruct c as [[] [] [] [] [] [] [] []]; try reflexivity. by destruct Hc. }
    rewrite E. cbn. split; [done|]. by apply Ascii.eqb_neq.
Qed.

Lemma ones_length (z : nat) (s : string) :
  String.length (Base58.ones z s) = (z + String.length s)%nat.
Proof. induction z as [|z IH]; [done|]. cbn. by rewrite IH. Qed.

Lemma ones_chars (z : nat) (s : string) (c : ascii) :
  In c (list_ascii_of_string (Base58.ones z s)) ->
  c = "1"%char \/ In c (list_ascii_of_string s).
Proof.
  induction z as [|z IH]; [by right|]. cbn. intros [<-|H]; [by left|auto].
Qed.

(** The bytes of a number are as many as the number needs. *)
Lemma be_bytes_length (fuel : nat) :
  forall n acc, 0 <= n < 2 ^ Z.of_nat fuel ->
    exists k : nat,
      List.length (Base58.be_bytes fuel n acc) = (k + List.length acc)%nat
      /\ (n = 0 -> k = O)
      /\ (0 < n -> 256 ^ (Z.of_nat k - 1) <= n < 256 ^ Z.of_nat k).
Proof.
  induction fuel as [|fuel IH]; intros n acc Hn.
  - exists O. cbn in *. split; [done|]. split; [done|lia].
  - cbn [Base58.be_bytes]. destruct (Z.leb_spec n 0) as [Hle|Hpos].
    + exists O. split; [done|]. split; [done|lia].
    + destruct (IH (n / 256) (Js.chr (n mod 256) :: acc))
        as (k & Hlen & Hz & Hr).
      { rewrite Nat2Z.inj_succ, Z.pow_succ_r in Hn by lia.
        Z.div_mod_to_equations; lia. }
      exists (S k). cbn [List.length] in Hlen.
      split; [lia|]. split; [lia|]. intros _.
      rewrite Nat2Z.inj_succ.
      replace (Z.succ (Z.of_nat k) - 1) with (Z.of_nat k) by lia.
      rewrite Z.pow_succ_r by lia.
      pose proof (Z.div_mod n 256 ltac:(lia)) as Hdm.
      pose proof (Z.mod_pos_bound n 256 ltac:(lia)) as Hm.
      destruct (Z.eq_dec (n / 256) 0) as [Hq|Hq].
      * rewrite (Hz Hq). cbn. lia.
      * destruct Hr as [Hlo Hhi]; [Z.div_mod_to_equations; lia|].
        assert (0 < Z.of_nat k).
        { destruct k; [|lia]. cbn in Hhi. Z.div_mod_to_equations; lia. }
        replace (Z.of_nat k) with (Z.of_nat k - 1 + 1) at 1 by lia.
        rewrite Z.pow_add_r, Z.pow_1_r by lia. nia.
Qed.

Lemma bytes_of_number_length (n : Z) :
  0 <= n ->
  exists k : nat,
    List.length (Base58.bytes_of_number n) = k
    /\ (n = 0 -> k = O)
    /\ (0 < n -> 256 ^ (Z.of_nat k - 1) <= n < 256 ^ Z.of_nat k).
Proof.
  intros Hn. unfold Base58.bytes_of_number.
  destruct (be_bytes_length (S (Z.to_nat (Z.log2 n))) n []) as (k & H & Hr).
  - destruct (Z.eq_dec n 0) as [->|]; [cbn; lia|].
    pose proof (digits58_enough n ltac:(lia)). lia.
  - exists k. cbn [List.length] in H. split; [lia|exact Hr].
Qed.

Lemma base58_headroom (k : nat) :
  (k <= 32)%nat -> 256 ^ Z.of_nat k <= 58 ^ (12 + Z.of_nat k).
Proof.
  intros Hk.
  do 33 (destruct k as [|k]; [apply Z.leb_le; vm_compute; reflexivity|]).
  lia.
Qed.

Lemma alphabet_unit (c : ascii) :
  is_Some (Base58.value c) ->
  (if Js.is_cont c then 0 else if 240 <=? Js.code c then 2 else 1) = 1.
Proof.
  intros [v Hv].
  destruct c as [[] [] [] [] [] [] [] []]; vm_compute in Hv;
    first [discriminate Hv | reflexivity].
Qed.

Lemma alphabet_length (s : string) :
  (forall c, In c (list_ascii_of_string s) -> is_Some (Base58.value c)) ->
  Js.length s = Z.of_nat (String.length s).
Proof.
  induction s as [|c s IH]; intros H; [done|].
  cbn [Js.length String.length].
  rewrite IH, Nat2Z.inj_succ, alphabet_unit; [lia|apply H; by left|].
  intros c' Hc'. apply H. by right.
Qed.

Lemma number_lower (c : ascii) (r : string) (n : Z) :
  Ascii.eqb c "1" = false -> Base58.number 0 (String c r) = Some n ->
  58 ^ Z.of_nat (String.length r) <= n
  /\ n < 58 ^ Z.of_nat (String.length (String c r)).
Proof.
  intros Hc H. pose proof (number_range _ 0 n ltac:(lia) H) as Hr.
  cbv zeta in Hr. split; [|lia].
  cbn [Base58.number] in H.
  destruct (Base58.value c) as [v|] eqn:Ev; [|discriminate].
  destruct (base58_value_range c v Ev) as [Hv Hz].
  assert (v <> 0) by (intros ->; rewrite Hz in Hc by done; discriminate).
  pose proof (number_range _ (0 * 58 + v) n ltac:(lia) H) as Hr'.
  cbv zeta in Hr'.
  assert (0 < 58 ^ Z.of_nat (String.length r))
    by (apply Z.pow_pos_nonneg; lia).
  nia.
Qed.

Lemma base58_digit_of_value (c : ascii) (v : Z) :
  Base58.value c = Some v -> Base58.digit v = c.
Proof.
  intros H.
  destruct c as [[] [] [] [] [] [] [] []]; vm_compute in H;
    first [discriminate H | injection H as <-; reflexivity].
Qed.

Lemma number_unique (s1 : string) :
  forall s2 a n, 0 <= a -> String.length s1 = String.length s2 ->
    Base58.number a s1 = Some n -> Base58.number a s2 = Some n -> s1 = s2.
Proof.
  induction s1 as [|c1 s1 IH]; intros [|c2 s2] a n Ha Hlen H1 H2;
    try discriminate Hlen; [done|].
  cbn [Base58.number] in H1, H2. injection Hlen as Hlen.
  destruct (Base58.value c1) as [v1|] eqn:E1; [|discriminate].
  destruct (Base58.value c2) as [v2|] eqn:E2; [|discriminate].
  destruct (base58_value_range c1 v1 E1) as [Hv1 _].
  destruct (base58_value_range c2 v2 E2) as [Hv2 _].
  pose proof (number_range _ (a * 58 + v1) n ltac:(lia) H1) as R1.
  pose proof (number_range _ (a * 58 + v2) n ltac:(lia) H2) as R2.
  cbv zeta in R1, R2. rewrite <- Hlen in R2.
  set (P := 58 ^ Z.of_nat (String.length s1)) in *.
  assert (0 < P) by (apply Z.pow_pos_nonneg; lia).
  assert (v1 = v2) by nia. subst v2.
  apply base58_digit_of_value in E1, E2. subst c1 c2.
  f_equal. eapply IH; [| |exact H1|exact H2]; [lia|done].
Qed.

Lemma be_bytes_spec (fuel : nat) :
  forall n acc, 0 <= n < 2 ^ Z.of_nat fuel ->
    exists B, Base58.be_bytes fuel n acc = B ++ acc
              /\ no_leading_zero B /\ Base58.number_of_bytes B = n.
Proof.
  induction fuel as [|fuel IH]; intros n acc Hn.
  - exists []. cbn in *. split; [done|]. split; [done|]. cbn. lia.
  - cbn [Base58.be_bytes]. destruct (Z.leb_spec n 0) as [Hle|Hpos].
    + exists []. split; [done|]. split; [done|]. cbn. lia.
    + destruct (IH (n / 256) (Js.chr (n mod 256) :: acc))
        as (B & E & Hz & Hnum).
      { rewrite Nat2Z.inj_succ, Z.pow_succ_r in Hn by lia.
        Z.div_mod_to_equations; lia. }
      pose proof (Z.mod_pos_bound n 256 ltac:(lia)) as Hm.
      pose proof (Z.div_mod n 256 ltac:(lia)) as Hdm.
      exists (B ++ [Js.chr (n mod 256)]).
      split; [by rewrite E, <- app_assoc|]. split.
      * destruct B as [|b B]; [|exact Hz].
        change (Base58.number_of_bytes []) with 0 in Hnum.
        change (Ascii.eqb (Js.chr (n mod 256)) Js.zero = false).
        destruct (Ascii.eqb_spec (Js.chr (n mod 256)) Js.zero) as [Ez|]; [|done].
        apply (f_equal Js.code) in Ez. rewrite code_chr in Ez by lia.
        change (Js.code Js.zero) with 0 in Ez. lia.
      * rewrite number_of_bytes_snoc, Hnum, code_chr by lia. lia.
Qed.

(** [bs58.encode(bs58.decode(text))] is [text]: the text of a byte
    string is unique. *)
Lemma base58_canonical (s : string) (b : list ascii) :
  Base58.decode s = Some b -> Base58.encode b = s.
Proof.
  unfold Base58.decode, Base58.encode.
  destruct (leading_ones_spec s) as [Hs Hrest].
  destruct (Base58.leading_ones s) as [z rest]. cbn [fst snd] in *.
  destruct (Base58.number 0 rest) as [n|] eqn:En; [|discriminate].
  intros [= <-].
  assert (Hn : 0 <= n).
  { pose proof (number_range _ 0 n ltac:(lia) En) as Hr. cbv zeta in Hr.
    lia. }
  unfold Base58.bytes_of_number.
  destruct (be_bytes_spec (S (Z.to_nat (Z.log2 n))) n []) as (B & -> & HB & Hnum).
  { destruct (Z.eq_dec n 0) as [->|]; [cbn; lia|].
    pose proof (digits58_enough n ltac:(lia)). lia. }
  rewrite app_nil_r, leading_zeroes_replicate by done. rewrite Hnum.
  rewrite Hs. f_equal.
  destruct rest as [|c r].
  - injection En as <-. reflexivity.
  - destruct (number_lower c r n Hrest En) as [Hlo Hhi].
    assert (Hpos : 0 < n).
    { assert (0 < 58 ^ Z.of_nat (String.length r))
        by (apply Z.pow_pos_nonneg; lia). lia. }
    destruct (digits58_spec _ n (digits58_enough n Hpos))
      as (_ & Hread & Hlen).
    set (D := Base58.digits58 _ n EmptyString) in *.
    specialize (Hread 0 EmptyString). rewrite append_empty in Hread.
    cbn [Base58.number] in Hread. rewrite Z.mul_0_l, Z.add_0_l in Hread.
    apply (number_unique D (String c r) 0 n); [lia| |done..].
    cbn [String.length] in Hhi |- *. rewrite Nat2Z.inj_succ in Hhi.
    set (a := Z.of_nat (String.length D)) in *.
    set (l := Z.of_nat (String.length r)) in *.
    assert (a = Z.succ l); [|lia].
    destruct (Z.lt_trichotomy a (Z.succ l)) as [Hlt|[->|Hgt]]; [|done|].
    + assert (58 ^ a <= 58 ^ l) by (apply Z.pow_le_mono_r; lia). lia.
    + assert (58 ^ Z.succ l <= 58 ^ (a - 1)) by (apply Z.pow_le_mono_r; lia).
      lia.
Qed.

(** ** core/utils.ts: addresses *)

Lemma alphabet_member (c : ascii) :
  is_Some (Base58.value c) -> In c (list_ascii_of_string Base58.ALPHABET).
Proof.
  intros [v Hv].
  destruct c as [[] [] [] [] [] [] [] []]; vm_compute in Hv;
    first [discriminate Hv | vm_compute; tauto].
Qed.

(** X1.  An address that isValidSolanaAddress accepts is written in the
    base-58 alphabet only and has between 32 and 44 characters. *)
Theorem valid_address_shape (address : string) :
  isValidSolanaAddress address = true ->
  32 <= Js.length address <= 44
  /\ forall c, In c (list_ascii_of_string address) ->
       In c (list_ascii_of_string Base58.ALPHABET).
Proof.
  unfold isValidSolanaAddress, new_PublicKey, Base58.decode.
  destruct (leading_ones_spec address) as [Hs Hrest].
  destruct (Base58.leading_ones address) as [z rest]. cbn [fst snd] in *.
  destruct (Base58.number 0 rest) as [n|] eqn:En; [|discriminate].
  destruct (Nat.eqb_spec
              (List.length (replicate z Js.zero ++ Base58.bytes_of_number n))
              PUBLIC_KEY_LENGTH) as [Hlen|]; [intros _|discriminate].
  rewrite List.length_app, length_replicate in Hlen.
  unfold PUBLIC_KEY_LENGTH in Hlen.
  assert (Hchars : forall c, In c (list_ascii_of_string address) ->
                     is_Some (Base58.value c)).
  { intros c Hc. rewrite Hs in Hc. apply ones_chars in Hc as [->|Hc].
    - by exists 0.
    - eapply number_alphabet; eauto. }
  split; [|intros c Hc; by apply alphabet_member, Hchars].
  rewrite alphabet_length by done. rewrite Hs at 1 2. rewrite ones_length.
  pose proof (number_range _ 0 n ltac:(lia) En) as Hr. cbv zeta in Hr.
  destruct (bytes_of_number_length n ltac:(lia)) as (k & Hk & Hz & Hpos).
  rewrite Hk in Hlen.
  destruct rest as [|c r].
  - injection En as <-. rewrite (Hz eq_refl) in Hlen. cbn. lia.
  - destruct (number_lower c r n Hrest En) as [Hlo Hhi].
    cbn [String.length] in *. rewrite Nat2Z.inj_succ in Hhi.
    set (l := Z.of_nat (String.length r)) in *.
    assert (0 < 58 ^ l) by (apply Z.pow_pos_nonneg; lia).
    destruct Hpos as [Hklo Hkhi]; [lia|].
    assert (Hk1 : Z.of_nat k - 1 <= l).
    { destruct (Z.le_gt_cases (Z.of_nat k - 1) l) as [|Hgt]; [done|].
      assert (58 ^ Z.succ l <= 58 ^ (Z.of_nat k - 1))
        by (apply Z.pow_le_mono_r; lia).
      assert (58 ^ (Z.of_nat k - 1) <= 256 ^ (Z.of_nat k - 1))
        by (apply Z.pow_le_mono_l; lia).
      lia. }
    assert (Hk2 : l < 12 + Z.of_nat k).
    { destruct (Z.lt_ge_cases l (12 + Z.of_nat k)) as [|Hge]; [done|].
      assert (58 ^ (12 + Z.of_nat k) <= 58 ^ l)
        by (apply Z.pow_le_mono_r; lia).
      pose proof (base58_headroom k ltac:(lia)). lia. }
    lia.
Qed.

Lemma valid_address_shape_witness :
  isValidSolanaAddress Example.merchant = true
  /\ 32 <= Js.length Example.merchant <= 44
  /\ forall c, In c (list_ascii_of_string Example.merchant) ->
       In c (list_ascii_of_string Base58.ALPHABET).
Proof.
  split; [reflexivity|]. apply valid_address_shape. reflexivity.
Defined.

(** X2.  toPublicKey returns a key exactly when the key has 32 bytes and
    the address is the base-58 text of the key, so that
    [toPublicKey(a).toString()] is [a] and [toPublicKey(k.toString())] is
    [k]; for every other address it throws an X402Error with the code
    INVALID_ADDRESS that names the address. *)
Theorem toPublicKey_characterised (address : string) :
  (forall k, toPublicKey address = Return k <->
     List.length (pk_bytes k) = 32%nat /\ PublicKey_toString k = address)
  /\ ((forall k, toPublicKey address <> Return k) ->
      toPublicKey address
      = Throw (X402Error ("Invalid Solana address: " +:+ address)
                 "INVALID_ADDRESS")).
Proof.
  split.
  - intros k. split.
    + unfold toPublicKey, new_PublicKey, PublicKey_toString.
      destruct (Base58.decode address) as [b|] eqn:Eb; [|discriminate].
      destruct (Nat.eqb_spec (List.length b) PUBLIC_KEY_LENGTH) as [Hlen|];
        [|discriminate].
      intros [= <-]. cbn [pk_bytes]. split; [exact Hlen|].
      by apply base58_canonical.
    + intros [Hlen <-]. unfold toPublicKey.
      by rewrite new_PublicKey_toString.
  - unfold toPublicKey. destruct (new_PublicKey address) as [k|e]; [|done].
    intros H. by destruct (H k).
Qed.

(** ** core/utils.ts: requirements built by the library *)

Lemma invalid_address_or_empty (s : string) :
  Js.falsy s || negb (isValidSolanaAddress s)
  = negb (isValidSolanaAddress s).
Proof.
  unfold Js.falsy. destruct (String.eqb_spec s EmptyString) as [->|]; done.
Qed.

(** X3.  A requirement built by createSolTransferRequirement for
    mainnet, devnet or no network at all passes the scheme, network and
    asset checks of validatePaymentRequirement: validation fails with
    INVALID_PAY_TO when payTo is not a valid address, otherwise with
    INVALID_AMOUNT when the amount does not parse to a number above zero,
    and succeeds otherwise. *)
Theorem created_sol_requirement_validation
    (payTo amount resource description : string) (network : option string) :
  In network [None; Some "solana-mainnet"; Some "solana-devnet"]%string ->
  validatePaymentRequirement
    (createSolTransferRequirement payTo amount resource description network)
  = if negb (isValidSolanaAddress payTo)
    then Throw (X402Error "Invalid payTo address" "INVALID_PAY_TO")
    else if Number.isNaN (Number.parseFloat amount)
            || Number.leb (Number.parseFloat amount) (S754_zero false)
    then Throw (X402Error "Invalid maxAmountRequired" "INVALID_AMOUNT")
    else Return tt.
Proof.
  intros Hn. unfold validatePaymentRequirement, createSolTransferRequirement.
  cbn [Requirement.scheme Requirement.network Requirement.payTo
       Requirement.asset Requirement.maxAmountRequired].
  rewrite invalid_address_or_empty.
  assert (Hnet : Js.falsy (network_or_default network)
                 || negb (Js.startsWith (network_or_default network)
                            "solana-") = false).
  { destruct Hn as [<-|[<-|[<-|[]]]]; reflexivity. }
  rewrite Hnet.
  change (Js.falsy "solana-transfer"
          || negb (includes ["solana-transfer"; "solana-spl"]%string
                     "solana-transfer")) with false.
  cbv iota. destruct (isValidSolanaAddress payTo); reflexivity.
Qed.

Lemma created_sol_requirement_validation_witness :
  validatePaymentRequirement
    (createSolTransferRequirement Example.merchant "0.01" "/api/market-data"
       "Premium market data access" (Some "solana-devnet"%string))
  = Return tt.
Proof.
  rewrite created_sol_requirement_validation; [reflexivity|].
  right. right. by left.
Defined.

(** X4.  A requirement built by createSplTransferRequirement for
    mainnet, devnet or no network at all passes the scheme and network
    checks: validation fails with INVALID_PAY_TO when payTo is not a valid
    address, otherwise with MISSING_ASSET when the mint is empty, otherwise
    with INVALID_ASSET_SCHEME when the mint is 'SOL', otherwise with
    INVALID_AMOUNT when the amount does not parse to a number above zero.
    Nothing else about the mint is checked. *)
Theorem created_spl_requirement_validation
    (payTo amount mint resource description : string)
    (network : option string) :
  In network [None; Some "solana-mainnet"; Some "solana-devnet"]%string ->
  validatePaymentRequirement
    (createSplTransferRequirement payTo amount mint resource description
       network)
  = if negb (isValidSolanaAddress payTo)
    then Throw (X402Error "Invalid payTo address" "INVALID_PAY_TO")
    else if String.eqb mint ""
    then Throw (X402Error "Missing asset specification" "MISSING_ASSET")
    else if String.eqb mint "SOL"
    then Throw (X402Error "SPL scheme cannot use native SOL"
                  "INVALID_ASSET_SCHEME")
    else if Number.isNaN (Number.parseFloat amount)
            || Number.leb (Number.parseFloat amount) (S754_zero false)
    then Throw (X402Error "Invalid maxAmountRequired" "INVALID_AMOUNT")
    else Return tt.
Proof.
  intros Hn. unfold validatePaymentRequirement, createSplTransferRequirement.
  cbn [Requirement.scheme Requirement.network Requirement.payTo
       Requirement.asset Requirement.maxAmountRequired].
  rewrite invalid_address_or_empty.
  assert (Hnet : Js.falsy (network_or_default network)
                 || negb (Js.startsWith (network_or_default network)
                            "solana-") = false).
  { destruct Hn as [<-|[<-|[<-|[]]]]; reflexivity. }
  rewrite Hnet.
  change (Js.falsy "solana-spl"
          || negb (includes ["solana-transfer"; "solana-spl"]%string
                     "solana-spl")) with false.
  change (String.eqb "solana-spl" "solana-spl") with true.
  change (String.eqb "solana-spl" "solana-transfer") with false.
  unfold Js.falsy. cbv iota. cbn [andb].
  destruct (isValidSolanaAddress payTo), (String.eqb mint "")%string,
    (String.eqb mint "SOL"); reflexivity.
Qed.

Lemma created_spl_requirement_validation_witness :
  validatePaymentRequirement
    (createSplTransferRequirement Example.merchant "1.00" "not a mint"
       "/api/market-data" "Premium market data access" None)
  = Return tt.
Proof.
  rewrite created_spl_requirement_validation; [reflexivity|]. by left.
Defined.

(** ** solana-scheme: the engines *)

(** One case of a run: the next call whose outcome decides how the run
    goes on. *)
Ltac run_case :=
  match goal with
  | |- context [match ?x with _ => _ end] =>
      lazymatch x with
      | context [match _ with _ => _ end] => fail
      | _ =>
          lazymatch type of x with
          | completion _ => destruct x eqn:?
          | option _ => destruct x eqn:?
          | bool => destruct x eqn:?
          | prod _ _ => destruct x eqn:?
          | ErrorClass => destruct x eqn:?
          end
      end
  end; cbv beta iota zeta.

(** A verification returns a verdict: valid, or invalid with a reason. *)
Lemma transfer_verify_verdict self p r w t :
  exists v t1,
    SolanaTransferScheme.verifyPayment self p r w t = (Return v, t1)
    /\ (v = valid \/ exists reason, v = invalid reason /\ reason <> ""%string).
Proof.
  unfold SolanaTransferScheme.verifyPayment. run_unfold.
  repeat run_case; eexists _, _; (split; [reflexivity|]);
    first [by left | right; eexists; split; [reflexivity|discriminate]].
Qed.

Lemma spl_verify_verdict self p r d w t :
  exists v t1,
    SolanaSPLScheme.verifyPayment self p r d w t = (Return v, t1)
    /\ (v = valid \/ exists reason, v = invalid reason /\ reason <> ""%string).
Proof.
  unfold SolanaSPLScheme.verifyPayment. run_unfold.
  repeat run_case; eexists _, _; (split; [reflexivity|]);
    first [by left | right; eexists; split; [reflexivity|discriminate]].
Qed.

Lemma transfer_settle_report self p r w t :
  exists res t',
    SolanaTransferScheme.settlePayment self p r w t = (Return res, t')
    /\ reports_coherently res.
Proof.
  unfold SolanaTransferScheme.settlePayment. run_unfold.
  destruct (transfer_verify_verdict self p r w t)
    as (v & t1 & -> & [->|(reason & -> & Hr)]); cbv beta iota zeta;
    cbn [negb VerifyResult.isValid valid invalid VerifyResult.invalidReason];
    repeat run_case; eexists _, _; (split; [reflexivity|]);
    first [ left; cbn; by eauto
          | right; cbn; repeat split; eexists; split;
            [reflexivity|first [exact Hr|discriminate]] ].
Qed.

Lemma spl_settle_report self p r d w t :
  exists res t',
    SolanaSPLScheme.settlePayment self p r d w t = (Return res, t')
    /\ reports_coherently res.
Proof.
  unfold SolanaSPLScheme.settlePayment. run_unfold.
  destruct (spl_verify_verdict self p r d w t)
    as (v & t1 & -> & [->|(reason & -> & Hr)]); cbv beta iota zeta;
    cbn [negb VerifyResult.isValid valid invalid VerifyResult.invalidReason];
    repeat run_case; eexists _, _; (split; [reflexivity|]);
    first [ left; cbn; by eauto
          | right; cbn; repeat split; eexists; split;
            [reflexivity|first [exact Hr|discriminate]] ].
Qed.

(** X5.  settlePayment of either engine never throws, and what it
    returns is coherent: a success carries a transaction hash and no
    error, a failure carries an error message that is not empty and no
    transaction hash. *)
Theorem settle_reports_coherently (p : PaymentPayload.t) (r : Requirement.t)
    (w : World) (t : Trace) :
  (forall self, exists res t',
     SolanaTransferScheme.settlePayment self p r w t = (Return res, t')
     /\ reports_coherently res)
  /\ (forall self tokenDecimals, exists res t',
        SolanaSPLScheme.settlePayment self p r tokenDecimals w t
        = (Return res, t')
        /\ reports_coherently res).
Proof.
  split.
  - intros self. apply transfer_settle_report.
  - intros self d. apply spl_settle_report.
Qed.

Lemma toPublicKey_valid (address : string) (k : PublicKey) :
  toPublicKey address = Return k -> isValidSolanaAddress address = true.
Proof.
  unfold toPublicKey, isValidSolanaAddress.
  by destruct (new_PublicKey address).
Qed.

(** What a verdict of valid establishes, for the transfer engine. *)
Lemma transfer_valid_facts self p r w t v t1 :
  SolanaTransferScheme.verifyPayment self p r w t = (Return v, t1) ->
  VerifyResult.isValid v = true ->
  PaymentPayload.scheme p = "solana-transfer"%string
  /\ 87 <= Js.length (SolanaPayload.signature (PaymentPayload.payload p))
  /\ (exists fromPubkey toPubkey,
        toPublicKey (SolanaPayload.from (PaymentPayload.payload p))
        = Return fromPubkey
        /\ toPublicKey (Requirement.payTo r) = Return toPubkey)
  /\ (exists required amount,
        toAtomicUnits (Number.parseFloat (Requirement.maxAmountRequired r)) 9
        = Return required
        /\ BigInt.of_string (SolanaPayload.amount (PaymentPayload.payload p))
           = Return amount
        /\ required <= amount)
  /\ date_now w t - SolanaPayload.timestamp (PaymentPayload.payload p)
     <= 300000
  /\ v = valid /\ t1 = t ++ [DateNow].
Proof.
  unfold SolanaTransferScheme.verifyPayment. run_unfold.
  repeat run_case; intros [= <- <-] Hvalid; try discriminate Hvalid.
  repeat match goal with
    | H : negb _ = false |- _ => apply negb_false_iff in H
    | H : _ || _ = false |- _ => apply orb_false_iff in H as [? ?]
    | H : String.eqb _ _ = true |- _ => apply String.eqb_eq in H
    | H : (_ <? _) = false |- _ => apply Z.ltb_ge in H
    | H : (_ >? _) = false |- _ => rewrite Z.gtb_ltb in H
    end.
  unfold maxAge in *. repeat split; eauto; try lia.
Qed.

(** X6.  A payment that the transfer engine verifies as valid has the
    scheme solana-transfer, a signature of at least 87 characters, valid
    sender and recipient addresses, an amount that reads as an integer
    and reaches the required atomic amount, and a timestamp at most
    300000 ms before the one reading of the clock that the verification
    makes. *)
Theorem transfer_verify_sound (self : SolanaTransferScheme.t)
    (p : PaymentPayload.t) (r : Requirement.t) (w : World) (t t1 : Trace)
    (v : VerifyResult.t) :
  SolanaTransferScheme.verifyPayment self p r w t = (Return v, t1) ->
  VerifyResult.isValid v = true ->
  PaymentPayload.scheme p = "solana-transfer"%string
  /\ 87 <= Js.length (SolanaPayload.signature (PaymentPayload.payload p))
  /\ isValidSolanaAddress (SolanaPayload.from (PaymentPayload.payload p))
     = true
  /\ isValidSolanaAddress (Requirement.payTo r) = true
  /\ (exists required amount,
        toAtomicUnits (Number.parseFloat (Requirement.maxAmountRequired r)) 9
        = Return required
        /\ BigInt.of_string (SolanaPayload.amount (PaymentPayload.payload p))
           = Return amount
        /\ required <= amount)
  /\ date_now w t - SolanaPayload.timestamp (PaymentPayload.payload p)
     <= 300000
  /\ t1 = t ++ [DateNow].
Proof.
  intros Hrun Hvalid.
  destruct (transfer_valid_facts _ _ _ _ _ _ _ Hrun Hvalid)
    as (Hs & Hl & (kf & kt & Hf & Ht) & Ha & Hage & _ & Ht1).
  repeat split; eauto using toPublicKey_valid.
Qed.

Lemma transfer_verify_sound_witness :
  PaymentPayload.scheme
    (Example.transfer_payload Example.sig88 "10000000" Example.T0)
  = "solana-transfer"%string
  /\ 87 <= Js.length Example.sig88
  /\ isValidSolanaAddress Example.wallet = true
  /\ isValidSolanaAddress Example.merchant = true
  /\ (exists required amount,
        toAtomicUnits (Number.parseFloat "0.01") 9 = Return required
        /\ BigInt.of_string "10000000" = Return amount
        /\ required <= amount)
  /\ Example.T0 - Example.T0 <= 300000
  /\ [DateNow] = [] ++ [DateNow].
Proof.
  apply (transfer_verify_sound Example.devnet
           (Example.transfer_payload Example.sig88 "10000000" Example.T0)
           (Example.sol_requirement "0.01")
           (Example.world (fun _ => Example.T0) "") [] [DateNow] valid);
    reflexivity.
Defined.

Lemma differs_false (field : option string) (expected : string) :
  SolanaSPLScheme.differs field expected = false -> field = Some expected.
Proof.
  destruct field as [s|]; [|discriminate]. cbn.
  intros H%negb_false_iff%String.eqb_eq. by subst.
Qed.

(** What a verdict of valid establishes, for the SPL engine. *)
Lemma spl_valid_facts self p r d w t v t1 :
  SolanaSPLScheme.verifyPayment self p r d w t = (Return v, t1) ->
  VerifyResult.isValid v = true ->
  let payload := PaymentPayload.payload p in
  PaymentPayload.scheme p = "solana-spl"%string
  /\ 87 <= Js.length (SolanaPayload.signature payload)
  /\ SolanaPayload.mint payload = Some (Requirement.asset r)
  /\ (exists fromPubkey toPubkey mintPubkey fromAccount toAccount,
        toPublicKey (SolanaPayload.from payload) = Return fromPubkey
        /\ toPublicKey (Requirement.payTo r) = Return toPubkey
        /\ toPublicKey (Requirement.asset r) = Return mintPubkey
        /\ getAssociatedTokenAddress w mintPubkey fromPubkey
           = Return fromAccount
        /\ getAssociatedTokenAddress w mintPubkey toPubkey
           = Return toAccount
        /\ SolanaPayload.fromTokenAccount payload
           = Some (PublicKey_toString fromAccount)
        /\ SolanaPayload.toTokenAccount payload
           = Some (PublicKey_toString toAccount))
  /\ (exists required amount,
        toAtomicUnits (Number.parseFloat (Requirement.maxAmountRequired r)) d
        = Return required
        /\ BigInt.of_string (SolanaPayload.amount payload) = Return amount
        /\ required <= amount)
  /\ date_now w t - SolanaPayload.timestamp payload <= 300000
  /\ v = valid /\ t1 = t ++ [DateNow].
Proof.
  unfold SolanaSPLScheme.verifyPayment. run_unfold.
  repeat run_case; intros [= <- <-] Hvalid; try discriminate Hvalid.
  repeat match goal with
    | H : negb _ = false |- _ => apply negb_false_iff in H
    | H : _ || _ = false |- _ => apply orb_false_iff in H as [? ?]
    | H : String.eqb _ _ = true |- _ => apply String.eqb_eq in H
    | H : (_ <? _) = false |- _ => apply Z.ltb_ge in H
    | H : (_ >? _) = false |- _ => rewrite Z.gtb_ltb in H
    | H : SolanaSPLScheme.differs _ _ = false |- _ =>
        apply differs_false in H
    end.
  match goal with
  | H : SolanaPayload.mint _ = Some _ |- _ => rewrite H in *
  end.
  cbn [SolanaSPLScheme.toPublicKey_opt] in *.
  unfold maxAge in *. cbv zeta. repeat split; eauto 10; try lia.
  eexists _, _, _, _, _. repeat split; eauto.
Qed.

(** X7.  A payment that the SPL engine verifies as valid names the mint
    of the requirement, and its two token accounts are the texts of the
    associated token accounts derived from that mint for the sender and
    for the requirement's payTo; its signature has at least 87
    characters, its amount reaches the required amount at the given
    decimals, and its timestamp is at most 300000 ms old. *)
Theorem spl_verify_sound (self : SolanaSPLScheme.t) (p : PaymentPayload.t)
    (r : Requirement.t) (tokenDecimals : Z) (w : World) (t t1 : Trace)
    (v : VerifyResult.t) :
  SolanaSPLScheme.verifyPayment self p r tokenDecimals w t
  = (Return v, t1) ->
  VerifyResult.isValid v = true ->
  let payload := PaymentPayload.payload p in
  PaymentPayload.scheme p = "solana-spl"%string
  /\ 87 <= Js.length (SolanaPayload.signature payload)
  /\ SolanaPayload.mint payload = Some (Requirement.asset r)
  /\ isValidSolanaAddress (Requirement.asset r) = true
  /\ SplChecks.expected w (Requirement.asset r) (SolanaPayload.from payload)
     = SolanaPayload.fromTokenAccount payload
  /\ SplChecks.expected w (Requirement.asset r) (Requirement.payTo r)
     = SolanaPayload.toTokenAccount payload
  /\ (exists required amount,
        toAtomicUnits (Number.parseFloat (Requirement.maxAmountRequired r))
          tokenDecimals
        = Return required
        /\ BigInt.of_string (SolanaPayload.amount payload) = Return amount
        /\ required <= amount)
  /\ date_now w t - SolanaPayload.timestamp payload <= 300000
  /\ t1 = t ++ [DateNow].
Proof.
  intros Hrun Hvalid.
  destruct (spl_valid_facts _ _ _ _ _ _ _ _ Hrun Hvalid)
    as (Hs & Hl & Hm & (kf & kt & km & af & at_ & Hf & Ht & Hk & Haf & Hat
                        & Hfa & Hta) & Ha & Hage & _ & Ht1).
  cbv zeta. unfold SplChecks.expected. rewrite Hk, Hf, Ht, Haf, Hat.
  repeat split; eauto using toPublicKey_valid.
Qed.

Lemma spl_verify_sound_witness :
  SolanaPayload.mint
    (PaymentPayload.payload
       (Example.spl_payload Example.sig88 "1000000" Example.T0))
  = Some (Requirement.asset (Example.usdc_requirement "1.00"))
  /\ SplChecks.expected (Example.world (fun _ => Example.T0) "")
       (Requirement.asset (Example.usdc_requirement "1.00"))
       (SolanaPayload.from
          (PaymentPayload.payload
             (Example.spl_payload Example.sig88 "1000000" Example.T0)))
     = SolanaPayload.fromTokenAccount
         (PaymentPayload.payload
            (Example.spl_payload Example.sig88 "1000000" Example.T0)).
Proof.
  destruct (spl_verify_sound Example.devnet_spl
              (Example.spl_payload Example.sig88 "1000000" Example.T0)
              (Example.usdc_requirement "1.00") 6
              (Example.world (fun _ => Example.T0) "") [] [DateNow] valid)
    as (_ & _ & Hm & _ & Hf & _); [reflexivity..|].
  split; [exact Hm|exact Hf].
Defined.

Lemma filter_reads (s : Trace) :
  forallb (fun e => negb (mutates e)) s = true -> List.filter mutates s = [].
Proof.
  induction s as [|e s IH]; [done|]. cbn.
  intros [He Hs]%andb_true_iff. apply negb_true_iff in He.
  rewrite He. auto.
Qed.

(** Splits a membership in the requests of a run into the cases of the
    requests the run made. *)
Ltac submitted H Fs :=
  rewrite <- ?app_assoc, ?added_app in H;
  first
    [ exfalso; exact (no_submission _ Fs _ _ H)
    | apply in_app_or in H as [H|H];
      [ exfalso; exact (no_submission _ Fs _ _ H)
      | cbn [In app] in H;
        repeat match type of H with
          | _ \/ _ => destruct H as [H|H]
          | False => destruct H
          | _ = _ => first [discriminate H | injection H as <- <-]
          end ] ].

(** [BigInt(Number(amount))] for an amount below [2^53] is the amount,
    and fits an unsigned 64-bit integer. *)
Lemma carried_amount (amount n : Z) :
  Number.to_integer (Number.of_Z amount) = Some n ->
  0 <= amount < 2 ^ 53 ->
  n = amount /\ (0 <=? n) && (n <? 2 ^ 64) = true.
Proof.
  intros Hn Ha. destruct (of_Z_safe amount ltac:(lia)) as [Hi _].
  rewrite Hi in Hn. injection Hn as <-. split; [reflexivity|].
  apply andb_true_iff. rewrite Z.leb_le, Z.ltb_lt. lia.
Qed.

Lemma u64_range (n : Z) :
  (0 <=? n) && (n <? 2 ^ 64) = true <-> 0 <= n < 2 ^ 64.
Proof. rewrite andb_true_iff, Z.leb_le, Z.ltb_lt. tauto. Qed.

(** Settles what an instruction carries, in a run that has built it. *)
Ltac carried :=
  match goal with
  | Hn : Number.to_integer (Number.of_Z ?a) = Some ?n |- _ -> _ =>
      let Hr := fresh in
      intros Hr;
      first
        [ reflexivity
        | by destruct (carried_amount a n Hn Hr) as [-> _]
        | apply u64_range in Hr; congruence
        | destruct (carried_amount a n Hn Hr) as [_ ?]; congruence ]
  end.

(** X8.  A settlement by the transfer engine submits at most one
    transaction.  It submits one only after the payment is verified as
    valid, to the engine's own endpoint, and the transaction serializes:
    its recent blockhash is the base58 text of 32 bytes.  It is a single
    system transfer from the payload's sender to the requirement's payTo,
    with the sender as fee payer.  The lamports are those of
    [Number(BigInt(payload.amount))]: the integer [n] that the number
    nearest to the payload's amount is, when [n] is below [2^64], and so
    the payload's amount itself when that is below [2^53]. *)
Theorem transfer_settle_submission (self : SolanaTransferScheme.t)
    (p : PaymentPayload.t) (r : Requirement.t) (w : World) (t : Trace) :
  (List.length
     (List.filter mutates
        (added t (snd (SolanaTransferScheme.settlePayment self p r w t))))
   <= 1)%nat
  /\ forall endpoint transaction,
       In (SendRawTransaction endpoint transaction)
          (added t (snd (SolanaTransferScheme.settlePayment self p r w t))) ->
       endpoint = SolanaTransferScheme.connection self
       /\ (exists t1,
             SolanaTransferScheme.verifyPayment self p r w t
             = (Return valid, t1))
       /\ Transaction.serialize transaction = Return tt
       /\ exists fromPubkey toPubkey amount n lamports blockhash,
            transaction
            = Transaction.mk [SystemTransfer fromPubkey toPubkey lamports]
                (Some blockhash) (Some fromPubkey)
            /\ toPublicKey (SolanaPayload.from (PaymentPayload.payload p))
               = Return fromPubkey
            /\ toPublicKey (Requirement.payTo r) = Return toPubkey
            /\ BigInt.of_string
                 (SolanaPayload.amount (PaymentPayload.payload p))
               = Return amount
            /\ Number.to_integer (Number.of_Z amount) = Some n
            /\ (0 <= n < 2 ^ 64 -> lamports = n)
            /\ (0 <= amount < 2 ^ 53 -> lamports = amount).
Proof.
  unfold SolanaTransferScheme.settlePayment, SystemProgram_transfer, u64,
    BigInt.of_number.
  run_unfold.
  destruct (transfer_verify_verdict self p r w t)
    as (v & t1 & Hv & Hcases).
  destruct (transfer_verify_reads self p r w t) as (s & Es & Fs).
  rewrite Hv in Es. cbn [snd] in Es. subst t1. rewrite Hv.
  destruct Hcases as [->|(reason & -> & _)]; cbv beta iota zeta;
    cbn [negb VerifyResult.isValid valid invalid VerifyResult.invalidReason];
    repeat run_case; cbn [snd]; rewrite <- ?app_assoc, ?added_app;
    (split;
     [ rewrite ?List.filter_app, (filter_reads s Fs); cbn; lia
     | intros endpoint transaction Hin; submitted Hin Fs ]).
  all: split; [reflexivity|]; split; [by eexists|].
  all: split;
    [match goal with
     | H : Transaction.serialize _ = Return ?u |- _ => destruct u; exact H
     end|].
  all: eexists _, _, _, _, _, _;
    do 4 (split; [reflexivity|]); (split; [eassumption|]); split; carried.
Qed.

Lemma transfer_settle_submission_witness :
  exists transaction,
    In (SendRawTransaction "https://api.devnet.solana.com" transaction)
       (added []
          (snd (SolanaTransferScheme.settlePayment Example.devnet
                  (Example.transfer_payload Example.sig88 "10000000"
                     Example.T0)
                  (Example.sol_requirement "0.01")
                  (Example.world (fun _ => Example.T0) "") [])))
    /\ "https://api.devnet.solana.com"%string
       = SolanaTransferScheme.connection Example.devnet.
Proof.
  eexists. split.
  - vm_compute. right. right. right. left. reflexivity.
  - eapply (proj2 (transfer_settle_submission Example.devnet
                     (Example.transfer_payload Example.sig88 "10000000"
                        Example.T0)
                     (Example.sol_requirement "0.01")
                     (Example.world (fun _ => Example.T0) "") [])).
    vm_compute. right. right. right. left. reflexivity.
Defined.

Lemma toPublicKey_toString_inj (k k' : PublicKey) :
  toPublicKey (PublicKey_toString k) = Return k' -> k' = k.
Proof.
  unfold toPublicKey, new_PublicKey, PublicKey_toString.
  rewrite base58_round_trip.
  destruct (Nat.eqb _ _); [|discriminate]. intros [= <-]. by destruct k.
Qed.

(** X9.  A settlement by the SPL engine submits at most one transaction.
    It submits one only after the payment is verified as valid, to the
    engine's own endpoint, and the transaction serializes: its recent
    blockhash is the base58 text of 32 bytes.  The transaction ends with
    one token transfer from the associated token account of the sender to
    the associated token account of the requirement's payTo, both derived
    from the requirement's asset; before it there is at most the
    instruction that creates the recipient's account.  The amount
    transferred is that of [Number(BigInt(payload.amount))]: the integer
    [n] that the number nearest to the payload's amount is, when [n] is
    below [2^64], and so the payload's amount itself when that is below
    [2^53]. *)
Theorem spl_settle_submission (self : SolanaSPLScheme.t)
    (p : PaymentPayload.t) (r : Requirement.t) (tokenDecimals : Z)
    (w : World) (t : Trace) :
  (List.length
     (List.filter mutates
        (added t (snd (SolanaSPLScheme.settlePayment self p r tokenDecimals
                         w t))))
   <= 1)%nat
  /\ forall endpoint transaction,
       In (SendRawTransaction endpoint transaction)
          (added t (snd (SolanaSPLScheme.settlePayment self p r
                           tokenDecimals w t))) ->
       endpoint = SolanaSPLScheme.connection self
       /\ (exists t1,
             SolanaSPLScheme.verifyPayment self p r tokenDecimals w t
             = (Return valid, t1))
       /\ Transaction.serialize transaction = Return tt
       /\ exists fromPubkey toPubkey mintPubkey fromAccount toAccount
                 amount n units blockhash create,
            transaction
            = Transaction.mk
                (create
                 ++ [TokenTransfer fromAccount toAccount fromPubkey units])
                (Some blockhash) (Some fromPubkey)
            /\ (create = []
                \/ create = [CreateAssociatedTokenAccount fromPubkey
                               toAccount toPubkey mintPubkey])
            /\ toPublicKey (SolanaPayload.from (PaymentPayload.payload p))
               = Return fromPubkey
            /\ toPublicKey (Requirement.payTo r) = Return toPubkey
            /\ toPublicKey (Requirement.asset r) = Return mintPubkey
            /\ getAssociatedTokenAddress w mintPubkey fromPubkey
               = Return fromAccount
            /\ getAssociatedTokenAddress w mintPubkey toPubkey
               = Return toAccount
            /\ BigInt.of_string
                 (SolanaPayload.amount (PaymentPayload.payload p))
               = Return amount
            /\ Number.to_integer (Number.of_Z amount) = Some n
            /\ (0 <= n < 2 ^ 64 -> units = n)
            /\ (0 <= amount < 2 ^ 53 -> units = amount).
Proof.
  unfold SolanaSPLScheme.settlePayment, createTransferInstruction, u64,
    BigInt.of_number.
  run_unfold.
  destruct (spl_verify_verdict self p r tokenDecimals w t)
    as (v & t1 & Hv & Hcases).
  destruct (spl_verify_reads self p r tokenDecimals w t) as (s & Es & Fs).
  rewrite Hv in Es. cbn [snd] in Es. subst t1. rewrite Hv.
  destruct Hcases as [->|(reason & -> & _)]; cbv beta iota zeta;
    cbn [negb VerifyResult.isValid valid invalid VerifyResult.invalidReason].
  2:{ cbn [snd]. rewrite added_app. split.
      - rewrite (filter_reads s Fs). cbn. lia.
      - intros endpoint transaction Hin. submitted Hin Fs. }
  destruct (spl_valid_facts _ _ _ _ _ _ _ _ Hv eq_refl)
    as (_ & _ & Hm
        & (kf & kt & km & af & at_ & Hf & Ht & Hk & Haf & Hat & Hfa & Hta)
        & _).
  rewrite Hm, Hfa, Hta, Hf, Ht. cbn [SolanaSPLScheme.toPublicKey_opt].
  rewrite Hk. cbv beta iota zeta.
  repeat run_case; cbn [snd]; rewrite <- ?app_assoc, ?added_app;
    repeat match goal with
      | H : toPublicKey (PublicKey_toString _) = Return _ |- _ =>
          apply toPublicKey_toString_inj in H; subst
      end;
    (split;
     [ rewrite ?List.filter_app, (filter_reads s Fs); cbn; lia
     | intros endpoint transaction Hin; submitted Hin Fs ]).
  all: split; [reflexivity|]; split; [by eexists|].
  all: split;
    [match goal with
     | H : Transaction.serialize _ = Return ?u |- _ => destruct u; exact H
     end|].
  all: eexists _, _, _, _, _, _, _, _, _;
    first
      [ exists (@nil Instruction); (split; [reflexivity|]);
        (split; [by left|])
      | eexists [_]; (split; [reflexivity|]); (split; [by right|]) ];
    do 6 (split; [first [reflexivity | eassumption]|]);
    (split; [eassumption|]); split; carried.
Qed.

Lemma spl_settle_submission_witness :
  exists transaction,
    In (SendRawTransaction "https://api.devnet.solana.com" transaction)
       (added []
          (snd (SolanaSPLScheme.settlePayment Example.devnet_spl
                  (Example.spl_payload Example.sig88 "1000000" Example.T0)
                  (Example.usdc_requirement "1.00") 6
                  (Example.world (fun _ => Example.T0) "") [])))
    /\ "https://api.devnet.solana.com"%string
       = SolanaSPLScheme.connection Example.devnet_spl.
Proof.
  eexists. split.
  - vm_compute. right. right. right. right. left. reflexivity.
  - eapply (proj2 (spl_settle_submission Example.devnet_spl
                     (Example.spl_payload Example.sig88 "1000000" Example.T0)
                     (Example.usdc_requirement "1.00") 6
                     (Example.world (fun _ => Example.T0) "") [])).
    vm_compute. right. right. right. right. left. reflexivity.
Defined.

(** X10.  A settlement that is reported as failed may have submitted
    the transaction: when the payment is valid, the probe does not find
    the signature (or fails), the lamports of
    [Number(BigInt(payload.amount))] fit an unsigned 64-bit integer, the
    transaction with the blockhash given by the node serializes, the node
    accepts the transaction and then the confirmation throws, the
    transfer engine reports "Settlement error: ..." with the message of
    that error, after the transaction was sent. *)
Theorem transfer_settle_unconfirmed (self : SolanaTransferScheme.t)
    (p : PaymentPayload.t) (r : Requirement.t) (w : World) (t t1 : Trace)
    (fromPubkey toPubkey : PublicKey) (amount lamports : Z)
    (blockhash signature : string) (e : JsError) :
  let endpoint := SolanaTransferScheme.connection self in
  let payload := PaymentPayload.payload p in
  let t2 := t1 ++ [GetTransaction endpoint (SolanaPayload.signature payload)] in
  let t3 := t2 ++ [GetLatestBlockhash endpoint] in
  let transaction :=
    Transaction.mk [SystemTransfer fromPubkey toPubkey lamports]
      (Some blockhash) (Some fromPubkey) in
  let t4 := t3 ++ [SendRawTransaction endpoint transaction] in
  SolanaTransferScheme.verifyPayment self p r w t = (Return valid, t1) ->
  (forall info,
     getTransaction w t1 endpoint (SolanaPayload.signature payload)
     <> Return (Some info)) ->
  toPublicKey (SolanaPayload.from payload) = Return fromPubkey ->
  toPublicKey (Requirement.payTo r) = Return toPubkey ->
  BigInt.of_string (SolanaPayload.amount payload) = Return amount ->
  Number.to_integer (Number.of_Z amount) = Some lamports ->
  0 <= lamports < 2 ^ 64 ->
  getLatestBlockhash w t2 endpoint = Return blockhash ->
  Transaction.serialize transaction = Return tt ->
  sendRawTransaction w t3 endpoint transaction = Return signature ->
  confirmTransaction w t4 endpoint signature = Throw e ->
  SolanaTransferScheme.settlePayment self p r w t
  = (Return (SettleResult.mk false None
               (Some ("Settlement error: " +:+ err_message e))),
     t4 ++ [ConfirmTransaction endpoint signature]).
Proof.
  intros endpoint payload t2 t3 transaction t4 Hv Hprobe Hf Ht Ha Hn Hr Hb
    Hz Hs Hc.
  subst endpoint payload t2 t3 transaction t4.
  apply u64_range in Hr.
  unfold SolanaTransferScheme.settlePayment, SystemProgram_transfer, u64,
    BigInt.of_number.
  run_unfold.
  rewrite Hv. cbv beta iota zeta. cbn [negb VerifyResult.isValid valid].
  destruct (getTransaction w t1 _ _) as [[info|]|e0];
    [by destruct (Hprobe info)| |];
    cbv beta iota zeta;
    change (bool_decide (is_Some (@None TransactionResponse))) with false;
    cbv beta iota zeta;
    rewrite Hf, Ht, Ha; cbv beta iota zeta;
    rewrite Hn; cbv beta iota zeta;
    rewrite Hr; cbv beta iota zeta;
    rewrite Hb; cbv beta iota zeta;
    rewrite Hz; cbv beta iota zeta;
    rewrite Hs; cbv beta iota zeta;
    rewrite Hc; reflexivity.
Qed.

Lemma transfer_settle_unconfirmed_witness :
  fst (SolanaTransferScheme.settlePayment Example.devnet
         (Example.transfer_payload Example.sig88 "10000000" Example.T0)
         (Example.sol_requirement "0.01")
         (Example.unconfirmed (fun _ => Example.T0)) [])
  = Return (SettleResult.mk false None
              (Some "Settlement error: Transaction was not confirmed in 30.00 seconds"%string)).
Proof.
  refine (f_equal fst
            (transfer_settle_unconfirmed Example.devnet
               (Example.transfer_payload Example.sig88 "10000000" Example.T0)
               (Example.sol_requirement "0.01")
               (Example.unconfirmed (fun _ => Example.T0)) [] [DateNow]
               _ _ 10000000 10000000 Example.blockhash Example.unsigned
               (PlainError "Transaction was not confirmed in 30.00 seconds")
               _ _ _ _ _ _ _ _ _ _ _));
    try (vm_compute; reflexivity).
  - intros info. vm_compute. discriminate.
  - lia.
Defined.

(** X11.  Errors thrown inside the verification of the transfer engine
    come back as verdicts, and the clock is not read: with scheme and
    signature format accepted, an invalid sender address, then an invalid
    payTo, then a required amount that is not a number, then a payload
    amount that is not an integer text each give "Verification error: "
    followed by the message of the error. *)
Theorem transfer_verify_reports_errors (self : SolanaTransferScheme.t)
    (p : PaymentPayload.t) (r : Requirement.t) (w : World) (t : Trace) :
  let payload := PaymentPayload.payload p in
  PaymentPayload.scheme p = "solana-transfer"%string ->
  87 <= Js.length (SolanaPayload.signature payload) ->
  (isValidSolanaAddress (SolanaPayload.from payload) = false ->
   SolanaTransferScheme.verifyPayment self p r w t
   = (Return (invalid ("Verification error: Invalid Solana address: "
                       +:+ SolanaPayload.from payload)), t))
  /\ (isValidSolanaAddress (SolanaPayload.from payload) = true ->
      isValidSolanaAddress (Requirement.payTo r) = false ->
      SolanaTransferScheme.verifyPayment self p r w t
      = (Return (invalid ("Verification error: Invalid Solana address: "
                          +:+ Requirement.payTo r)), t))
  /\ (isValidSolanaAddress (SolanaPayload.from payload) = true ->
      isValidSolanaAddress (Requirement.payTo r) = true ->
      Number.isNaN (Number.parseFloat (Requirement.maxAmountRequired r))
      = true ->
      SolanaTransferScheme.verifyPayment self p r w t
      = (Return (invalid "Verification error: The number NaN cannot be converted to a BigInt because it is not an integer"),
         t))
  /\ (isValidSolanaAddress (SolanaPayload.from payload) = true ->
      isValidSolanaAddress (Requirement.payTo r) = true ->
      forall required,
        toAtomicUnits (Number.parseFloat (Requirement.maxAmountRequired r)) 9
        = Return required ->
        BigInt.of_string_opt (SolanaPayload.amount payload) = None ->
        SolanaTransferScheme.verifyPayment self p r w t
        = (Return (invalid ("Verification error: Cannot convert "
                            +:+ SolanaPayload.amount payload
                            +:+ " to a BigInt")), t)).
Proof.
  intros payload Hs Hl. subst payload.
  assert (Hf : Js.falsy (SolanaPayload.signature (PaymentPayload.payload p))
               = false).
  { unfold Js.falsy.
    destruct (String.eqb_spec
                (SolanaPayload.signature (PaymentPayload.payload p))
                EmptyString) as [E|]; [|done].
    rewrite E in Hl. cbn in Hl. lia. }
  apply Z.ltb_ge in Hl. apply String.eqb_eq in Hs.
  unfold SolanaTransferScheme.verifyPayment. run_unfold.
  rewrite Hs, Hf, Hl. cbv beta iota zeta. cbn [negb orb].
  unfold isValidSolanaAddress, toPublicKey.
  repeat split.
  - destruct (new_PublicKey (SolanaPayload.from _)); [discriminate|done].
  - destruct (new_PublicKey (SolanaPayload.from _)); [|discriminate].
    destruct (new_PublicKey (Requirement.payTo r)); [discriminate|done].
  - destruct (new_PublicKey (SolanaPayload.from _)); [|discriminate].
    destruct (new_PublicKey (Requirement.payTo r)); [|discriminate].
    intros _ _ Hnan.
    destruct (Number.parseFloat (Requirement.maxAmountRequired r));
      try discriminate Hnan. reflexivity.
  - destruct (new_PublicKey (SolanaPayload.from _)); [|discriminate].
    destruct (new_PublicKey (Requirement.payTo r)); [|discriminate].
    intros _ _ required -> Hamount. unfold BigInt.of_string.
    by rewrite Hamount.
Qed.

Lemma transfer_verify_reports_errors_witness :
  SolanaTransferScheme.verifyPayment Example.devnet
    (Example.transfer_payload Example.sig88 "10000000" Example.T0)
    (Example.sol_requirement "free")
    (Example.world (fun _ => Example.T0) "") []
  = (Return (invalid "Verification error: The number NaN cannot be converted to a BigInt because it is not an integer"),
     [])
  /\ SolanaTransferScheme.verifyPayment Example.devnet
       (Example.transfer_payload Example.sig88 "1.5" Example.T0)
       (Example.sol_requirement "0.01")
       (Example.world (fun _ => Example.T0) "") []
     = (Return (invalid "Verification error: Cannot convert 1.5 to a BigInt"),
        []).
Proof.
  split.
  - apply (transfer_verify_reports_errors Example.devnet
             (Example.transfer_payload Example.sig88 "10000000" Example.T0)
             (Example.sol_requirement "free")
             (Example.world (fun _ => Example.T0) "") []);
      first [reflexivity | by vm_compute].
  - apply (transfer_verify_reports_errors Example.devnet
             (Example.transfer_payload Example.sig88 "1.5" Example.T0)
             (Example.sol_requirement "0.01")
             (Example.world (fun _ => Example.T0) "") [])
      with (required := 10000000);
      first [reflexivity | by vm_compute].
Defined.
(** ** facilitator: the service *)

Lemma getRpcEndpoint_networks (env : string -> option string)
    (network : string) :
  (network = "solana-mainnet"%string \/ network = "solana-devnet"%string ->
   exists url, getRpcEndpoint env network = Return url /\ url <> ""%string)
  /\ (network <> "solana-mainnet"%string ->
      network <> "solana-devnet"%string ->
      getRpcEndpoint env network
      = Throw (X402Error ("Unsupported network: " +:+ network)
                 "UNSUPPORTED_NETWORK")).
Proof.
  unfold getRpcEndpoint. split.
  - intros [->| ->]; cbn;
      (destruct (env _) as [u|]; [|by eexists]);
      unfold Js.falsy; destruct (String.eqb_spec u EmptyString);
      by eexists.
  - intros H1 H2.
    destruct (String.eqb_spec network "solana-mainnet"); [done|].
    by destruct (String.eqb_spec network "solana-devnet").
Qed.

(** What [new Connection] accepts is the endpoint it was given. *)
Lemma Connection_new_accepts (endpoint connection : string) :
  Connection.new endpoint = Return connection -> connection = endpoint.
Proof.
  unfold Connection.new.
  destruct (negb (Connection.http endpoint)); [discriminate|].
  destruct (negb (Connection.matches_URL_RE endpoint)); [discriminate|].
  by intros [= <-].
Qed.

(** What [new Connection] throws is a TypeError. *)
Lemma Connection_new_rejects (endpoint : string) (e : JsError) :
  Connection.new endpoint = Throw e -> err_class e = TypeError_.
Proof.
  unfold Connection.new.
  destruct (negb (Connection.http endpoint)); [by intros [= <-]|].
  destruct (negb (Connection.matches_URL_RE endpoint)); [by intros [= <-]|].
  discriminate.
Qed.

(** The endpoints that getRpcEndpoint gives when the environment sets
    none are accepted. *)
Lemma default_endpoints_accepted (network url : string) :
  getRpcEndpoint (fun _ => None) network = Return url ->
  Connection.new url = Return url.
Proof.
  unfold getRpcEndpoint.
  destruct (String.eqb network "solana-mainnet");
    [by intros [= <-]|].
  destruct (String.eqb network "solana-devnet"); [by intros [= <-]|].
  discriminate.
Qed.

(** X12.  The constructor of the facilitator service builds the engines
    of solana-mainnet first and of solana-devnet next, each on the
    endpoint that getRpcEndpoint gives for its network.  When
    [new Connection] accepts both endpoints, the constructor returns, and
    an engine of each scheme is registered for exactly these two
    networks, connected to the endpoint of its network; when it rejects
    one, the constructor throws that error, the one of solana-mainnet
    first. *)
Theorem facilitator_constructor (env : string -> option string)
    (mainnet devnet : string) :
  getRpcEndpoint env "solana-mainnet" = Return mainnet ->
  getRpcEndpoint env "solana-devnet" = Return devnet ->
  (Connection.new mainnet = Return mainnet ->
   Connection.new devnet = Return devnet ->
   exists self,
     FacilitatorService.new env = Return self
     /\ forall network,
          (FacilitatorService.transferSchemes self !! network
           = match getRpcEndpoint env network with
             | Return url => Some (SolanaTransferScheme.mk url)
             | Throw _ => None
             end)
          /\ (FacilitatorService.splSchemes self !! network
              = match getRpcEndpoint env network with
                | Return url => Some (SolanaSPLScheme.mk url)
                | Throw _ => None
                end)
          /\ (is_Some (FacilitatorService.transferSchemes self !! network)
              <-> network = "solana-mainnet"%string
                  \/ network = "solana-devnet"%string))
  /\ (forall e,
        Connection.new mainnet = Throw e ->
        FacilitatorService.new env = Throw e)
  /\ (forall e,
        Connection.new mainnet = Return mainnet ->
        Connection.new devnet = Throw e ->
        FacilitatorService.new env = Throw e).
Proof.
  intros Hm Hd.
  assert (Hnew : FacilitatorService.new env
                 = (cm ← Connection.new mainnet;
                    _ ← Connection.new mainnet;
                    cd ← Connection.new devnet;
                    _ ← Connection.new devnet;
                    Return
                      (FacilitatorService.mk
                         (<["solana-devnet"%string
                            := SolanaTransferScheme.mk cd]>
                            (<["solana-mainnet"%string
                               := SolanaTransferScheme.mk cm]> ∅))
                         (<["solana-devnet"%string
                            := SolanaSPLScheme.mk cd]>
                            (<["solana-mainnet"%string
                               := SolanaSPLScheme.mk cm]> ∅))))).
  { unfold FacilitatorService.new, FacilitatorService.initializeSchemes,
      Object_values, SOLANA_NETWORKS, SolanaTransferScheme.new,
      SolanaSPLScheme.new.
    cbn [map snd FacilitatorService.forEach].
    rewrite Hm, Hd. cbn [mbind completion_bind mret completion_ret].
    destruct (Connection.new mainnet) as [cm|e] eqn:Em; [|reflexivity].
    apply Connection_new_accepts in Em as ->.
    destruct (Connection.new devnet) as [cd|e] eqn:Ed; [|reflexivity].
    apply Connection_new_accepts in Ed as ->. reflexivity. }
  rewrite Hnew. split; [|split].
  2:{ intros e ->. reflexivity. }
  2:{ intros e -> ->. reflexivity. }
  intros -> ->. eexists. split; [reflexivity|].
  intros network.
  cbn [FacilitatorService.transferSchemes FacilitatorService.splSchemes].
  destruct (String.eqb_spec network "solana-devnet") as [->|Hdev].
  - rewrite !lookup_insert_eq, Hd.
    split; [done|]. split; [done|]. split; [by right|by eexists].
  - rewrite !lookup_insert_ne by done.
    destruct (String.eqb_spec network "solana-mainnet") as [->|Hmain].
    + rewrite !lookup_insert_eq, Hm.
      split; [done|]. split; [done|]. split; [by left|by eexists].
    + rewrite !lookup_insert_ne, !lookup_empty by done.
      rewrite (proj2 (getRpcEndpoint_networks env network)) by done.
      split; [done|]. split; [done|].
      split; [by intros [? ?]|by intros [?|?]].
Qed.

Lemma facilitator_constructor_witness :
  exists self,
    FacilitatorService.new (fun _ => None) = Return self
    /\ FacilitatorService.transferSchemes self !! "solana-devnet"%string
       = Some (SolanaTransferScheme.mk "https://api.devnet.solana.com").
Proof.
  destruct (facilitator_constructor (fun _ => None)
              "https://api.mainnet-beta.solana.com"
              "https://api.devnet.solana.com" eq_refl eq_refl)
    as [H _].
  destruct (H eq_refl eq_refl) as (self & Hself & Hreg).
  exists self. split; [exact Hself|].
  exact (proj1 (Hreg "solana-devnet"%string)).
Defined.

(** X13.  The engines and the client can be constructed for
    solana-mainnet and solana-devnet only, on the endpoint that
    getRpcEndpoint gives, which is not empty: when [new Connection]
    accepts the endpoint, as it does when the environment sets none, they
    are connected to it, and when it rejects the endpoint the
    constructors throw its TypeError.  For every other network,
    solana-testnet included, the constructors throw an X402Error with the
    code UNSUPPORTED_NETWORK that names the network.  A client built
    without a network, or with an empty one, is built as a devnet
    client. *)
Theorem constructors_and_networks (env : string -> option string)
    (network : string) :
  (network = "solana-mainnet"%string \/ network = "solana-devnet"%string ->
   exists url,
     getRpcEndpoint env network = Return url
     /\ url <> ""%string
     /\ (Connection.new url = Return url ->
         SolanaTransferScheme.new env network
         = Return (SolanaTransferScheme.mk url)
         /\ SolanaSPLScheme.new env network = Return (SolanaSPLScheme.mk url)
         /\ forall facilitatorUrl,
              X402Client.new env facilitatorUrl (Some network)
              = Return (X402Client.mk url
                          (X402Client.or_else facilitatorUrl
                             "http://localhost:3000")
                          network))
     /\ (forall e,
           Connection.new url = Throw e ->
           err_class e = TypeError_
           /\ SolanaTransferScheme.new env network = Throw e
           /\ SolanaSPLScheme.new env network = Throw e
           /\ forall facilitatorUrl,
                X402Client.new env facilitatorUrl (Some network) = Throw e)
     /\ (getRpcEndpoint (fun _ => None) network = Return url ->
         Connection.new url = Return url))
  /\ (network <> "solana-mainnet"%string ->
      network <> "solana-devnet"%string ->
      let error :=
        X402Error ("Unsupported network: " +:+ network)
          "UNSUPPORTED_NETWORK" in
      SolanaTransferScheme.new env network = Throw error
      /\ SolanaSPLScheme.new env network = Throw error
      /\ (network <> ""%string ->
          forall facilitatorUrl,
            X402Client.new env facilitatorUrl (Some network) = Throw error))
  /\ (forall facilitatorUrl,
        X402Client.new env facilitatorUrl (Some ""%string)
        = X402Client.new env facilitatorUrl None
        /\ X402Client.new env facilitatorUrl None
           = X402Client.new env facilitatorUrl (Some "solana-devnet"%string)).
Proof.
  unfold SolanaTransferScheme.new, SolanaSPLScheme.new, X402Client.new.
  split; [|split].
  - intros Hn.
    assert (Hne : Js.falsy network = false) by (by destruct Hn as [->| ->]).
    destruct (getRpcEndpoint_networks env network) as [Hr _].
    destruct (Hr Hn) as (url & Hurl & Hnonempty).
    exists url. rewrite Hurl. cbn [X402Client.or_else]. rewrite Hne, Hurl.
    cbn [mbind completion_bind mret completion_ret].
    split; [reflexivity|]. split; [exact Hnonempty|].
    split; [|split].
    + intros ->. done.
    + intros e He. split; [exact (Connection_new_rejects _ _ He)|].
      rewrite He. done.
    + apply default_endpoints_accepted.
  - intros H1 H2.
    rewrite (proj2 (getRpcEndpoint_networks env network)) by done.
    split; [done|]. split; [done|]. intros Hne facilitatorUrl.
    cbn [X402Client.or_else]. unfold Js.falsy.
    destruct (String.eqb_spec network EmptyString); [done|].
    by rewrite (proj2 (getRpcEndpoint_networks env network)) by done.
  - intros facilitatorUrl. split; reflexivity.
Qed.

Lemma constructors_and_networks_witness :
  SolanaTransferScheme.new (fun _ => None) "solana-testnet"
  = Throw (X402Error "Unsupported network: solana-testnet"
             "UNSUPPORTED_NETWORK").
Proof.
  apply (constructors_and_networks (fun _ => None) "solana-testnet");
    discriminate.
Defined.

(** A value that has the shape of a PaymentPayload is read as it is. *)
Lemma typed_read (v : json) (p : PaymentPayload.t) :
  Wire.typed v = Some p -> Wire.read v = Some p.
Proof.
  destruct v as [| | | | |ms]; try discriminate.
  unfold Wire.typed, Wire.read.
  destruct (Wire.get_integer "x402Version" ms); [|discriminate].
  cbn. destruct (Wire.get_string "scheme" ms); [|discriminate].
  cbn. destruct (Wire.get_string "network" ms); [|discriminate].
  cbn. destruct (Wire.get "payload" ms ≫= Wire.payload_of); [|discriminate].
  done.
Qed.

(** A value that the engines can read has its scheme and its network as
    properties. *)
Lemma read_reads (v : json) (p : PaymentPayload.t) :
  Wire.read v = Some p ->
  Wire.property v "scheme" = Return (Some (JStr (PaymentPayload.scheme p)))
  /\ Wire.property v "network"
     = Return (Some (JStr (PaymentPayload.network p))).
Proof.
  destruct v as [| | | | |ms]; try discriminate.
  unfold Wire.read, Wire.property, Wire.get_string.
  destruct (Wire.get "scheme" ms) as [[]|]; try discriminate.
  destruct (Wire.get "network" ms) as [[]|]; try discriminate.
  cbn. destruct (Wire.get "payload" ms ≫= Wire.payload_of); [|discriminate].
  cbn. by intros [= <-].
Qed.

(** X14.  What the facilitator turns away before any engine runs, and
    without asking anything of the outside: a version that is an integer
    other than 1, printed as the number is; a header that does not
    decode; a header that decodes to null, whose scheme cannot be read;
    and every other decoded value whose scheme or network is not the
    requirement's, or whose scheme is the requirement's and none of the
    two supported ones.  A settlement reports the same reason as its
    error, with no transaction hash and no network id. *)
Theorem facilitator_gatekeeping (self : FacilitatorService.t)
    (x402Version : Z) (paymentHeader : string) (r : Requirement.t)
    (w : World) (t : Trace) :
  let verdict reason :=
    (Return (Some (VerificationResponse.mk false (Some reason))), t) in
  let failure reason :=
    (Return (Some (SettlementResponse.mk false (Some reason) None None)),
     t) in
  let rejected reason :=
    FacilitatorService.verifyPayment self x402Version paymentHeader r w t
    = verdict reason
    /\ FacilitatorService.settlePayment self x402Version paymentHeader r w t
       = failure reason in
  (x402Version <> 1 ->
   rejected ("Unsupported x402 version: "
             +:+ NumberFormat.toString (Number.of_Z x402Version)))
  /\ (x402Version = 1 ->
      JSON.parse (Utf8.decode (Base64.decode paymentHeader)) = None ->
      rejected "Verification failed: Invalid payment payload encoding")
  /\ (x402Version = 1 ->
      decodePaymentPayload paymentHeader = Return JNull ->
      rejected "Verification failed: Cannot read properties of null (reading 'scheme')")
  /\ (forall v scheme network,
        x402Version = 1 ->
        decodePaymentPayload paymentHeader = Return v ->
        Wire.property v "scheme" = Return scheme ->
        Wire.property v "network" = Return network ->
        (Wire.equals scheme (Requirement.scheme r) = false ->
         rejected "Payment scheme mismatch")
        /\ (Wire.equals scheme (Requirement.scheme r) = true ->
            Wire.equals network (Requirement.network r) = false ->
            rejected "Payment network mismatch")
        /\ (Wire.equals scheme (Requirement.scheme r) = true ->
            Wire.equals network (Requirement.network r) = true ->
            Requirement.scheme r <> "solana-transfer"%string ->
            Requirement.scheme r <> "solana-spl"%string ->
            rejected ("Unsupported payment scheme: "
                      +:+ Requirement.scheme r))).
Proof.
  intros verdict failure rejected. subst verdict failure rejected.
  cbv beta.
  assert (Hsettle : forall reason,
            FacilitatorService.verifyPayment self x402Version paymentHeader
              r w t
            = (Return (Some (VerificationResponse.mk false (Some reason))), t)
            -> FacilitatorService.settlePayment self x402Version
                 paymentHeader r w t
               = (Return (Some (SettlementResponse.mk false (Some reason)
                                  None None)), t)).
  { intros reason Hv. unfold FacilitatorService.settlePayment. run_unfold.
    by rewrite Hv. }
  assert (Hboth : forall reason,
            FacilitatorService.verifyPayment self x402Version paymentHeader
              r w t
            = (Return (Some (VerificationResponse.mk false (Some reason))), t)
            -> FacilitatorService.verifyPayment self x402Version
                 paymentHeader r w t
               = (Return (Some (VerificationResponse.mk false (Some reason))),
                  t)
               /\ FacilitatorService.settlePayment self x402Version
                    paymentHeader r w t
                  = (Return (Some (SettlementResponse.mk false (Some reason)
                                     None None)), t)).
  { intros reason Hv. split; [exact Hv|by apply Hsettle]. }
  split; [|split; [|split]].
  - intros Hver. apply Z.eqb_neq in Hver. apply Hboth.
    unfold FacilitatorService.verifyPayment. run_unfold.
    by rewrite Hver.
  - intros Hver Hparse. apply Hboth. subst x402Version.
    unfold FacilitatorService.verifyPayment, decodePaymentPayload.
    run_unfold. by rewrite Hparse.
  - intros Hver Hdec. apply Hboth. subst x402Version.
    unfold FacilitatorService.verifyPayment. run_unfold.
    by rewrite Hdec.
  - intros v scheme network Hver Hdec Hscheme Hnetwork.
    set (gate :=
           if negb (Wire.equals scheme (Requirement.scheme r))
           then Some "Payment scheme mismatch"%string
           else if negb (Wire.equals network (Requirement.network r))
           then Some "Payment network mismatch"%string
           else if Wire.equals scheme SOLANA_SCHEMES_TRANSFER then None
           else if Wire.equals scheme SOLANA_SCHEMES_SPL then None
           else Some ("Unsupported payment scheme: "
                      +:+ Wire.template scheme)%string).
    assert (Hrun : forall reason,
              gate = Some reason ->
              FacilitatorService.verifyPayment self x402Version
                paymentHeader r w t
              = (Return (Some (VerificationResponse.mk false (Some reason))),
                 t)).
    { intros reason. subst x402Version.
      subst gate. unfold FacilitatorService.verifyPayment. run_unfold.
      rewrite Hdec. cbv beta iota zeta. cbn [negb Z.eqb Pos.eqb].
      rewrite Hscheme. cbv beta iota zeta.
      destruct (negb (Wire.equals scheme (Requirement.scheme r)));
        [by intros [= <-]|].
      rewrite Hnetwork. cbv beta iota zeta.
      destruct (negb (Wire.equals network (Requirement.network r)));
        [by intros [= <-]|].
      destruct (Wire.equals scheme SOLANA_SCHEMES_TRANSFER); [discriminate|].
      destruct (Wire.equals scheme SOLANA_SCHEMES_SPL); [discriminate|].
      by intros [= <-]. }
    split; [|split].
    + intros Hs. apply Hboth, Hrun. subst gate. by rewrite Hs.
    + intros Hs Hn. apply Hboth, Hrun. subst gate. by rewrite Hs, Hn.
    + intros Hs Hn H1 H2. apply Hboth, Hrun. subst gate.
      rewrite Hs, Hn. cbn [negb].
      destruct scheme as [[| | |s| |]|]; try discriminate Hs.
      cbn [Wire.equals] in Hs |- *. apply String.eqb_eq in Hs. subst s.
      apply String.eqb_neq in H1, H2.
      unfold SOLANA_SCHEMES_TRANSFER, SOLANA_SCHEMES_SPL.
      by rewrite H1, H2.
Qed.

Lemma facilitator_gatekeeping_witness :
  FacilitatorService.verifyPayment Example.service (10 ^ 21) ""
    (Example.sol_requirement "0.01")
    (Example.world (fun _ => Example.T0) "") []
  = (Return (Some (VerificationResponse.mk false
                     (Some "Unsupported x402 version: 1e+21"%string))), []).
Proof.
  destruct (facilitator_gatekeeping Example.service (10 ^ 21) ""
              (Example.sol_requirement "0.01")
              (Example.world (fun _ => Example.T0) "") []) as [H _].
  exact (proj1 (H ltac:(discriminate))).
Defined.

(** The facilitator reads the header that encodePaymentPayload writes. *)
Lemma decoded_encoded (p : PaymentPayload.t) :
  well_formed_payload p = true ->
  decodePaymentPayload (encodePaymentPayload p) = Return (Wire.object p)
  /\ Wire.typed (Wire.object p) = Some p.
Proof.
  intros Hp. pose proof (well_formed_object_of_payload p Hp) as Hw.
  unfold decodePaymentPayload, encodePaymentPayload.
  rewrite base64_round_trip, utf8_round_trip by (by apply write_valid).
  rewrite json_round_trip by done.
  unfold well_formed_payload in Hp. rewrite !andb_true_iff in Hp.
  rewrite typed_object by tauto. done.
Qed.

(** X15.  Verification through the facilitator is verification by the
    engine: for the header that encodePaymentPayload writes for a
    well-formed payload whose scheme and network are the requirement's,
    the facilitator answers what the engine registered for the network
    answers for that payload (for the SPL scheme at the decimals that
    getTokenDecimals finds), and "Unsupported network: ..." when no
    engine is registered for the network. *)
Theorem facilitator_verifies_as_the_engine (self : FacilitatorService.t)
    (p : PaymentPayload.t) (r : Requirement.t) (w : World) (t : Trace) :
  well_formed_payload p = true ->
  PaymentPayload.scheme p = Requirement.scheme r ->
  PaymentPayload.network p = Requirement.network r ->
  let answer :=
    FacilitatorService.verifyPayment self 1 (encodePaymentPayload p) r w t in
  let response (v : VerifyResult.t) :=
    Some (VerificationResponse.mk (VerifyResult.isValid v)
            (FacilitatorService.or_null (VerifyResult.invalidReason v))) in
  let unsupported :=
    Some (VerificationResponse.mk false
            (Some ("Unsupported network: " +:+ Requirement.network r))) in
  (PaymentPayload.scheme p = "solana-transfer"%string ->
   match FacilitatorService.transferSchemes self !! Requirement.network r
   with
   | Some engine =>
       forall v t',
         SolanaTransferScheme.verifyPayment engine p r w t = (Return v, t') ->
         answer = (Return (response v), t')
   | None => answer = (Return unsupported, t)
   end)
  /\ (PaymentPayload.scheme p = "solana-spl"%string ->
      match FacilitatorService.splSchemes self !! Requirement.network r with
      | Some engine =>
          forall tokenDecimals t0 v t',
            FacilitatorService.getTokenDecimals self (Requirement.asset r)
              (Requirement.network r) w t
            = (Return tokenDecimals, t0) ->
            SolanaSPLScheme.verifyPayment engine p r tokenDecimals w t0
            = (Return v, t') ->
            answer = (Return (response v), t')
      | None => answer = (Return unsupported, t)
      end).
Proof.
  intros Hp Hs Hn answer response unsupported.
  subst answer response unsupported.
  destruct (decoded_encoded p Hp) as [Hd Ht%typed_read].
  destruct (read_reads _ _ Ht) as [Hrs Hrn].
  apply String.eqb_eq in Hs, Hn.
  split; intros Hscheme.
  - unfold FacilitatorService.verifyPayment, FacilitatorService.cast,
      FacilitatorService.verifyTransferPayment, SOLANA_SCHEMES_TRANSFER.
    run_unfold. cbn [negb Z.eqb Pos.eqb]. cbv beta iota zeta.
    rewrite Hd. cbv beta iota zeta. rewrite Hrs. cbv beta iota zeta.
    cbn [Wire.equals]. rewrite Hs. cbn [negb]. cbv beta iota zeta.
    rewrite Hrn. cbv beta iota zeta.
    cbn [Wire.equals]. rewrite Hn. cbn [negb]. cbv beta iota zeta.
    rewrite Hscheme. cbn [String.eqb Ascii.eqb Bool.eqb].
    cbv beta iota zeta. rewrite Ht.
    destruct (FacilitatorService.transferSchemes self !! _) as [engine|];
      [|reflexivity].
    intros v t' ->. reflexivity.
  - unfold FacilitatorService.verifyPayment, FacilitatorService.cast,
      FacilitatorService.verifySPLPayment, SOLANA_SCHEMES_TRANSFER,
      SOLANA_SCHEMES_SPL.
    run_unfold. cbn [negb Z.eqb Pos.eqb]. cbv beta iota zeta.
    rewrite Hd. cbv beta iota zeta. rewrite Hrs. cbv beta iota zeta.
    cbn [Wire.equals]. rewrite Hs. cbn [negb]. cbv beta iota zeta.
    rewrite Hrn. cbv beta iota zeta.
    cbn [Wire.equals]. rewrite Hn. cbn [negb]. cbv beta iota zeta.
    rewrite Hscheme. cbn [String.eqb Ascii.eqb Bool.eqb].
    cbv beta iota zeta. rewrite Ht.
    destruct (FacilitatorService.splSchemes self !! _) as [engine|];
      [|reflexivity].
    intros d t0 v t' -> ->. reflexivity.
Qed.

Lemma facilitator_verifies_as_the_engine_witness :
  FacilitatorService.verifyPayment Example.service 1
    (encodePaymentPayload
       (Example.transfer_payload Example.sig88 "10000000" Example.T0))
    (Example.sol_requirement "0.01")
    (Example.world (fun _ => Example.T0) "") []
  = (Return (Some (VerificationResponse.mk true None)), [DateNow]).
Proof.
  pose proof (proj1 (facilitator_verifies_as_the_engine Example.service
                       (Example.transfer_payload Example.sig88 "10000000"
                          Example.T0)
                       (Example.sol_requirement "0.01")
                       (Example.world (fun _ => Example.T0) "") []
                       eq_refl eq_refl eq_refl) eq_refl) as H.
  vm_compute (FacilitatorService.transferSchemes _ !! _) in H.
  apply (H valid [DateNow]). vm_compute. reflexivity.
Defined.

(** X16.  A settlement through the facilitator verifies the payment
    twice: once through the facilitator's own verification and, when that
    is valid, once more inside the settlement of the engine, which runs on
    the requests made so far.  What the facilitator reports is what the
    engine reports, with the requirement's network as network id; with no
    engine registered for the network it is "Unsupported network: ...". *)
Theorem facilitator_settles_through_the_engine
    (self : FacilitatorService.t) (x402Version : Z) (paymentHeader : string)
    (r : Requirement.t) (w : World) (t t1 : Trace) (reason : option string)
    (v : json) (p : PaymentPayload.t) :
  FacilitatorService.verifyPayment self x402Version paymentHeader r w t
  = (Return (Some (VerificationResponse.mk true reason)), t1) ->
  decodePaymentPayload paymentHeader = Return v ->
  Wire.typed v = Some p ->
  let answer :=
    FacilitatorService.settlePayment self x402Version paymentHeader r w t in
  let response (res : SettleResult.t) :=
    Some (SettlementResponse.mk (SettleResult.success res)
            (FacilitatorService.or_null (SettleResult.error res))
            (FacilitatorService.or_null (SettleResult.txHash res))
            (Some (Requirement.network r))) in
  (PaymentPayload.scheme p = "solana-transfer"%string ->
   forall engine res t2,
     FacilitatorService.transferSchemes self !! Requirement.network r
     = Some engine ->
     SolanaTransferScheme.settlePayment engine p r w t1 = (Return res, t2) ->
     answer = (Return (response res), t2))
  /\ (PaymentPayload.scheme p = "solana-spl"%string ->
      forall engine tokenDecimals t1' res t2,
        FacilitatorService.splSchemes self !! Requirement.network r
        = Some engine ->
        FacilitatorService.getTokenDecimals self (Requirement.asset r)
          (Requirement.network r) w t1
        = (Return tokenDecimals, t1') ->
        SolanaSPLScheme.settlePayment engine p r tokenDecimals w t1'
        = (Return res, t2) ->
        answer = (Return (response res), t2)).
Proof.
  intros Hv Hd Ht%typed_read answer response. subst answer response.
  destruct (read_reads _ _ Ht) as [Hrs _].
  unfold FacilitatorService.settlePayment, FacilitatorService.cast,
    SOLANA_SCHEMES_TRANSFER, SOLANA_SCHEMES_SPL.
  run_unfold. rewrite Hv. cbv beta iota zeta.
  cbn [negb VerificationResponse.isValid]. rewrite Hd.
  cbv beta iota zeta. rewrite Hrs. cbv beta iota zeta. rewrite Ht.
  cbn [Wire.equals].
  split; intros Hs.
  - intros engine res t2 He Hrun. rewrite Hs.
    cbn [String.eqb Ascii.eqb Bool.eqb]. cbv beta iota zeta.
    unfold FacilitatorService.settleTransferPayment. run_unfold.
    by rewrite He, Hrun.
  - intros engine d t1' res t2 He Hdec Hrun. rewrite Hs.
    cbn [String.eqb Ascii.eqb Bool.eqb]. cbv beta iota zeta.
    unfold FacilitatorService.settleSPLPayment. run_unfold.
    by rewrite He, Hdec, Hrun.
Qed.

Lemma facilitator_settles_through_the_engine_witness :
  FacilitatorService.settlePayment Example.service 1
    (encodePaymentPayload
       (Example.transfer_payload Example.sig88 "10000000" Example.T0))
    (Example.sol_requirement "0.01")
    (Example.world (fun _ => Example.T0) Example.sig88) []
  = (Return (Some (SettlementResponse.mk true None (Some Example.sig88)
                     (Some "solana-devnet"%string))),
     [DateNow; DateNow;
      GetTransaction "https://api.devnet.solana.com" Example.sig88]).
Proof.
  destruct (facilitator_settles_through_the_engine Example.service 1
              (encodePaymentPayload
                 (Example.transfer_payload Example.sig88 "10000000"
                    Example.T0))
              (Example.sol_requirement "0.01")
              (Example.world (fun _ => Example.T0) Example.sig88)
              [] [DateNow] None
              (Wire.object
                 (Example.transfer_payload Example.sig88 "10000000"
                    Example.T0))
              (Example.transfer_payload Example.sig88 "10000000" Example.T0)
              ltac:(vm_compute; reflexivity) ltac:(vm_compute; reflexivity)
              ltac:(vm_compute; reflexivity)) as [H _].
  apply (H eq_refl Example.devnet
           (SettleResult.mk true (Some Example.sig88) None));
    vm_compute; reflexivity.
Defined.

(** X17.  getTokenMintInfo makes at most one request, for the parsed
    account of the mint.  It returns the decimals and the supply exactly
    when the mint is a valid address, the node answers with parsed data
    and the supply reads as an integer; in every other case it throws a
    SolanaPaymentError whose message starts with "Failed to get mint
    info: ". *)
Theorem getTokenMintInfo_outcomes (self : SolanaSPLScheme.t) (mint : string)
    (w : World) (t : Trace) :
  let endpoint := SolanaSPLScheme.connection self in
  let run := SolanaSPLScheme.getTokenMintInfo self mint w t in
  (forall decimals supply,
     fst run = Return (decimals, supply) <->
     exists key text,
       toPublicKey mint = Return key
       /\ getParsedAccountInfo w t endpoint key
          = Return (Some (ParsedData decimals text))
       /\ BigInt.of_string text = Return supply)
  /\ (forall e, fst run = Throw e ->
        err_class e = SolanaPaymentError_
        /\ err_code e = Some "SOLANA_PAYMENT_ERROR"%string
        /\ exists cause,
             err_message e = ("Failed to get mint info: " +:+ cause)%string)
  /\ (snd run = t
      \/ exists key,
           toPublicKey mint = Return key
           /\ snd run = t ++ [GetParsedAccountInfo endpoint key]).
Proof.
  intros endpoint run. subst endpoint run.
  unfold SolanaSPLScheme.getTokenMintInfo. run_unfold.
  destruct (toPublicKey mint) as [key|e0]; cbv beta iota zeta.
  2:{ split; [|split].
      - intros d s. split; [discriminate|].
        by intros (key & text & [=] & _).
      - intros e [= <-]. cbn. eauto.
      - by left. }
  destruct (getParsedAccountInfo w t _ key) as [[[|d text]|]|e1] eqn:Hnode;
    cbv beta iota zeta.
  1,3,4:
    (split; [|split];
     [ intros d' s'; split; [discriminate|];
       intros (key' & text' & [= <-] & Hn' & _); rewrite Hnode in Hn';
       discriminate
     | intros e [= <-]; cbn; eauto
     | right; eauto ]).
  destruct (BigInt.of_string text) as [supply|e2] eqn:Hs; cbv beta iota zeta.
  - split; [|split]; [|discriminate|right; eauto].
    intros d' s'. cbn [fst]. split.
    + intros [= <- <-]. eauto.
    + intros (key' & text' & [= <-] & Hn' & Hs'). rewrite Hnode in Hn'.
      injection Hn' as <- <-. rewrite Hs in Hs'. by injection Hs' as <-.
  - split; [|split]; [|intros e [= <-]; cbn; eauto|right; eauto].
    intros d' s'. split; [discriminate|].
    intros (key' & text' & [= <-] & Hn' & Hs'). rewrite Hnode in Hn'.
    injection Hn' as <- <-. rewrite Hs in Hs'. discriminate.
Qed.

(** X18.  getTokenDecimals never throws.  For the two USDC mints it
    answers 6 and asks nothing; for any other mint it answers the decimals
    that getTokenMintInfo returns, and 9 whenever that throws or no engine
    is registered for the network. *)
Theorem getTokenDecimals_outcomes (self : FacilitatorService.t)
    (mint network : string) (w : World) (t : Trace) :
  let run := FacilitatorService.getTokenDecimals self mint network w t in
  (mint = USDC_MINT_MAINNET \/ mint = USDC_MINT_DEVNET ->
   run = (Return 6, t))
  /\ (mint <> USDC_MINT_MAINNET -> mint <> USDC_MINT_DEVNET ->
      match FacilitatorService.splSchemes self !! network with
      | None => run = (Return 9, t)
      | Some engine =>
          match SolanaSPLScheme.getTokenMintInfo engine mint w t with
          | (Return (decimals, _), t') => run = (Return decimals, t')
          | (Throw _, t') => run = (Return 9, t')
          end
      end)
  /\ exists decimals t', run = (Return decimals, t').
Proof.
  intros run. subst run. unfold FacilitatorService.getTokenDecimals.
  split; [|split].
  - intros [->| ->]; reflexivity.
  - intros H1%String.eqb_neq H2%String.eqb_neq. rewrite H1, H2.
    cbn [orb]. run_unfold.
    destruct (FacilitatorService.splSchemes self !! network) as [engine|];
      [|reflexivity].
    by destruct (SolanaSPLScheme.getTokenMintInfo engine mint w t)
      as [[[d s]|e] t'].
  - destruct (String.eqb mint USDC_MINT_MAINNET
              || String.eqb mint USDC_MINT_DEVNET); [by eexists _, _|].
    run_unfold.
    destruct (FacilitatorService.splSchemes self !! network) as [engine|];
      [|by eexists _, _].
    destruct (SolanaSPLScheme.getTokenMintInfo engine mint w t)
      as [[[d s]|e] t']; by eexists _, _.
Qed.

Lemma getTokenDecimals_outcomes_witness :
  FacilitatorService.getTokenDecimals Example.service USDC_MINT_DEVNET
    "solana-devnet" (Example.world (fun _ => Example.T0) "") []
  = (Return 6, []).
Proof.
  exact (proj1 (getTokenDecimals_outcomes Example.service USDC_MINT_DEVNET
                  "solana-devnet" (Example.world (fun _ => Example.T0) "")
                  [])
           (or_intror eq_refl)).
Defined.

(** ** facilitator: what the answers look like *)

Lemma or_null_reason (reason : string) :
  reason <> ""%string -> FacilitatorService.or_null (Some reason) = Some reason.
Proof.
  intros H. cbn. unfold Js.falsy.
  by destruct (String.eqb_spec reason EmptyString).
Qed.

Lemma equals_true (v : option json) (s : string) :
  Wire.equals v s = true -> v = Some (JStr s).
Proof.
  destruct v as [[| | |x| |]|]; try discriminate. cbn.
  by intros ->%String.eqb_eq.
Qed.

Lemma unshaped_intro (paymentHeader : string) (r : Requirement.t)
    (v : json) (scheme network : option json) :
  decodePaymentPayload paymentHeader = Return v ->
  Wire.property v "scheme" = Return scheme ->
  negb (Wire.equals scheme (Requirement.scheme r)) = false ->
  Wire.property v "network" = Return network ->
  negb (Wire.equals network (Requirement.network r)) = false ->
  Wire.equals scheme SOLANA_SCHEMES_TRANSFER = true
  \/ Wire.equals scheme SOLANA_SCHEMES_SPL = true ->
  Wire.read v = None ->
  unshaped paymentHeader r.
Proof.
  intros Hd Hs Es%negb_false_iff%equals_true Hn En%negb_false_iff%equals_true
    Hk Ht.
  subst scheme network. exists v. repeat split; try assumption.
  cbn [Wire.equals] in Hk.
  destruct Hk as [Hk|Hk]; apply String.eqb_eq in Hk; [by left|by right].
Qed.

Lemma facilitator_verify_answer self x402Version paymentHeader r w t :
  exists answer t',
    FacilitatorService.verifyPayment self x402Version paymentHeader r w t
    = (Return answer, t')
    /\ (forall response, answer = Some response -> answers_coherently response)
    /\ (answer = None -> unshaped paymentHeader r).
Proof.
  unfold FacilitatorService.verifyPayment, FacilitatorService.cast,
    FacilitatorService.verifyTransferPayment,
    FacilitatorService.verifySPLPayment.
  run_unfold.
  repeat run_case;
    repeat match goal with
      | H : SolanaTransferScheme.verifyPayment ?e ?p ?r ?w ?t = _ |- _ =>
          destruct (transfer_verify_verdict e p r w t)
            as (? & ? & Hv & [->|(? & -> & ?)]);
          rewrite H in Hv; clear H;
          first [discriminate Hv | injection Hv as -> ->]
      | H : SolanaSPLScheme.verifyPayment ?e ?p ?r ?d ?w ?t = _ |- _ =>
          destruct (spl_verify_verdict e p r d w t)
            as (? & ? & Hv & [->|(? & -> & ?)]);
          rewrite H in Hv; clear H;
          first [discriminate Hv | injection Hv as -> ->]
      end;
    eexists _, _; (split; [reflexivity|]);
    (split;
     [|intros Hnone;
       first
         [ discriminate Hnone
         | eapply unshaped_intro; try eassumption;
           first [left; eassumption | right; eassumption] ]]);
    intros response Hresponse;
    try discriminate Hresponse; injection Hresponse as <-;
    first
      [ by left
      | right; split; [reflexivity|];
        cbn [VerificationResponse.invalidReason];
        first
          [ eexists; split; [reflexivity|discriminate]
          | match goal with
            | H : ?x <> ""%string |- _ =>
                unfold FacilitatorService.or_null, Js.falsy;
                destruct (String.eqb_spec x EmptyString); [done|];
                eexists; split; [reflexivity|done]
            end ] ].
Qed.

(** A payment that the facilitator verifies as valid is one that the
    engines can read. *)
Lemma facilitator_verify_valid self x402Version paymentHeader r w t
    response t1 :
  FacilitatorService.verifyPayment self x402Version paymentHeader r w t
  = (Return (Some response), t1) ->
  VerificationResponse.isValid response = true ->
  exists v p,
    decodePaymentPayload paymentHeader = Return v /\ Wire.read v = Some p.
Proof.
  unfold FacilitatorService.verifyPayment, FacilitatorService.cast.
  run_unfold.
  repeat run_case; intros [= <- <-]; try discriminate; intros _;
    by eexists _, _.
Qed.

Lemma facilitator_settle_answer self x402Version paymentHeader r w t :
  exists answer t',
    FacilitatorService.settlePayment self x402Version paymentHeader r w t
    = (Return answer, t')
    /\ (forall response,
          answer = Some response -> settles_coherently r response)
    /\ (answer = None -> unshaped paymentHeader r).
Proof.
  unfold FacilitatorService.settlePayment, FacilitatorService.cast,
    FacilitatorService.settleTransferPayment,
    FacilitatorService.settleSPLPayment.
  run_unfold.
  destruct (facilitator_verify_answer self x402Version paymentHeader r w t)
    as (answer & t1 & Hv & Hc & Hu).
  rewrite Hv. cbv beta iota zeta. destruct answer as [verification|].
  2:{ eexists _, _. split; [reflexivity|]. split; [discriminate|].
      intros _. by apply Hu. }
  clear Hu.
  destruct (Hc verification eq_refl) as [[Hvalid _]|(Hvalid & reason & Hr & Hne)];
    rewrite Hvalid; cbn [negb]; cbv beta iota zeta.
  2:{ eexists _, _. split; [reflexivity|]. split; [|discriminate].
      intros response [= <-].
      right. cbn. rewrite Hr. repeat split. exists reason. by split. }
  destruct (facilitator_verify_valid _ _ _ _ _ _ _ _ Hv Hvalid)
    as (v & p & Hd & Ht).
  destruct (read_reads _ _ Ht) as [Hrs _].
  rewrite Hd. cbv beta iota zeta. rewrite Hrs. cbv beta iota zeta.
  rewrite Ht.
  repeat run_case;
    repeat match goal with
      | H : SolanaTransferScheme.settlePayment ?e ?p ?r ?w ?t = _ |- _ =>
          destruct (transfer_settle_report e p r w t)
            as (? & ? & Hs & Hrep);
          rewrite H in Hs; clear H;
          first [discriminate Hs | injection Hs as -> ->]
      | H : SolanaSPLScheme.settlePayment ?e ?p ?r ?d ?w ?t = _ |- _ =>
          destruct (spl_settle_report e p r d w t)
            as (? & ? & Hs & Hrep);
          rewrite H in Hs; clear H;
          first [discriminate Hs | injection Hs as -> ->]
      end;
    eexists _, _; (split; [reflexivity|]);
    (split; [|discriminate]);
    intros response Hresponse;
    try discriminate Hresponse; injection Hresponse as <-;
    lazymatch goal with
    | Hrep : reports_coherently _ |- _ =>
        cbv [settles_coherently];
        cbn [SettlementResponse.success SettlementResponse.error
             SettlementResponse.txHash SettlementResponse.networkId];
        destruct Hrep as [(Hs & _ & He)|(Hs & Hh & reason & He & Hne)];
        rewrite Hs, He, ?Hh, ?or_null_reason by done;
        cbn [FacilitatorService.or_null];
        [ by left | right; repeat split; exists reason; by split ]
    | _ =>
        right; cbn; repeat split; eexists; split; [reflexivity|discriminate]
    end.
Qed.

(** X19.  Take any version, header and requirement, other than the
    headers on which the facilitator hands an engine a value whose
    payload is absent or has not the shape of the interface (the decoded
    value then carries the requirement's scheme, one of the two
    supported, and the requirement's network), which are left open.
    Then a verification and a settlement by the facilitator do not
    throw.  A verification answers either valid with no reason or
    invalid with a reason that is not empty, and makes no request that
    changes the chain.  A settlement answers either success with no
    error and the requirement's network as network id, or failure with
    an error message that is not empty and no transaction hash. *)
Theorem facilitator_answers_coherently (self : FacilitatorService.t)
    (x402Version : Z) (paymentHeader : string) (r : Requirement.t)
    (w : World) (t : Trace) :
  (exists answer t',
     FacilitatorService.verifyPayment self x402Version paymentHeader r w t
     = (Return answer, t')
     /\ (forall response,
           answer = Some response -> answers_coherently response)
     /\ (answer = None -> unshaped paymentHeader r)
     /\ forall endpoint transaction,
          ~ In (SendRawTransaction endpoint transaction) (added t t'))
  /\ (exists answer t',
        FacilitatorService.settlePayment self x402Version paymentHeader r w t
        = (Return answer, t')
        /\ (forall response,
              answer = Some response -> settles_coherently r response)
        /\ (answer = None -> unshaped paymentHeader r)).
Proof.
  split; [|apply facilitator_settle_answer].
  destruct (facilitator_verify_answer self x402Version paymentHeader r w t)
    as (answer & t' & Hv & Hc & Hu).
  exists answer, t'. split; [exact Hv|]. split; [exact Hc|].
  split; [exact Hu|].
  destruct (facilitator_verify_reads self x402Version paymentHeader r w t)
    as (s & Es & Fs).
  rewrite Hv in Es. cbn [snd] in Es. subst t'. rewrite added_app.
  by apply no_submission.
Qed.
(** ** solana-scheme: what a verification does not look at *)

Lemma long_signature_not_empty (s : string) :
  87 <= Js.length s -> Js.falsy s || (Js.length s <? 87) = false.
Proof.
  intros H. unfold Js.falsy.
  destruct (String.eqb_spec s EmptyString) as [->|]; [cbn in H; lia|].
  by apply Z.ltb_ge.
Qed.

(** X20.  The verdict of an engine depends on the signature only
    through its length, and not at all on the nonce, on the payload's
    network or version, or on the requirement's scheme and network: two
    payloads with signatures of at least 87 characters that agree on
    scheme, sender, amount and timestamp (for the SPL engine also on the
    mint and the token accounts) get the same verdict against
    requirements that agree on payTo and maxAmountRequired (for the SPL
    engine also on the asset), from any engine of the scheme. *)
Theorem verify_ignores (p p' : PaymentPayload.t) (r r' : Requirement.t)
    (w : World) (t : Trace) :
  let q := PaymentPayload.payload p in
  let q' := PaymentPayload.payload p' in
  87 <= Js.length (SolanaPayload.signature q) ->
  87 <= Js.length (SolanaPayload.signature q') ->
  PaymentPayload.scheme p = PaymentPayload.scheme p' ->
  SolanaPayload.from q = SolanaPayload.from q' ->
  SolanaPayload.amount q = SolanaPayload.amount q' ->
  SolanaPayload.timestamp q = SolanaPayload.timestamp q' ->
  Requirement.payTo r = Requirement.payTo r' ->
  Requirement.maxAmountRequired r = Requirement.maxAmountRequired r' ->
  (forall self self',
     SolanaTransferScheme.verifyPayment self p r w t
     = SolanaTransferScheme.verifyPayment self' p' r' w t)
  /\ (SolanaPayload.mint q = SolanaPayload.mint q' ->
      SolanaPayload.fromTokenAccount q = SolanaPayload.fromTokenAccount q' ->
      SolanaPayload.toTokenAccount q = SolanaPayload.toTokenAccount q' ->
      Requirement.asset r = Requirement.asset r' ->
      forall self self' tokenDecimals,
        SolanaSPLScheme.verifyPayment self p r tokenDecimals w t
        = SolanaSPLScheme.verifyPayment self' p' r' tokenDecimals w t).
Proof.
  intros q q' Hl Hl' Hs Hf Ha Ht Hp Hm. subst q q'.
  apply long_signature_not_empty in Hl, Hl'.
  split.
  - intros self self'. unfold SolanaTransferScheme.verifyPayment.
    by rewrite Hl, Hl', Hs, Hf, Ha, Ht, Hp, Hm.
  - intros Hmint Hfa Hta Hasset self self' d.
    unfold SolanaSPLScheme.verifyPayment.
    by rewrite Hl, Hl', Hs, Hf, Ha, Ht, Hp, Hm, Hmint, Hfa, Hta, Hasset.
Qed.

Lemma verify_ignores_witness :
  SolanaTransferScheme.verifyPayment Example.devnet
    (Example.transfer_payload Example.sig88 "10000000" Example.T0)
    (Example.sol_requirement "0.01")
    (Example.world (fun _ => Example.T0) "") []
  = SolanaTransferScheme.verifyPayment
      (SolanaTransferScheme.mk "https://api.mainnet-beta.solana.com")
      (PaymentPayload.mk 7 "solana-transfer" "solana-mainnet"
         (SolanaPayload.mk Example.wallet Example.sig89 "10000000" Example.T0
            None None None None))
      (Example.requirement "solana-spl" "solana-testnet" "0.01"
         Example.merchant "not SOL")
      (Example.world (fun _ => Example.T0) "") [].
Proof.
  exact (proj1 (verify_ignores
                  (Example.transfer_payload Example.sig88 "10000000"
                     Example.T0)
                  (PaymentPayload.mk 7 "solana-transfer" "solana-mainnet"
                     (SolanaPayload.mk Example.wallet Example.sig89
                        "10000000" Example.T0 None None None None))
                  (Example.sol_requirement "0.01")
                  (Example.requirement "solana-spl" "solana-testnet" "0.01"
                     Example.merchant "not SOL")
                  (Example.world (fun _ => Example.T0) "") []
                  ltac:(by vm_compute) ltac:(by vm_compute)
                  eq_refl eq_refl eq_refl eq_refl eq_refl eq_refl)
           Example.devnet
           (SolanaTransferScheme.mk "https://api.mainnet-beta.solana.com")).
Defined.

(** ** client-sdk: the choice of a requirement *)

Lemma find_filter {A} (f g : A -> bool) (l : list A) :
  List.find f (List.filter g l) = List.find (fun x => g x && f x) l.
Proof.
  induction l as [|x l IH]; [done|]. cbn.
  destruct (g x); cbn; [destruct (f x); done|done].
Qed.

Lemma head_filter {A} (g : A -> bool) (l : list A) :
  head (List.filter g l) = List.find g l.
Proof.
  induction l as [|x l IH]; [done|]. cbn. by destruct (g x).
Qed.

Lemma find_agree {A} (f g : A -> bool) (l : list A) :
  (forall x, In x l -> f x = g x) -> List.find f l = List.find g l.
Proof.
  induction l as [|x l IH]; [done|]. intros H. cbn.
  rewrite (H x) by (by left). rewrite IH; [done|].
  intros y Hy. apply H. by right.
Qed.

(** X21.  The client chooses the first requirement on its own network
    whose scheme is solana-transfer; when there is none, the first on its
    network whose scheme is solana-spl; and none when there is neither.
    The choice is always one of the requirements offered. *)
Theorem selectPaymentRequirement_choice (self : X402Client.t)
    (requirements : list Requirement.t) :
  let offered scheme req :=
    String.eqb (Requirement.network req) (X402Client.network self)
    && String.eqb (Requirement.scheme req) scheme in
  X402Client.selectPaymentRequirement self requirements
  = match List.find (offered "solana-transfer"%string) requirements with
    | Some req => Some req
    | None => List.find (offered "solana-spl"%string) requirements
    end
  /\ forall req,
       X402Client.selectPaymentRequirement self requirements = Some req ->
       In req requirements
       /\ Requirement.network req = X402Client.network self
       /\ (Requirement.scheme req = "solana-transfer"%string
           \/ Requirement.scheme req = "solana-spl"%string).
Proof.
  intros offered.
  assert (Hsel : X402Client.selectPaymentRequirement self requirements
    = match List.find (offered "solana-transfer"%string) requirements with
      | Some req => Some req
      | None => List.find (offered "solana-spl"%string) requirements
      end).
  { unfold X402Client.selectPaymentRequirement, SOLANA_SCHEMES_TRANSFER,
      SOLANA_SCHEMES_SPL.
    set (P := fun req : Requirement.t =>
                String.eqb (Requirement.network req) (X402Client.network self)
                && (String.eqb (Requirement.scheme req) "solana-transfer"
                    || String.eqb (Requirement.scheme req) "solana-spl")).
    rewrite find_filter, head_filter.
    assert (Hfind : List.find
                      (fun x => P x
                         && String.eqb (Requirement.scheme x) "solana-transfer")
                      requirements
                    = List.find (offered "solana-transfer"%string)
                        requirements).
    { apply find_agree. intros x _. subst P offered. cbv beta.
      destruct (String.eqb (Requirement.network x) _); [|done].
      by destruct (String.eqb (Requirement.scheme x) "solana-transfer"),
        (String.eqb (Requirement.scheme x) "solana-spl"). }
    rewrite Hfind.
    destruct (List.filter P requirements) as [|y l] eqn:Hfilter.
    - cbn [List.length Nat.eqb].
      assert (Hnone : forall x, In x requirements -> P x = false).
      { intros x Hx. destruct (P x) eqn:HP; [|done].
        assert (Hin : In x (List.filter P requirements))
          by (apply List.filter_In; by split).
        rewrite Hfilter in Hin. destruct Hin. }
      rewrite (find_agree (offered "solana-transfer"%string) P),
        (find_agree (offered "solana-spl"%string) P).
      + by destruct (List.find P requirements) eqn:Hf;
          [apply List.find_some in Hf as [Hin HP];
           rewrite (Hnone _ Hin) in HP|].
      + intros x Hx. rewrite (Hnone x Hx). subst P offered. cbv beta in *.
        specialize (Hnone x Hx). cbv beta in Hnone.
        destruct (String.eqb (Requirement.network x) _); [|done].
        cbn in *. by apply orb_false_iff in Hnone as [_ ->].
      + intros x Hx. rewrite (Hnone x Hx). subst P offered. cbv beta in *.
        specialize (Hnone x Hx). cbv beta in Hnone.
        destruct (String.eqb (Requirement.network x) _); [|done].
        cbn in *. by apply orb_false_iff in Hnone as [-> _].
    - cbn [List.length Nat.eqb].
      destruct (List.find (offered "solana-transfer"%string) requirements)
        as [req|] eqn:Ht; [done|].
      apply find_agree. intros x Hx.
      pose proof (List.find_none _ _ Ht x Hx) as Hx'.
      subst P offered. cbv beta in *.
      destruct (String.eqb (Requirement.network x) _); [|done].
      cbn in *. by rewrite Hx'. }
  split; [exact Hsel|]. intros req. rewrite Hsel.
  destruct (List.find (offered "solana-transfer"%string) requirements)
    as [req'|] eqn:Ht.
  - intros [= <-]. apply List.find_some in Ht as [Hin Ho].
    subst offered. cbv beta in Ho.
    apply andb_true_iff in Ho as [Hn Hs%String.eqb_eq].
    apply String.eqb_eq in Hn. auto.
  - intros Hs. apply List.find_some in Hs as [Hin Ho].
    subst offered. cbv beta in Ho.
    apply andb_true_iff in Ho as [Hn Hs%String.eqb_eq].
    apply String.eqb_eq in Hn. auto.
Qed.

Lemma selectPaymentRequirement_choice_witness :
  X402Client.selectPaymentRequirement
    (X402Client.mk "https://api.devnet.solana.com" "http://localhost:3000"
       "solana-devnet")
    [Example.usdc_requirement "1.00"; Example.sol_requirement "0.01"]
  = Some (Example.sol_requirement "0.01").
Proof.
  rewrite (proj1 (selectPaymentRequirement_choice
                    (X402Client.mk "https://api.devnet.solana.com"
                       "http://localhost:3000" "solana-devnet")
                    [Example.usdc_requirement "1.00";
                     Example.sol_requirement "0.01"])).
  reflexivity.
Defined.

(** ** core/utils.ts: the header *)

Lemma base64_digit_member (v : Z) :
  0 <= v < 64 ->
  In (Base64.digit v) (list_ascii_of_string BASE64_CHARACTERS).
Proof.
  intros Hv.
  assert (H : existsb (Ascii.eqb (Base64.digit v))
                (list_ascii_of_string BASE64_CHARACTERS) = true).
  { replace v with (Z.of_nat (Z.to_nat v)) by lia.
    assert (Hn : (Z.to_nat v < 64)%nat) by lia.
    revert Hn. generalize (Z.to_nat v). intros n Hn.
    do 64 (destruct n as [|n]; [reflexivity|]). lia. }
  apply existsb_exists in H as (c & Hin & Hc).
  apply Ascii.eqb_eq in Hc. by subst.
Qed.

Lemma base64_encode_shape (b : Buffer) :
  (String.length (Base64.encode b) mod 4 = 0)%nat
  /\ forall c, In c (list_ascii_of_string (Base64.encode b)) ->
       In c (list_ascii_of_string BASE64_CHARACTERS).
Proof.
  induction b as [| x | x y | x y z r [IHl IHc]] using list_ind3.
  - split; [done|]. intros c [].
  - pose proof (code_range x).
    split; [done|]. cbn [Base64.encode list_ascii_of_string In].
    intros c [<-|[<-|[<-|[<-|[]]]]];
      first [ apply base64_digit_member; Z.div_mod_to_equations; lia
            | vm_compute; tauto ].
  - pose proof (code_range x). pose proof (code_range y).
    split; [done|]. cbn [Base64.encode list_ascii_of_string In].
    intros c [<-|[<-|[<-|[<-|[]]]]];
      first [ apply base64_digit_member; Z.div_mod_to_equations; lia
            | vm_compute; tauto ].
  - pose proof (code_range x). pose proof (code_range y).
    pose proof (code_range z).
    cbn [Base64.encode String.length list_ascii_of_string In]. split.
    + replace (S (S (S (S (String.length (Base64.encode r))))))
        with (String.length (Base64.encode r) + 1 * 4)%nat by lia.
      by rewrite Nat.Div0.mod_add.
    + intros c [<-|[<-|[<-|[<-|Hc]]]]; [..|by apply IHc];
        apply base64_digit_member; Z.div_mod_to_equations; lia.
Qed.

(** X22.  The header that encodePaymentPayload writes, for any payload
    at all, is not empty, has a length that is a multiple of four and
    holds only characters of the standard base64 alphabet and the padding
    '='. *)
Theorem header_is_base64 (p : PaymentPayload.t) :
  encodePaymentPayload p <> ""%string
  /\ (String.length (encodePaymentPayload p) mod 4 = 0)%nat
  /\ forall c, In c (list_ascii_of_string (encodePaymentPayload p)) ->
       In c (list_ascii_of_string BASE64_CHARACTERS).
Proof.
  split; [|apply base64_encode_shape].
  unfold encodePaymentPayload, JSON.stringify, Wire.object, Utf8.encode.
  rewrite write_object. cbn [list_ascii_of_string].
  by destruct (list_ascii_of_string _) as [|y [|z r]].
Qed.

(** ** solana-scheme: settling again *)

(** X23.  The probe for the payload's signature is the only protection
    against settling twice: as long as the node does not know that
    signature, and accepts and confirms what it is sent, every settlement
    of a valid payment by the transfer engine submits the transfer, so
    that settling again submits it again.  This is for a payment whose
    lamports, those of [Number(BigInt(payload.amount))], fit an unsigned
    64-bit integer, and a node whose blockhash lets the transaction
    serialize. *)
Theorem settle_again_submits_again (self : SolanaTransferScheme.t)
    (p : PaymentPayload.t) (r : Requirement.t) (w : World)
    (fromPubkey toPubkey : PublicKey) (amount lamports : Z)
    (blockhash signature : string) (t : Trace) :
  let endpoint := SolanaTransferScheme.connection self in
  let payload := PaymentPayload.payload p in
  let transaction :=
    Transaction.mk [SystemTransfer fromPubkey toPubkey lamports]
      (Some blockhash) (Some fromPubkey) in
  let first := SolanaTransferScheme.settlePayment self p r w t in
  let second := SolanaTransferScheme.settlePayment self p r w (snd first) in
  TransferChecks.before_freshness p r = true ->
  (forall t', date_now w t' - SolanaPayload.timestamp payload <= 300000) ->
  (forall t',
     getTransaction w t' endpoint (SolanaPayload.signature payload)
     = Return None) ->
  toPublicKey (SolanaPayload.from payload) = Return fromPubkey ->
  toPublicKey (Requirement.payTo r) = Return toPubkey ->
  BigInt.of_string (SolanaPayload.amount payload) = Return amount ->
  Number.to_integer (Number.of_Z amount) = Some lamports ->
  0 <= lamports < 2 ^ 64 ->
  (forall t', getLatestBlockhash w t' endpoint = Return blockhash) ->
  Transaction.serialize transaction = Return tt ->
  (forall t', sendRawTransaction w t' endpoint transaction = Return signature) ->
  (forall t', confirmTransaction w t' endpoint signature = Return tt) ->
  fst first = Return (SettleResult.mk true (Some signature) None)
  /\ fst second = Return (SettleResult.mk true (Some signature) None)
  /\ List.filter mutates (added t (snd second))
     = [SendRawTransaction endpoint transaction;
        SendRawTransaction endpoint transaction].
Proof.
  intros endpoint payload transaction first second
    Hchecks Hage Hprobe Hf Ht Ha Hn Hr Hb Hz Hs Hc.
  apply u64_range in Hr.
  assert (Hrun : forall t',
            SolanaTransferScheme.settlePayment self p r w t'
            = (Return (SettleResult.mk true (Some signature) None),
               t' ++ [DateNow;
                      GetTransaction endpoint
                        (SolanaPayload.signature payload);
                      GetLatestBlockhash endpoint;
                      SendRawTransaction endpoint transaction;
                      ConfirmTransaction endpoint signature])).
  { intros t'. pose proof (transfer_verify_fresh self p r w t' Hchecks) as Hv.
    destruct (Z.gtb_spec (date_now w t'
                          - SolanaPayload.timestamp (PaymentPayload.payload p))
                maxAge) as [Hgt|_];
      [specialize (Hage t'); subst payload; unfold maxAge in Hgt; lia|].
    subst endpoint payload transaction.
    unfold SolanaTransferScheme.settlePayment, SystemProgram_transfer, u64,
      BigInt.of_number.
    run_unfold.
    rewrite Hv. cbv beta iota zeta. cbn [negb VerifyResult.isValid valid].
    rewrite Hprobe. cbv beta iota zeta.
    change (bool_decide (is_Some (@None TransactionResponse))) with false.
    cbv beta iota zeta. rewrite Hf, Ht, Ha. cbv beta iota zeta.
    rewrite Hn. cbv beta iota zeta. rewrite Hr. cbv beta iota zeta.
    rewrite Hb. cbv beta iota zeta. rewrite Hz. cbv beta iota zeta.
    rewrite Hs. cbv beta iota zeta.
    rewrite Hc. cbv beta iota zeta. by rewrite <- !app_assoc. }
  subst first second. rewrite !Hrun. cbn [fst snd].
  split; [done|]. split; [done|].
  rewrite <- app_assoc, added_app. reflexivity.
Qed.

Lemma settle_again_submits_again_witness :
  List.length
    (List.filter mutates
       (snd (SolanaTransferScheme.settlePayment Example.devnet
               (Example.transfer_payload Example.sig88 "10000000" Example.T0)
               (Example.sol_requirement "0.01")
               (Example.world (fun _ => Example.T0) "")
               (snd (SolanaTransferScheme.settlePayment Example.devnet
                       (Example.transfer_payload Example.sig88 "10000000"
                          Example.T0)
                       (Example.sol_requirement "0.01")
                       (Example.world (fun _ => Example.T0) "") [])))))
  = 2%nat.
Proof.
  destruct (settle_again_submits_again Example.devnet
              (Example.transfer_payload Example.sig88 "10000000" Example.T0)
              (Example.sol_requirement "0.01")
              (Example.world (fun _ => Example.T0) "")
              (Example.key_of Example.wallet)
              (Example.key_of Example.merchant)
              10000000 10000000 Example.blockhash Example.unsigned []
              ltac:(vm_compute; reflexivity)
              ltac:(intros t'; vm_compute; discriminate)
              ltac:(intros t'; vm_compute; reflexivity)
              ltac:(vm_compute; reflexivity) ltac:(vm_compute; reflexivity)
              ltac:(vm_compute; reflexivity) ltac:(vm_compute; reflexivity)
              ltac:(lia)
              ltac:(intros t'; vm_compute; reflexivity)
              ltac:(vm_compute; reflexivity)
              ltac:(intros t'; vm_compute; reflexivity)
              ltac:(intros t'; vm_compute; reflexivity)) as (_ & _ & H).
  exact (f_equal (@List.length Event) H).
Defined.

